(** * The Fabric blockchain connector of FireFly: event dispatch and contract lifecycle

    A shallow embedding of [internal/blockchain/fabric/fabric.go] together
    with the data model of [pkg/blockchain] (plugin.go), and the properties
    of the batch-pin protocol handler, the event loop and the contract
    lifecycle manager.

    Conventions of the embedding:
    - a Go [string] is a [string] (a sequence of bytes), a [[]byte] is a
      [list byte];
    - a Go [error] is [option GoError]: [None] is [nil];
    - [map[string]interface{}] ([fftypes.JSONObject]) is a [gmap string JSON];
      a nil map reads like the empty map;
    - Go's [int] is the 64-bit two's-complement integer, carried in [Z] with
      the wrap-around written out ([int_add]);
    - code that calls back into the host or onto the wire runs in the state
      monad [M] over [World], which records every listener invocation and
      every frame handed to the websocket; a panic ends a computation with
      [Panics], in the world it had reached;
    - log lines are not modelled, they have no effect on the state. *)

From Stdlib Require Import ZArith QArith Strings.Ascii Strings.String Strings.Byte.
From stdpp Require Import gmap strings list pretty sorting.

#[local] Open Scope string_scope.
#[local] Open Scope list_scope.
#[local] Open Scope Z_scope.
#[local] Set Warnings "-register-all".

(** ** Go primitives *)

Module Go.

(** The value of an [error] that is not nil; [Error()] is its text. *)
Record GoError : Type := mkGoError { Error : string }.

Definition error : Type := option GoError.

(** A computation that may panic (a failed type assertion, a nil
    dereference) instead of returning. *)
Inductive outcome (A : Type) : Type :=
| Returns (a : A)
| Panics.
Arguments Returns {A} a.
Arguments Panics {A}.

(** [int]: 64-bit two's complement. *)
Definition int_wrap (z : Z) : Z := (z + 2 ^ 63) mod 2 ^ 64 - 2 ^ 63.
Definition int_add (a b : Z) : Z := int_wrap (a + b).
Definition MaxInt : Z := 2 ^ 63 - 1.
Definition MinInt : Z := - 2 ^ 63.

(** [int(x)] of a [float64] that holds the rational [x]: truncation
    towards zero; out of range the amd64 conversion yields [MinInt]. *)
Definition int_of_float64 (x : Q) : Z :=
  let t := Z.quot (Qnum x) (Z.pos (Qden x)) in
  if (MinInt <=? t) && (t <=? MaxInt) then t else MinInt.

(** [len(s)] *)
Definition len (s : string) : nat := String.length s.

(** [s[n:]] for [n <= len(s)] *)
Fixpoint slice_from (n : nat) (s : string) : string :=
  match n, s with
  | O, _ => s
  | S n', String _ s' => slice_from n' s'
  | S _, EmptyString => EmptyString
  end.

(** [strings.HasPrefix(s, prefix)] *)
Definition strings_HasPrefix (s prefix : string) : bool := String.prefix prefix s.

(** [strings.TrimPrefix(s, prefix)] *)
Definition strings_TrimPrefix (s prefix : string) : string :=
  if strings_HasPrefix s prefix then slice_from (len prefix) s else s.

(** [strings.Contains(s, substr)] *)
Fixpoint strings_Contains (s substr : string) : bool :=
  String.prefix substr s ||
  match s with
  | EmptyString => false
  | String _ s' => strings_Contains s' substr
  end.

(** [encoding/hex]: the value of one hex digit. *)
Definition fromHexChar (c : ascii) : option N :=
  let n := N_of_ascii c in
  if (48 <=? n)%N && (n <=? 57)%N then Some (n - 48)%N
  else if (97 <=? n)%N && (n <=? 102)%N then Some (n - 97 + 10)%N
  else if (65 <=? n)%N && (n <=? 70)%N then Some (n - 65 + 10)%N
  else None.

(** [hex.DecodeString(s)], as far as its caller looks at it: the decoded
    bytes when [err == nil], [None] when an error is returned (a byte that
    is no hex digit, or an odd length). *)
Fixpoint hex_DecodeString (s : string) : option (list byte) :=
  match s with
  | EmptyString => Some []
  | String _ EmptyString => None
  | String a (String b rest) =>
      match fromHexChar a, fromHexChar b with
      | Some hi, Some lo =>
          match hex_DecodeString rest with
          | Some bs => Some (byte_of_ascii (ascii_of_N (16 * hi + lo)) :: bs)
          | None => None
          end
      | _, _ => None
      end
  end.

(** [fmt.Sprintf("%d", z)] *)
Definition fmt_d (z : Z) : string :=
  match z with
  | Z0 => "0"
  | Z.pos p => pretty (N.pos p)
  | Z.neg p => "-" +:+ pretty (N.pos p)
  end.

Fixpoint zeros (n : nat) : string :=
  match n with
  | O => EmptyString
  | S n' => String "0"%char (zeros n')
  end.

(** [fmt.Sprintf("%.<prec>d", z)]: at least [prec] digits, padded with
    leading zeros, the sign in front. *)
Definition fmt_d_prec (prec : nat) (z : Z) : string :=
  let digits := match z with Z0 => "" | _ => pretty (Z.abs_N z) end in
  let padded := zeros (prec - String.length digits) +:+ digits in
  if z <? 0 then "-" +:+ padded else padded.

End Go.
Export Go.

(** ** JSON values and the [fftypes] helpers *)

(** What [json.Unmarshal] puts into an [interface{}]: nil, bool, float64
    (a JSON number; the rational it holds), string, [[]interface{}] and
    [map[string]interface{}]. *)
Inductive JSON : Type :=
| JNull
| JBool (b : bool)
| JNumber (x : Q)
| JString (s : string)
| JArray (l : list JSON)
| JObject (m : gmap string JSON).

(** [fftypes.JSONObject] *)
Abbreviation JSONObject := (gmap string JSON).

(** [fftypes.UUID] is [[16]byte], [fftypes.Bytes32] is [[32]byte]. *)
Definition UUID : Type := list byte.
Definition Bytes32 : Type := list byte.

(** ** The canonical data model ([pkg/core], [pkg/blockchain]) *)

(** Modelled from the spec: [core.VerifierType] and [core.VerifierRef]
    ([pkg/core] is not among the sources), the chain-specific identity
    reference attributed to the signer of an event: a type and a value. *)
Inductive VerifierType : Type :=
| VerifierTypeEthAddress
| VerifierTypeMSPIdentity
| VerifierTypeFFDID.

Record VerifierRef : Type := mkVerifierRef {
  vr_Type : VerifierType;
  vr_Value : string
}.

(** Modelled from the spec: [core.OpStatus] ([pkg/core] is not among the
    sources), of which [blockchain.TransactionStatus] is an alias; the
    connector maps a receipt to one of its two final values, succeeded and
    failed. *)
Inductive OpStatus : Type :=
| OpStatusPending
| OpStatusSucceeded
| OpStatusFailed.

(** [blockchain.Event]; [Timestamp] holds the Unix seconds handed to
    [fftypes.UnixTime]. *)
Record Event : Type := mkEvent {
  ev_Source : string;
  ev_Name : string;
  ev_ProtocolID : string;
  ev_Output : JSONObject;
  ev_Info : JSONObject;
  ev_Timestamp : Z;
  ev_BlockchainTXID : string;
  ev_Location : string;
  ev_Signature : string
}.

(** [blockchain.BatchPin] *)
Record BatchPin : Type := mkBatchPin {
  bp_Namespace : string;
  bp_TransactionID : UUID;
  bp_BatchID : UUID;
  bp_BatchHash : Bytes32;
  bp_BatchPayloadRef : string;
  bp_Contexts : list Bytes32;
  bp_Event : Event
}.

(** [blockchain.EventWithSubscription] *)
Record EventWithSubscription : Type := mkEventWithSubscription {
  ews_Event : Event;
  ews_Subscription : string
}.

(** Modelled from the spec: [core.FireFlyContractInfo] and
    [core.FireFlyContracts] ([pkg/core] is not among the sources), the
    contract deployment record: the active deployment (index, info blob,
    final event once terminated) and the ordered list of the terminated
    ones. *)
Record FireFlyContractInfo : Type := mkFireFlyContractInfo {
  ci_Index : Z;
  ci_FinalEvent : string;
  ci_Info : JSONObject
}.

Record FireFlyContracts : Type := mkFireFlyContracts {
  Active : FireFlyContractInfo;
  Terminated : list FireFlyContractInfo
}.

(** [blockchain.FireFlyActionPrefix] *)
Definition FireFlyActionPrefix : string := "firefly:".

(** ** The wire structs of the connector

    [type PrefixItem struct], [type PayloadSchema struct],
    [type fabTxInputHeaders struct], [type fabError struct],
    [type fabQueryNamedOutput struct] *)
Record PrefixItem : Type := mkPrefixItem {
  pi_Name : string;
  pi_Type : string
}.

Record PayloadSchema : Type := mkPayloadSchema {
  ps_Type : string;
  ps_PrefixItems : list PrefixItem
}.

Record fabTxInputHeaders : Type := mkfabTxInputHeaders {
  h_ID : string;
  h_Type : string;
  h_PayloadSchema : option PayloadSchema;
  h_Signer : string;
  h_Channel : string;
  h_Chaincode : string
}.

Record fabError : Type := mkfabError {
  fe_Error : string
}.

Record fabQueryNamedOutput : Type := mkfabQueryNamedOutput {
  qo_Headers : option fabTxInputHeaders;
  qo_Result : JSON
}.

(** ** What the connector takes from outside this repository

    The connector is written against the Go standard library and
    [firefly-common]. Their behaviour enters the embedding through this
    class, field by field; every property below holds for every
    implementation of it. Configuration keys and message keys that the
    connector names but does not define are fields as well. *)

(** The message keys of [coremsgs] and [i18n] that the connector raises. *)
Inductive MsgKey : Type :=
| MsgInvalidFireFlyContractIndex
| MsgMissingPluginConfig
| MsgFabconnectRESTErr
| MsgJSONObjectParseFailed
| MsgOverrideExistingFieldCustomOption.

(** A [resty.Response], as far as the connector looks at it. *)
Record Response : Type := mkResponse {
  StatusCode : Z;
  Body : list byte
}.

(** [res.IsSuccess()]: a 2xx status. *)
Definition IsSuccess (res : Response) : bool :=
  (199 <? StatusCode res) && (StatusCode res <? 300).

Class Platform : Type := {
  (** [base64.StdEncoding.DecodeString]; [None] when it returns an error *)
  base64_DecodeString : string -> option (list byte);
  (** [json.Unmarshal(b, &v)] for [v interface{}] *)
  json_Unmarshal : list byte -> GoError + JSON;
  (** [json.Marshal(v)] *)
  json_Marshal : JSON -> GoError + list byte;
  (** [json.Unmarshal(b, output)] for [output *fabQueryNamedOutput] *)
  json_Unmarshal_fabQueryNamedOutput : list byte -> GoError + fabQueryNamedOutput;
  (** [fftypes.JSONAnyPtrBytes(b).JSONObjectOk()]; [None] when [ok] is false *)
  JSONAny_JSONObjectOk : list byte -> option JSONObject;
  (** the conversions behind [JSONObject.GetString], [GetInt64],
      [GetStringArray] and [GetObject], applied to the entry found (or not
      found) under the key *)
  entry_string : option JSON -> string;
  entry_int64 : option JSON -> Z;
  entry_string_array : option JSON -> list string;
  entry_object : option JSON -> JSONObject;
  (** [Bytes32.UnmarshalText] into a zero value: [Returns None] when it
      returns an error. It decodes the text with [hex.Decode] into the 32
      bytes of the array without looking at its length first, and panics
      (index out of range) on a text that holds more than 32 bytes of hex *)
  Bytes32_UnmarshalText : string -> outcome (option Bytes32);
  (** [i18n.NewError(ctx, key, args...)] and [i18n.WrapError(ctx, err, key, args...)] *)
  i18n_NewError : MsgKey -> list string -> GoError;
  i18n_WrapError : error -> MsgKey -> list string -> GoError;
  (** [ffresty.WrapRestErr(ctx, res, err, key)] *)
  ffresty_WrapRestErr : option Response -> error -> MsgKey -> GoError;
  (** [fullIdentityPattern.FindStringSubmatch] and
      [cnPattern.FindStringSubmatch]: [None] when there is no match,
      otherwise the match and its one group *)
  fullIdentityPattern_FindStringSubmatch : string -> option (string * string);
  cnPattern_FindStringSubmatch : string -> option (string * string);
  (** configuration keys (config.go of the connector) *)
  FireFlyContractChaincode : string;
  FireFlyContractFromBlock : string;
  FabconnectConfigChaincodeDeprecated : string;
  (** [core.SubOptsFirstEventOldest] *)
  SubOptsFirstEventOldest : string
}.

Section Accessors.
Context `{Platform}.

(** [jd.GetString(key)] and its siblings: look the key up, convert. *)
Definition GetString (jd : JSONObject) (key : string) : string :=
  entry_string (jd !! key).
Definition GetInt64 (jd : JSONObject) (key : string) : Z :=
  entry_int64 (jd !! key).
Definition GetStringArray (jd : JSONObject) (key : string) : list string :=
  entry_string_array (jd !! key).
Definition GetObject (jd : JSONObject) (key : string) : JSONObject :=
  entry_object (jd !! key).
End Accessors.

(** ** Listeners, the world and the callback fan-out *)

(** One invocation of a method of [blockchain.Callbacks], with its
    arguments (the [plugin] argument of [BlockchainOpUpdate] is the
    connector itself). *)
Inductive Call : Type :=
| CallBlockchainOpUpdate (nsOpID : string) (txState : OpStatus)
    (blockchainTXID errorMessage : string) (opOutput : JSONObject)
| CallBatchPinComplete (batch : BatchPin) (signingKey : VerifierRef)
| CallBlockchainNetworkAction (action : string) (event : Event) (signingKey : VerifierRef)
| CallBlockchainEvent (event : EventWithSubscription).

(** The log of deliveries: which listener (its position in
    [callbacks.listeners]) was invoked with what, oldest first. *)
Definition CallLog : Type := list (nat * Call).

(** A registered listener: the host's implementation of
    [blockchain.Callbacks]. What it answers may depend on everything
    delivered so far. [BlockchainOpUpdate] returns nothing. *)
Record Callbacks : Type := mkCallbacks {
  BatchPinComplete : CallLog -> BatchPin -> VerifierRef -> error;
  BlockchainNetworkAction : CallLog -> string -> Event -> VerifierRef -> error;
  BlockchainEvent : CallLog -> EventWithSubscription -> error
}.

(** What a listener returns for a call. *)
Definition answer (l : Callbacks) (log : CallLog) (c : Call) : error :=
  match c with
  | CallBlockchainOpUpdate _ _ _ _ _ => None
  | CallBatchPinComplete batch signingKey => BatchPinComplete l log batch signingKey
  | CallBlockchainNetworkAction action event signingKey =>
      BlockchainNetworkAction l log action event signingKey
  | CallBlockchainEvent event => BlockchainEvent l log event
  end.

(** The websocket client ([wsclient.WSClient]): whether [Send] fails may
    depend on what was handed to it before. *)
Record WSClient : Type := mkWSClient {
  Send : list (list byte) -> list byte -> error
}.

(** Everything the connector acts on outside its own fields. *)
Record World : Type := mkWorld {
  calls : CallLog;              (* deliveries to listeners *)
  sent : list (list byte);      (* frames handed to wsconn.Send *)
  wsClosed : bool;              (* wsconn.Close() was called *)
  closed : bool                 (* the closed channel was closed *)
}.

(** A computation on the world: it returns a value or panics, and leaves
    the world as far as it came. *)
Definition M (A : Type) : Type := World -> outcome A * World.

Definition ret {A} (a : A) : M A := fun w => (Returns a, w).
Definition bind {A B} (c : M A) (k : A -> M B) : M B :=
  fun w =>
    match c w with
    | (Returns a, w') => k a w'
    | (Panics, w') => (Panics, w')
    end.
Definition panic {A} : M A := fun w => (Panics, w).

Notation "'let*' x ':=' c 'in' k" := (bind c (fun x => k))
  (at level 10, x name, c at level 100, k at level 200).

(** Invoke one listener: log the delivery, return its answer. *)
Definition deliver (i : nat) (l : Callbacks) (c : Call) : M error :=
  fun w =>
    (Returns (answer l (calls w) c),
     mkWorld (calls w ++ [(i, c)]) (sent w) (wsClosed w) (closed w)).

(** The loop shared by [callbacks.BatchPinComplete],
    [callbacks.BlockchainNetworkAction] and [callbacks.BlockchainEvent]:
    listeners in registration order, the first error returned at once. *)
Fixpoint fanout (i : nat) (listeners : list Callbacks) (c : Call) : M error :=
  match listeners with
  | [] => ret None
  | cb :: rest =>
      let* err := deliver i cb c in
      match err with
      | Some e => ret (Some e)
      | None => fanout (S i) rest c
      end
  end.

(** The loop of [callbacks.BlockchainOpUpdate]: every listener, nothing
    returned. *)
Fixpoint fanout_all (i : nat) (listeners : list Callbacks) (c : Call) : M unit :=
  match listeners with
  | [] => ret tt
  | cb :: rest =>
      let* _ := deliver i cb c in
      fanout_all (S i) rest c
  end.

(** [type callbacks struct { listeners []blockchain.Callbacks }] *)
Record callbacks : Type := mkcallbacks {
  listeners : list Callbacks
}.

Definition callbacks_BlockchainOpUpdate (cb : callbacks) (nsOpID : string)
    (txState : OpStatus) (blockchainTXID errorMessage : string)
    (opOutput : JSONObject) : M unit :=
  fanout_all 0 (listeners cb)
    (CallBlockchainOpUpdate nsOpID txState blockchainTXID errorMessage opOutput).

Definition callbacks_BatchPinComplete (cb : callbacks) (batch : BatchPin)
    (signingKey : VerifierRef) : M error :=
  fanout 0 (listeners cb) (CallBatchPinComplete batch signingKey).

Definition callbacks_BlockchainNetworkAction (cb : callbacks) (action : string)
    (event : Event) (signingKey : VerifierRef) : M error :=
  fanout 0 (listeners cb) (CallBlockchainNetworkAction action event signingKey).

Definition callbacks_BlockchainEvent (cb : callbacks)
    (event : EventWithSubscription) : M error :=
  fanout 0 (listeners cb) (CallBlockchainEvent event).

(** ** The connector *)

(** [type Location struct] *)
Record Location : Type := mkLocation {
  Channel : string;
  Chaincode : string
}.

(** A value of the request body [map[string]interface{}] built by
    [buildFabconnectRequestBody]. *)
Inductive BodyValue : Type :=
| BodyHeaders (h : fabTxInputHeaders)
| BodyString (s : string)
| BodyArgs (args : gmap string string)
| BodyOption (v : JSON).

(** The [resty] client the connector posts with: what a request
    comes back with, [SetError(&resErr)] included. *)
Record RestyResult : Type := mkRestyResult {
  rr_res : Response;
  rr_err : error;
  rr_resErr : fabError
}.

Record resty_Client : Type := mkresty_Client {
  Post : string -> gmap string BodyValue -> RestyResult
}.

(** Modelled from the spec: the [subscription] and the [streamManager] of
    eventstream.go, which is not among the sources.
    [ensureFireFlySubscription(ctx, location, fromBlock, stream, event)]
    finds or creates the subscription of a deployment, or fails with a
    management-API error; the connector reads the ID of the subscription. *)
Record subscription : Type := mksubscription {
  sub_ID : string
}.

Record streamManager : Type := mkstreamManager {
  ensureFireFlySubscription :
    Location -> string -> string -> string -> GoError + subscription
}.

(** The mutex-guarded [fireflyContract] struct of [Fabric]. Locking is not
    modelled: the embedding is sequential. *)
Record fireflyContract : Type := mkfireflyContract {
  fc_chaincode : string;
  fc_fromBlock : string;
  fc_networkVersion : Z;
  fc_subscription : string
}.

(** [type Fabric struct], without the context, the identity cache, the
    metrics and the capabilities. [f_fabconnectConf key] is
    [f.fabconnectConf.GetString(key)] and [f_contractConf i key] is
    [f.contractConf.ArrayEntry(i).GetString(key)]. *)
Record Fabric : Type := mkFabric {
  f_topic : string;
  f_defaultChannel : string;
  f_signer : string;
  f_callbacks : callbacks;
  f_client : resty_Client;
  f_streams : streamManager;
  f_streamID : string;
  f_fireflyContract : fireflyContract;
  f_wsconn : WSClient;
  f_fabconnectConf : string -> string;
  f_contractConf : Z -> string -> string;
  f_contractConfSize : Z
}.

Definition broadcastBatchEventName : string := "BatchPin".
Definition batchPinEvent : string := "BatchPin".
Definition networkVersionMethodName : string := "NetworkVersion".

(** [func (f *Fabric) Name() string] *)
Definition Name (f : Fabric) : string := "fabric".

(** [func (f *Fabric) buildEventLocationString(chaincode string) string] *)
Definition buildEventLocationString (f : Fabric) (chaincode : string) : string :=
  "chaincode=" +:+ chaincode.

Section Connector.
Context `{Platform}.

(** *** Decoding *)

(** [func decodeJSONPayload]: [None] is the nil pointer. *)
Definition decodeJSONPayload (payloadString : string) : option JSONObject :=
  match base64_DecodeString payloadString with
  | None => None
  | Some bytes => JSONAny_JSONObjectOk bytes
  end.

(** [func (f *Fabric) parseBlockchainEvent]. The function deletes the
    payload from the map it was given, which its caller still holds: the
    second component is that map after the call. *)
Definition parseBlockchainEvent (f : Fabric) (msgJSON : JSONObject)
    : option Event * JSONObject :=
  let payloadString := GetString msgJSON "payload" in
  match decodeJSONPayload payloadString with
  | None => (None, msgJSON)
  | Some payload =>
      let sTransactionHash := GetString msgJSON "transactionId" in
      let blockNumber := GetInt64 msgJSON "blockNumber" in
      let transactionIndex := GetInt64 msgJSON "transactionIndex" in
      let eventIndex := GetInt64 msgJSON "eventIndex" in
      let name := GetString msgJSON "eventName" in
      let timestamp := GetInt64 msgJSON "timestamp" in
      let chaincode := GetString msgJSON "chaincodeId" in
      let msgJSON' := delete "payload" msgJSON in
      (Some {| ev_BlockchainTXID := sTransactionHash;
               ev_Source := Name f;
               ev_Name := name;
               ev_ProtocolID :=
                 fmt_d_prec 12 blockNumber +:+ "/" +:+
                 fmt_d_prec 6 transactionIndex +:+ "/" +:+
                 fmt_d_prec 6 eventIndex;
               ev_Output := payload;
               ev_Info := msgJSON';
               ev_Timestamp := timestamp;
               ev_Location := buildEventLocationString f chaincode;
               ev_Signature := name |},
       msgJSON')
  end.

(** The loop over [sContexts] in [handleBatchPinEvent]: [contexts[i]] is
    the hash decoded from [sContexts[i]]; the first one that does not
    decode ends the handler ([Returns None]), unless [UnmarshalText]
    panics on it. *)
Fixpoint decodeContexts (sContexts : list string) : outcome (option (list Bytes32)) :=
  match sContexts with
  | [] => Returns (Some [])
  | sHash :: rest =>
      match Bytes32_UnmarshalText sHash with
      | Panics => Panics
      | Returns None => Returns None
      | Returns (Some hash) =>
          match decodeContexts rest with
          | Panics => Panics
          | Returns None => Returns None
          | Returns (Some contexts) => Returns (Some (hash :: contexts))
          end
      end
  end.

(** *** Handlers *)

(** [func (f *Fabric) handleBatchPinEvent]. It panics where
    [UnmarshalText] does, on the batch hash or on a context. *)
Definition handleBatchPinEvent (f : Fabric) (msgJSON : JSONObject) : M error :=
  match fst (parseBlockchainEvent f msgJSON) with
  | None => ret None (* move on *)
  | Some event =>
      let signer := GetString (ev_Output event) "signer" in
      let nsOrAction := GetString (ev_Output event) "namespace" in
      let sUUIDs := GetString (ev_Output event) "uuids" in
      let sBatchHash := GetString (ev_Output event) "batchHash" in
      let sPayloadRef := GetString (ev_Output event) "payloadRef" in
      let sContexts := GetStringArray (ev_Output event) "contexts" in
      let verifier := {| vr_Type := VerifierTypeMSPIdentity; vr_Value := signer |} in
      (* Check if this is actually an operator action *)
      if strings_HasPrefix nsOrAction FireFlyActionPrefix then
        let action := slice_from (len FireFlyActionPrefix) nsOrAction in
        callbacks_BlockchainNetworkAction (f_callbacks f) action event verifier
      else
        match hex_DecodeString (strings_TrimPrefix sUUIDs "0x") with
        | None => ret None (* move on *)
        | Some hexUUIDs =>
            if negb (length hexUUIDs =? 32)%nat then ret None (* move on *)
            else
              let txnID := take 16 hexUUIDs in
              let batchID := take 16 (drop 16 hexUUIDs) in
              match Bytes32_UnmarshalText sBatchHash with
              | Panics => panic
              | Returns None => ret None (* move on *)
              | Returns (Some batchHash) =>
                  match decodeContexts sContexts with
                  | Panics => panic
                  | Returns None => ret None (* move on *)
                  | Returns (Some contexts) =>
                      let batch :=
                        {| bp_Namespace := nsOrAction;
                           bp_TransactionID := txnID;
                           bp_BatchID := batchID;
                           bp_BatchHash := batchHash;
                           bp_BatchPayloadRef := sPayloadRef;
                           bp_Contexts := contexts;
                           bp_Event := event |} in
                      callbacks_BatchPinComplete (f_callbacks f) batch verifier
                  end
              end
        end
  end.

(** [func (f *Fabric) handleContractEvent]: the subscription is read from
    the map after [parseBlockchainEvent] has deleted the payload from it. *)
Definition handleContractEvent (f : Fabric) (msgJSON : JSONObject) : M error :=
  match parseBlockchainEvent f msgJSON with
  | (None, _) => ret None (* move on *)
  | (Some event, msgJSON') =>
      callbacks_BlockchainEvent (f_callbacks f)
        {| ews_Event := event;
           ews_Subscription := GetString msgJSON' "subId" |}
  end.

(** [func (f *Fabric) handleReceipt] *)
Definition handleReceipt (f : Fabric) (reply : JSONObject) : M unit :=
  let headers := GetObject reply "headers" in
  let requestID := GetString headers "requestId" in
  let replyType := GetString headers "type" in
  let txHash := GetString reply "transactionId" in
  let message := GetString reply "errorMessage" in
  if (requestID =? "")%string || (replyType =? "")%string then ret tt
  else
    let updateType :=
      if negb (replyType =? "TransactionSuccess")%string
      then OpStatusFailed else OpStatusSucceeded in
    callbacks_BlockchainOpUpdate (f_callbacks f) requestID updateType txHash message reply.

(** How one pass through the body of the loop of [handleMessageBatch]
    ends: with the next message, or with a [return]. *)
Inductive loopCtl : Type :=
| Continue
| Return (err : error).

(** The body of the [for i, msgI := range messages] loop. *)
Definition handleMessage (f : Fabric) (msgI : JSON) : M loopCtl :=
  match msgI with
  | JObject msgJSON =>
      let eventName := GetString msgJSON "eventName" in
      let sub := GetString msgJSON "subId" in
      let fireflySub := fc_subscription (f_fireflyContract f) in
      if (sub =? fireflySub)%string then
        (* Matches the active FireFly BatchPin subscription *)
        if (eventName =? broadcastBatchEventName)%string then
          let* err := handleBatchPinEvent f msgJSON in
          match err with
          | Some e => ret (Return (Some e))
          | None => ret Continue
          end
        else ret Continue
      else
        (* Subscription not recognized *)
        let* err := handleContractEvent f msgJSON in
        match err with
        | Some e => ret (Return (Some e))
        | None => ret Continue
        end
  | _ => ret (Return None) (* Swallow this and move on *)
  end.

(** [func (f *Fabric) handleMessageBatch] *)
Fixpoint handleMessageBatch (f : Fabric) (messages : list JSON) : M error :=
  match messages with
  | [] => ret None
  | msgI :: rest =>
      let* ctl := handleMessage f msgI in
      match ctl with
      | Continue => handleMessageBatch f rest
      | Return err => ret err
      end
  end.

End Connector.

(** ** The event loop *)

(** What one [select] of the loop comes back with: the context is done,
    or [msgBytes, ok := <-f.wsconn.Receive()] ([None] when the channel is
    closed). *)
Inductive Select : Type :=
| CtxDone
| Receive (msgBytes : option (list byte)).

(** Why [eventLoop] returned. *)
Inductive LoopExit : Type :=
| ExitContextCancelled
| ExitReceiveClosed
| ExitError (err : GoError).

Section EventLoop.
Context `{Platform}.

(** [f.wsconn.Send(ctx, b)] *)
Definition wsconn_Send (f : Fabric) (b : list byte) : M error :=
  fun w =>
    (Returns (Send (f_wsconn f) (sent w) b),
     mkWorld (calls w) (sent w ++ [b]) (wsClosed w) (closed w)).

(** The deferred calls of [eventLoop], run when it returns:
    [close(f.closed)], then [f.wsconn.Close()]. *)
Definition eventLoop_return (why : LoopExit) : M (option LoopExit) :=
  fun w => (Returns (Some why), mkWorld (calls w) (sent w) true true).

(** They also run when a panic unwinds through [eventLoop], which does
    not recover from it. *)
Definition eventLoop_unwind {A} (c : M A) : M A :=
  fun w =>
    match c w with
    | (Panics, w') => (Panics, mkWorld (calls w') (sent w') true true)
    | (Returns a, w') => (Returns a, w')
    end.

(** [ack, _ := json.Marshal(map[string]string{"type": "ack", "topic": f.topic})] *)
Definition ack (f : Fabric) : list byte :=
  match json_Marshal
          (JObject (<["type" := JString "ack"]>
                    (<["topic" := JString (f_topic f)]> ∅))) with
  | inr b => b
  | inl _ => []
  end.

(** [func (f *Fabric) eventLoop], run on the outcomes of its successive
    [select]s. [Returns None]: every outcome was consumed and the loop is
    blocked in the next [select]. *)
Fixpoint eventLoop (f : Fabric) (selects : list Select) : M (option LoopExit) :=
  match selects with
  | [] => ret None
  | CtxDone :: _ => eventLoop_return ExitContextCancelled
  | Receive None :: _ => eventLoop_return ExitReceiveClosed
  | Receive (Some msgBytes) :: rest =>
      match json_Unmarshal msgBytes with
      | inl _ => eventLoop f rest (* Swallow this and move on *)
      | inr (JArray msgTyped) =>
          let* err := eventLoop_unwind (handleMessageBatch f msgTyped) in
          let* err :=
            match err with
            | None => wsconn_Send f (ack f)
            | Some e => ret (Some e)
            end in
          match err with
          | Some e => eventLoop_return (ExitError e)
          | None => eventLoop f rest
          end
      | inr (JObject msgTyped) =>
          let* _ := handleReceipt f msgTyped in
          eventLoop f rest
      | inr _ => eventLoop f rest
      end
  end.

End EventLoop.

(** ** The contract lifecycle *)

Section Lifecycle.
Context `{Platform}.

(** [func (f *Fabric) resolveFireFlyContract] *)
Definition resolveFireFlyContract (f : Fabric) (contractIndex : Z)
    : GoError + (string * string) :=
  if (0 <? f_contractConfSize f) || (0 <? contractIndex) then
    (* New config (array of objects under "fireflyContract") *)
    if f_contractConfSize f <=? contractIndex then
      inl (i18n_NewError MsgInvalidFireFlyContractIndex
             ["blockchain.fabric.fireflyContract[" +:+ fmt_d contractIndex +:+ "]"])
    else
      let chaincode := f_contractConf f contractIndex FireFlyContractChaincode in
      if (chaincode =? "")%string then
        inl (i18n_NewError MsgMissingPluginConfig
               ["chaincode"; "blockchain.fabric.fireflyContract"])
      else
        let fromBlock := f_contractConf f contractIndex FireFlyContractFromBlock in
        inr (chaincode, fromBlock)
  else
    (* Old config (attributes under "ethconnect") *)
    let chaincode := f_fabconnectConf f FabconnectConfigChaincodeDeprecated in
    if negb (chaincode =? "")%string then
      inr (chaincode, SubOptsFirstEventOldest)
    else
      inl (i18n_NewError MsgMissingPluginConfig
             ["chaincode"; "blockchain.fabric.fabconnect"]).

(** [func getUserName] *)
Definition getUserName (fullIDString : string) : string :=
  match fullIdentityPattern_FindStringSubmatch fullIDString with
  | None => fullIDString
  | Some (_, dn) =>
      match cnPattern_FindStringSubmatch dn with
      | Some (_, cn) => cn
      | None => ""
      end
  end.

(** The loop of [jsonEncodeInput] over the entries of [params] (Go
    leaves the order open; it only decides which of several marshalling
    errors is returned). *)
Fixpoint jsonEncodeInput_loop (entries : list (string * JSON))
    (output : gmap string string) : GoError + gmap string string :=
  match entries with
  | [] => inr output
  | (field, JString v) :: rest => jsonEncodeInput_loop rest (<[field := v]> output)
  | (field, v) :: rest =>
      match json_Marshal v with
      | inl err => inl err
      | inr encodedValue =>
          jsonEncodeInput_loop rest
            (<[field := string_of_list_byte encodedValue]> output)
      end
  end.

(** [func jsonEncodeInput] *)
Definition jsonEncodeInput (params : JSONObject) : GoError + gmap string string :=
  jsonEncodeInput_loop (map_to_list params) ∅.

(** The loop of [buildFabconnectRequestBody] over the custom options: an
    option may add a field to the body, never override one. *)
Fixpoint addOptions (options : list (string * JSON))
    (body : gmap string BodyValue) : GoError + gmap string BodyValue :=
  match options with
  | [] => inr body
  | (k, v) :: rest =>
      match body !! k with
      | None => addOptions rest (<[k := BodyOption v]> body)
      | Some _ => inl (i18n_NewError MsgOverrideExistingFieldCustomOption [k])
      end
  end.

(** [func (f *Fabric) buildFabconnectRequestBody] *)
Definition buildFabconnectRequestBody (f : Fabric)
    (channel chaincode methodName signingKey requestID : string)
    (prefixItems : list PrefixItem) (input options : JSONObject)
    : GoError + gmap string BodyValue :=
  match jsonEncodeInput input with
  | inl err => inl (i18n_WrapError (Some err) MsgJSONObjectParseFailed ["params"])
  | inr args =>
      let body : gmap string BodyValue :=
        <["headers" := BodyHeaders
            {| h_ID := requestID;
               h_Type := "";
               h_PayloadSchema :=
                 Some {| ps_Type := "array"; ps_PrefixItems := prefixItems |};
               h_Channel := channel;
               h_Chaincode := chaincode;
               h_Signer := getUserName signingKey |}]>
        (<["func" := BodyString methodName]>
         (<["args" := BodyArgs args]> ∅)) in
      addOptions (map_to_list options) body
  end.

(** [func wrapError]; [errRes] is never nil at its call sites. *)
Definition wrapError (errRes : fabError) (res : Response) (err : error) : GoError :=
  if negb (fe_Error errRes =? "")%string then
    i18n_WrapError err MsgFabconnectRESTErr [fe_Error errRes]
  else ffresty_WrapRestErr (Some res) err MsgFabconnectRESTErr.

(** [func (f *Fabric) queryContractMethod] *)
Definition queryContractMethod (f : Fabric)
    (channel chaincode methodName signingKey requestID : string)
    (prefixItems : list PrefixItem) (input options : JSONObject)
    : option Response * error :=
  match buildFabconnectRequestBody f channel chaincode methodName signingKey
          requestID prefixItems input options with
  | inl err => (None, Some err)
  | inr body =>
      let r := Post (f_client f) "/query" body in
      match rr_err r with
      | Some _ => (Some (rr_res r), Some (wrapError (rr_resErr r) (rr_res r) (rr_err r)))
      | None =>
          if negb (IsSuccess (rr_res r)) then
            (Some (rr_res r), Some (wrapError (rr_resErr r) (rr_res r) (rr_err r)))
          else (Some (rr_res r), None)
      end
  end.

(** [func (f *Fabric) getNetworkVersion]. It panics where the Go code
    does: [err.Error()] on a nil error, [res.IsSuccess()] on a nil
    response, and the type assertion [output.Result.(float64)] on a
    result that is no number. *)
Definition getNetworkVersion (f : Fabric) (chaincode : string)
    : outcome (Z * error) :=
  let notFoundError := "Function " +:+ networkVersionMethodName +:+ " not found" in
  let failed (err : error) : outcome (Z * error) :=
    match err with
    | None => Panics
    | Some e =>
        (* "Function not found" is interpreted as "default to version 1" *)
        if strings_Contains (Error e) notFoundError then Returns (1, None)
        else Returns (0, Some e)
    end in
  match queryContractMethod f (f_defaultChannel f) chaincode
          networkVersionMethodName (f_signer f) "" [] ∅ ∅ with
  | (_, Some e) => failed (Some e)
  | (None, None) => Panics
  | (Some res, None) =>
      if negb (IsSuccess res) then failed None
      else
        match json_Unmarshal_fabQueryNamedOutput (Body res) with
        | inl err => Returns (0, Some err)
        | inr output =>
            match qo_Result output with
            | JNumber x => Returns (int_of_float64 x, None)
            | _ => Panics
            end
        end
  end.

(** [func (f *Fabric) ConfigureContract]: the error it returns, the
    connector and the [contracts] it was given a pointer to, after the
    call. *)
Definition ConfigureContract (f : Fabric) (contracts : FireFlyContracts)
    : outcome (error * Fabric * FireFlyContracts) :=
  match resolveFireFlyContract f (ci_Index (Active contracts)) with
  | inl err => Returns (Some err, f, contracts)
  | inr (chaincode, fromBlock) =>
      let location :=
        {| Channel := f_defaultChannel f; Chaincode := chaincode |} in
      match ensureFireFlySubscription (f_streams f) location fromBlock
              (f_streamID f) batchPinEvent with
      | inl err => Returns (Some err, f, contracts)
      | inr sub =>
          match getNetworkVersion f chaincode with
          | Panics => Panics
          | Returns (_, Some err) => Returns (Some err, f, contracts)
          | Returns (version, None) =>
              let f' :=
                mkFabric (f_topic f) (f_defaultChannel f) (f_signer f)
                  (f_callbacks f) (f_client f) (f_streams f) (f_streamID f)
                  {| fc_chaincode := chaincode;
                     fc_fromBlock := fromBlock;
                     fc_networkVersion := version;
                     fc_subscription := sub_ID sub |}
                  (f_wsconn f) (f_fabconnectConf f) (f_contractConf f)
                  (f_contractConfSize f) in
              let contracts' :=
                {| Active :=
                     {| ci_Index := ci_Index (Active contracts);
                        ci_FinalEvent := ci_FinalEvent (Active contracts);
                        ci_Info :=
                          <["chaincode" := JString chaincode]>
                          (<["fromBlock" := JString fromBlock]>
                           (<["subscription" := JString (sub_ID sub)]> ∅)) |};
                   Terminated := Terminated contracts |} in
              Returns (None, f', contracts')
          end
      end
  end.

(** [func (f *Fabric) TerminateContract] *)
Definition TerminateContract (f : Fabric) (contracts : FireFlyContracts)
    (termination : Event) : outcome (error * Fabric * FireFlyContracts) :=
  let chaincode := GetString (ev_Info termination) "chaincodeId" in
  let fireflyChaincode := fc_chaincode (f_fireflyContract f) in
  if negb (chaincode =? fireflyChaincode)%string then
    (* Ignoring termination request from a chaincode that is not active *)
    Returns (None, f, contracts)
  else
    let stamped :=
      {| ci_Index := ci_Index (Active contracts);
         ci_FinalEvent := ev_ProtocolID termination;
         ci_Info := ci_Info (Active contracts) |} in
    let contracts1 :=
      {| Active :=
           {| ci_Index := int_add (ci_Index (Active contracts)) 1;
              ci_FinalEvent := "";
              ci_Info := ∅ |};
         Terminated := Terminated contracts ++ [stamped] |} in
    ConfigureContract f contracts1.

(** [func (f *Fabric) NetworkVersion] *)
Definition NetworkVersion (f : Fabric) : Z :=
  fc_networkVersion (f_fireflyContract f).

End Lifecycle.

(** ** Listeners and submissions *)

(** [func (f *Fabric) RegisterListener] *)
Definition RegisterListener (f : Fabric) (listener : Callbacks) : Fabric :=
  mkFabric (f_topic f) (f_defaultChannel f) (f_signer f)
    (mkcallbacks (listeners (f_callbacks f) ++ [listener]))
    (f_client f) (f_streams f) (f_streamID f) (f_fireflyContract f)
    (f_wsconn f) (f_fabconnectConf f) (f_contractConf f) (f_contractConfSize f).

(** [encoding/hex]: [const hextable = "0123456789abcdef"] and
    [hex.EncodeToString(src)]. *)
Definition hextable : string := "0123456789abcdef".

Definition hexdigit (n : N) : ascii :=
  default "0"%char (String.get (N.to_nat n) hextable).

Fixpoint hex_EncodeToString (src : list byte) : string :=
  match src with
  | [] => EmptyString
  | v :: rest =>
      String (hexdigit (N.shiftr (Byte.to_N v) 4))
        (String (hexdigit (N.land (Byte.to_N v) 15)) (hex_EncodeToString rest))
  end.

(** [func hexFormatB32]; [None] is the nil pointer, and [b[0:32]] is the
    whole of the array. *)
Definition hexFormatB32 (b : option Bytes32) : string :=
  match b with
  | None => "0x0000000000000000000000000000000000000000000000000000000000000000"
  | Some b => "0x" +:+ hex_EncodeToString b
  end.

(** [copy(dst[0:16], src[:])] into a zeroed [dst]: the 16 bytes of a
    [UUID]. *)
Definition copy16 (src : list byte) : list byte :=
  take 16 (src ++ replicate 16 x00).

Definition batchPinMethodName : string := "PinBatch".

Definition batchPinPrefixItems : list PrefixItem :=
  [ {| pi_Name := "namespace"; pi_Type := "string" |};
    {| pi_Name := "uuids"; pi_Type := "string" |};
    {| pi_Name := "batchHash"; pi_Type := "string" |};
    {| pi_Name := "payloadRef"; pi_Type := "string" |};
    {| pi_Name := "contexts"; pi_Type := "string" |} ].

Section Submit.
Context `{Platform}.

(** [func (f *Fabric) invokeContractMethod]: the request goes to
    [/transactions] (with the fixed header [x-firefly-sync: false]). *)
Definition invokeContractMethod (f : Fabric)
    (channel chaincode methodName signingKey requestID : string)
    (prefixItems : list PrefixItem) (input options : JSONObject) : error :=
  match buildFabconnectRequestBody f channel chaincode methodName signingKey
          requestID prefixItems input options with
  | inl err => Some err
  | inr body =>
      let r := Post (f_client f) "/transactions" body in
      match rr_err r with
      | Some _ => Some (wrapError (rr_resErr r) (rr_res r) (rr_err r))
      | None =>
          if negb (IsSuccess (rr_res r)) then
            Some (wrapError (rr_resErr r) (rr_res r) (rr_err r))
          else None
      end
  end.

(** [input, _ := jsonEncodeInput(pinInput)]: the error is dropped, and
    with it the input. *)
Definition encodedInput (pinInput : JSONObject) : JSONObject :=
  match jsonEncodeInput pinInput with
  | inr output => JString <$> output
  | inl _ => ∅
  end.

(** [func (f *Fabric) SubmitBatchPin], for a batch whose IDs and hashes
    are set (the fields of [BatchPin] are pointers in Go). *)
Definition SubmitBatchPin (f : Fabric) (nsOpID signingKey : string)
    (batch : BatchPin) : error :=
  let hashes := (fun v => hexFormatB32 (Some v)) <$> bp_Contexts batch in
  let uuids := copy16 (bp_TransactionID batch) ++ copy16 (bp_BatchID batch) in
  let pinInput : JSONObject :=
    <["namespace" := JString (bp_Namespace batch)]>
    (<["uuids" := JString (hexFormatB32 (Some uuids))]>
     (<["batchHash" := JString (hexFormatB32 (Some (bp_BatchHash batch)))]>
      (<["payloadRef" := JString (bp_BatchPayloadRef batch)]>
       (<["contexts" := JArray (JString <$> hashes)]> ∅)))) in
  let input := encodedInput pinInput in
  let chaincode := fc_chaincode (f_fireflyContract f) in
  invokeContractMethod f (f_defaultChannel f) chaincode batchPinMethodName
    signingKey nsOpID batchPinPrefixItems input ∅.


End Submit.

(** ** A reference platform

    An implementation of [Platform] to run the connector on concrete
    frames: standard base64 with padding, a reader and a writer for JSON
    texts without escape sequences and with integer numbers, hex hashes
    with an optional [0x] decoded as [hex.Decode] does into 32 bytes, and
    error texts that carry their arguments. The properties below do not
    depend on it; their instances on concrete inputs are computed with
    it. *)

Module Reference.

(** *** base64 *)

Definition b64val (c : ascii) : option N :=
  let n := N_of_ascii c in
  if (65 <=? n)%N && (n <=? 90)%N then Some (n - 65)%N
  else if (97 <=? n)%N && (n <=? 122)%N then Some (n - 71)%N
  else if (48 <=? n)%N && (n <=? 57)%N then Some (n + 4)%N
  else if (n =? 43)%N then Some 62%N
  else if (n =? 47)%N then Some 63%N
  else None.

Definition byte_of_N (n : N) : byte := byte_of_ascii (ascii_of_N (n mod 256)).

Definition is_pad (c : ascii) : bool := (N_of_ascii c =? 61)%N.

Fixpoint base64_decode (s : string) : option (list byte) :=
  match s with
  | EmptyString => Some []
  | String a (String b (String c (String d rest))) =>
      match b64val a, b64val b with
      | Some x, Some y =>
          let b1 := byte_of_N (x * 4 + y / 16) in
          if is_pad c then
            if is_pad d && (rest =? "")%string then Some [b1] else None
          else
            match b64val c with
            | None => None
            | Some z =>
                let b2 := byte_of_N (y * 16 + z / 4) in
                if is_pad d then
                  if (rest =? "")%string then Some [b1; b2] else None
                else
                  match b64val d, base64_decode rest with
                  | Some t, Some bs => Some (b1 :: b2 :: byte_of_N (z * 64 + t) :: bs)
                  | _, _ => None
                  end
            end
      | _, _ => None
      end
  | _ => None
  end.

(** *** Reading JSON *)

Definition is_ws (c : ascii) : bool :=
  let n := N_of_ascii c in
  (n =? 32)%N || (n =? 9)%N || (n =? 10)%N || (n =? 13)%N.

Fixpoint skip_ws (s : string) : string :=
  match s with
  | String c rest => if is_ws c then skip_ws rest else s
  | EmptyString => s
  end.

Definition is_quote (c : ascii) : bool := (N_of_ascii c =? 34)%N.

(** The characters up to the closing quote, and what follows it. *)
Fixpoint read_string (s : string) : option (string * string) :=
  match s with
  | EmptyString => None
  | String c rest =>
      if is_quote c then Some (EmptyString, rest)
      else if (N_of_ascii c =? 92)%N then None
      else
        match read_string rest with
        | Some (str, rest') => Some (String c str, rest')
        | None => None
        end
  end.

Definition is_digit (c : ascii) : bool :=
  (48 <=? N_of_ascii c)%N && (N_of_ascii c <=? 57)%N.

Fixpoint read_digits (acc : Z) (s : string) : Z * string :=
  match s with
  | String c rest =>
      if is_digit c
      then read_digits (10 * acc + Z.of_N (N_of_ascii c - 48)) rest
      else (acc, s)
  | EmptyString => (acc, s)
  end.

Inductive goal : Type :=
| GValue
| GElements (acc : list JSON)
| GMembers (acc : JSONObject).

Fixpoint read (fuel : nat) (g : goal) (s : string) : option (JSON * string) :=
  match fuel with
  | O => None
  | S fuel' =>
      match g with
      | GValue =>
          match skip_ws s with
          | String "{" rest =>
              match skip_ws rest with
              | String "}" rest' => Some (JObject ∅, rest')
              | _ => read fuel' (GMembers ∅) rest
              end
          | String "[" rest =>
              match skip_ws rest with
              | String "]" rest' => Some (JArray [], rest')
              | _ => read fuel' (GElements []) rest
              end
          | String "t" (String "r" (String "u" (String "e" rest))) =>
              Some (JBool true, rest)
          | String "f" (String "a" (String "l" (String "s" (String "e" rest)))) =>
              Some (JBool false, rest)
          | String "n" (String "u" (String "l" (String "l" rest))) =>
              Some (JNull, rest)
          | String "-" (String c rest) =>
              if is_digit c then
                let (n, rest') := read_digits 0 (String c rest) in
                Some (JNumber (inject_Z (- n)), rest')
              else None
          | String c rest =>
              if is_quote c then
                match read_string rest with
                | Some (str, rest') => Some (JString str, rest')
                | None => None
                end
              else if is_digit c then
                let (n, rest') := read_digits 0 (String c rest) in
                Some (JNumber (inject_Z n), rest')
              else None
          | EmptyString => None
          end
      | GElements acc =>
          match read fuel' GValue s with
          | Some (v, rest) =>
              match skip_ws rest with
              | String "," rest' => read fuel' (GElements (acc ++ [v])) rest'
              | String "]" rest' => Some (JArray (acc ++ [v]), rest')
              | _ => None
              end
          | None => None
          end
      | GMembers acc =>
          match skip_ws s with
          | String c rest =>
              match (if is_quote c then read_string rest else None) with
              | Some (key, rest1) =>
                  match skip_ws rest1 with
                  | String ":" rest2 =>
                      match read fuel' GValue rest2 with
                      | Some (v, rest3) =>
                          match skip_ws rest3 with
                          | String "," rest4 => read fuel' (GMembers (<[key := v]> acc)) rest4
                          | String "}" rest4 => Some (JObject (<[key := v]> acc), rest4)
                          | _ => None
                          end
                      | None => None
                      end
                  | _ => None
                  end
              | None => None
              end
          | _ => None
          end
      end
  end.

Definition parse (text : string) : option JSON :=
  match read (S (String.length text)) GValue text with
  | Some (v, rest) =>
      match skip_ws rest with
      | EmptyString => Some v
      | _ => None
      end
  | None => None
  end.

(** [json.Unmarshal] and [JSONObjectOk]: a text that does not parse is
    an error; [null] unmarshals into a map without an error and leaves it
    nil. *)
Definition unmarshal (b : list byte) : GoError + JSON :=
  match parse (string_of_list_byte b) with
  | Some v => inr v
  | None => inl (mkGoError "invalid character in JSON text")
  end.

Definition objectOk (b : list byte) : option JSONObject :=
  match parse (string_of_list_byte b) with
  | Some (JObject m) => Some m
  | Some JNull => Some ∅
  | _ => None
  end.

(** *** Writing JSON *)

Definition quote : string := String (ascii_of_N 34) EmptyString.

Definition key_le (a b : string * JSON) : Prop := String.leb (fst a) (fst b) = true.

#[local] Instance key_le_dec a b : Decision (key_le a b).
Proof. unfold key_le. apply bool_eq_dec. Defined.

Fixpoint join (sep : string) (parts : list string) : string :=
  match parts with
  | [] => EmptyString
  | [p] => p
  | p :: rest => p +:+ sep +:+ join sep rest
  end.

(** Objects are written with their keys sorted, as [json.Marshal] does. *)
Fixpoint write (fuel : nat) (v : JSON) : string :=
  match fuel with
  | O => EmptyString
  | S fuel' =>
      match v with
      | JNull => "null"
      | JBool true => "true"
      | JBool false => "false"
      | JNumber x => fmt_d (int_of_float64 x)
      | JString str => quote +:+ str +:+ quote
      | JArray l => "[" +:+ join "," (map (write fuel') l) +:+ "]"
      | JObject m =>
          "{" +:+
          join ","
            (map (fun kv : string * JSON =>
                    quote +:+ fst kv +:+ quote +:+ ":" +:+ write fuel' (snd kv))
                 (merge_sort key_le (map_to_list m))) +:+
          "}"
      end
  end.

Definition marshal (v : JSON) : GoError + list byte :=
  inr (list_byte_of_string (write 64 v)).

Definition unmarshal_fabQueryNamedOutput (b : list byte)
    : GoError + fabQueryNamedOutput :=
  match parse (string_of_list_byte b) with
  | Some (JObject m) =>
      inr {| qo_Headers := None;
             qo_Result := default JNull (m !! "result") |}
  | Some JNull => inr {| qo_Headers := None; qo_Result := JNull |}
  | Some _ => inl (mkGoError "json: cannot unmarshal into Go value of type fabQueryNamedOutput")
  | None => inl (mkGoError "invalid character in JSON text")
  end.

(** *** The [fftypes] conversions *)

Definition to_string (entry : option JSON) : string :=
  match entry with
  | Some (JString str) => str
  | _ => EmptyString
  end.

Definition to_int64 (entry : option JSON) : Z :=
  match entry with
  | Some (JNumber x) => int_of_float64 x
  | Some (JString str) =>
      match read_digits 0 str with
      | (n, EmptyString) => n
      | _ => 0
      end
  | _ => 0
  end.

Fixpoint all_strings (l : list JSON) : option (list string) :=
  match l with
  | [] => Some []
  | JString str :: rest =>
      match all_strings rest with
      | Some strs => Some (str :: strs)
      | None => None
      end
  | _ :: _ => None
  end.

Definition to_string_array (entry : option JSON) : list string :=
  match entry with
  | Some (JArray l) => default [] (all_strings l)
  | _ => []
  end.

Definition to_object (entry : option JSON) : JSONObject :=
  match entry with
  | Some (JObject m) => m
  | _ => ∅
  end.

(** [hex.Decode(dst, src)] for a [dst] with room for [room] bytes: pair
    by pair, a byte that is no hex digit is an error, and so is a last
    digit without its pair; writing a byte for which [dst] has no room
    panics. *)
Fixpoint hex_Decode (room : nat) (src : string) : outcome (option (list byte)) :=
  match src with
  | EmptyString => Returns (Some [])
  | String _ EmptyString => Returns None
  | String a (String b rest) =>
      match fromHexChar a, fromHexChar b with
      | Some hi, Some lo =>
          match room with
          | O => Panics
          | S room' =>
              match hex_Decode room' rest with
              | Returns (Some bs) =>
                  Returns (Some (byte_of_ascii (ascii_of_N (16 * hi + lo)) :: bs))
              | Returns None => Returns None
              | Panics => Panics
              end
          end
      | _, _ => Returns None
      end
  end.

(** [Bytes32.UnmarshalText]: the text without its [0x] is decoded into
    the 32 bytes of a zero value; a shorter text leaves the bytes behind it
    zero. *)
Definition unmarshalBytes32 (text : string) : outcome (option Bytes32) :=
  match hex_Decode 32 (strings_TrimPrefix text "0x") with
  | Returns (Some bs) => Returns (Some (bs ++ replicate (32 - length bs) x00))
  | Returns None => Returns None
  | Panics => Panics
  end.

(** *** Errors *)

Definition key_text (key : MsgKey) : string :=
  match key with
  | MsgInvalidFireFlyContractIndex => "No configuration found for FireFly contract at"
  | MsgMissingPluginConfig => "Missing configuration"
  | MsgFabconnectRESTErr => "Error from fabconnect:"
  | MsgJSONObjectParseFailed => "Failed to parse"
  | MsgOverrideExistingFieldCustomOption => "Custom option cannot override field"
  end.

Definition newError (key : MsgKey) (args : list string) : GoError :=
  mkGoError (key_text key +:+ " " +:+ join " " args).

Definition wrapError' (err : error) (key : MsgKey) (args : list string) : GoError :=
  match err with
  | Some e => mkGoError (Error (newError key args) +:+ ": " +:+ Error e)
  | None => newError key args
  end.

Definition wrapRestErr (res : option Response) (err : error) (key : MsgKey) : GoError :=
  match res with
  | Some r =>
      if IsSuccess r then wrapError' err key []
      else newError key [string_of_list_byte (Body r)]
  | None => wrapError' err key []
  end.

(** The platform. The two identity patterns match nothing here: the
    signers of the examples are short names. *)
Definition platform : Platform :=
  {| base64_DecodeString := base64_decode;
     json_Unmarshal := unmarshal;
     json_Marshal := marshal;
     json_Unmarshal_fabQueryNamedOutput := unmarshal_fabQueryNamedOutput;
     JSONAny_JSONObjectOk := objectOk;
     entry_string := to_string;
     entry_int64 := to_int64;
     entry_string_array := to_string_array;
     entry_object := to_object;
     Bytes32_UnmarshalText := unmarshalBytes32;
     i18n_NewError := newError;
     i18n_WrapError := wrapError';
     ffresty_WrapRestErr := wrapRestErr;
     fullIdentityPattern_FindStringSubmatch := fun _ => None;
     cnPattern_FindStringSubmatch := fun _ => None;
     FireFlyContractChaincode := "chaincode";
     FireFlyContractFromBlock := "fromBlock";
     FabconnectConfigChaincodeDeprecated := "chaincode";
     SubOptsFirstEventOldest := "oldest" |}.

End Reference.

(** ** Sample frames and a sample connector

    The inputs on which the properties are instantiated and the code is
    run: events as fabconnect delivers them (the payload is the base64 of
    the JSON text of the chaincode event), listeners, a client and a
    configuration with two deployments. *)

Module Samples.
Import Reference.

Definition activeSub : string := "sb-0910f6a8-7bd6-4ced-453e-2db68149ce8e".
Definition otherSub : string := "sb-b5b97a4e-a317-4053-6400-1474650efcb5".

Definition theSigner : string :=
  "u0vgwu9s00-x509::CN=user2,OU=client::CN=fabric-ca-server".

(** The base64 of the JSON text of a batch pin in namespace [ns1] with two
    contexts. *)
Definition pinPayload : string :=
  "eyJzaWduZXIiOiJ1MHZnd3U5czAwLXg1MDk6OkNOPXVzZXIyLE9VPWNsaWVudDo6Q049ZmFicmljLWNhLXNlcnZlciIsIm5hbWVzcGFjZSI6Im5zMSIsInV1aWRzIjoiMHhlMTlhZjhiMzkwNjA0MDUxODEyZDc1OTdkMTlhZGZiOTg0N2QzYmZkMDc0MjQ5ZWZiNjVkM2ZlZDE1ZjViMGE2IiwiYmF0Y2hIYXNoIjoiMHhkNzFlYjEzOGQ3NGMyMjlhMzg4ZWIwZTFhYmMwM2Y0YzdjYmIyMWQ0ZmM0YjgzOWZiZjBlYzczZTQyNjNmNmJlIiwicGF5bG9hZFJlZiI6IlFtZjQxMmpRWml1VlV0ZGduQjM2RlhGWDd4ZzVWNktFYlNKNGRwUXVoa0x5ZkQiLCJjb250ZXh0cyI6WyIweDY4ZTRkYTc5ZjgwNWJjYTViOTEyYmNkYTljNjNkMDNlNmU4NjcxMDhkYWJiOWI5NDQxMDlhZWE1NDFlZjUyMmEiLCIweDE5YjgyMDkzZGU1Y2U5MmEwMWUzMzMwNDhlODc3ZTIzNzQzNTRiZjg0NmRkMDM0ODY0ZWY2ZmZiZDY0Mzg3NzEiXX0=".

(** The same for the operator action [firefly:terminate]. *)
Definition actionPayload : string :=
  "eyJzaWduZXIiOiJ1MHZnd3U5czAwLXg1MDk6OkNOPXVzZXIyLE9VPWNsaWVudDo6Q049ZmFicmljLWNhLXNlcnZlciIsIm5hbWVzcGFjZSI6ImZpcmVmbHk6dGVybWluYXRlIiwidXVpZHMiOiIweDAwMDAwMDAwMDAwMDAwMDAwMDAwMDAwMDAwMDAwMDAwMDAwMDAwMDAwMDAwMDAwMDAwMDAwMDAwMDAwMDAwMDAiLCJiYXRjaEhhc2giOiIweDAwMDAwMDAwMDAwMDAwMDAwMDAwMDAwMDAwMDAwMDAwMDAwMDAwMDAwMDAwMDAwMDAwMDAwMDAwMDAwMDAwMDAiLCJwYXlsb2FkUmVmIjoiIiwiY29udGV4dHMiOltdfQ==".

(** The same for an event of a custom contract. *)
Definition customPayload : string :=
  "eyJBc3NldE5hbWUiOiJhc3NldDEiLCJPd25lciI6ImFsaWNlIn0=".

(** A text that is no base64, and the base64 of [plain text], which is no
    JSON: the payload of a chaincode event is whatever bytes the chaincode
    has set. *)
Definition badPayload : string := "!bad payload".
Definition textPayload : string := "cGxhaW4gdGV4dA==".

(** One message of a batch frame. *)
Definition message (subId eventName payload : string) (eventIndex : Z) : JSONObject :=
  list_to_map
    [("chaincodeId", JString "firefly");
     ("blockNumber", JNumber (inject_Z 91));
     ("transactionId", JString "ce79343000e851a0c742f63a733ce19a5f8b9ce1c719b6cecd14f01bcf81fff2");
     ("transactionIndex", JNumber (inject_Z 2));
     ("eventIndex", JNumber (inject_Z eventIndex));
     ("eventName", JString eventName);
     ("payload", JString payload);
     ("subId", JString subId)].

Definition pinMessage : JSONObject := message activeSub "BatchPin" pinPayload 50.
Definition actionMessage : JSONObject := message activeSub "BatchPin" actionPayload 51.
Definition renamedActionMessage : JSONObject := message activeSub "AssetCreated" actionPayload 52.
Definition customMessage : JSONObject := message otherSub "AssetCreated" customPayload 53.
Definition undecodableCustomMessage : JSONObject := message otherSub "AssetCreated" textPayload 54.

(** Listeners: one that takes everything, one that is shutting down. *)
Definition accepting : Callbacks :=
  {| BatchPinComplete := fun _ _ _ => None;
     BlockchainNetworkAction := fun _ _ _ _ => None;
     BlockchainEvent := fun _ _ => None |}.

Definition shutdown : GoError := mkGoError "pop".

Definition shuttingDown : Callbacks :=
  {| BatchPinComplete := fun _ _ _ => Some shutdown;
     BlockchainNetworkAction := fun _ _ _ _ => Some shutdown;
     BlockchainEvent := fun _ _ => Some shutdown |}.

(** The body of a reply of fabconnect. *)
Definition body (v : JSON) : list byte := list_byte_of_string (write 64 v).

(** Clients: the query answers 200 with [{result: 2}]; the query answers
    500 with the error text [text]. *)
Definition clientVersion2 : resty_Client :=
  {| Post := fun _ _ =>
       {| rr_res := mkResponse 200 (body (JObject {["result" := JNumber (inject_Z 2)]}));
          rr_err := None;
          rr_resErr := mkfabError EmptyString |} |}.

Definition clientFailing (text : string) : resty_Client :=
  {| Post := fun _ _ =>
       {| rr_res := mkResponse 500 (body (JObject {["error" := JString text]}));
          rr_err := None;
          rr_resErr := mkfabError text |} |}.

Definition notFoundText : string :=
  "Failed to query chaincode: Function NetworkVersion not found; valid functions are PinBatch".

(** The stream manager: the subscription is named after the chaincode. *)
Definition theStreams : streamManager :=
  {| ensureFireFlySubscription := fun location _ _ _ =>
       inr (mksubscription ("sb-" +:+ Chaincode location)) |}.

(** Two deployments are configured, [firefly] and [firefly2]. *)
Definition theContractConf (i : Z) (key : string) : string :=
  if (i =? 0) then
    if (key =? "chaincode")%string then "firefly"
    else if (key =? "fromBlock")%string then "0" else EmptyString
  else if (i =? 1) then
    if (key =? "chaincode")%string then "firefly2"
    else if (key =? "fromBlock")%string then "oldest" else EmptyString
  else
    if (key =? "fromBlock")%string then "oldest" else EmptyString.

Definition connector (ls : list Callbacks) (client : resty_Client) : Fabric :=
  {| f_topic := "topic1";
     f_defaultChannel := "firefly";
     f_signer := "signer001";
     f_callbacks := mkcallbacks ls;
     f_client := client;
     f_streams := theStreams;
     f_streamID := "es12345";
     f_fireflyContract :=
       {| fc_chaincode := "firefly";
          fc_fromBlock := "0";
          fc_networkVersion := 1;
          fc_subscription := activeSub |};
     f_wsconn := mkWSClient (fun _ _ => None);
     f_fabconnectConf := fun _ => EmptyString;
     f_contractConf := theContractConf;
     f_contractConfSize := 2 |}.

Definition world0 : World := mkWorld [] [] false false.

Definition contracts0 : FireFlyContracts :=
  {| Active :=
       {| ci_Index := 0;
          ci_FinalEvent := EmptyString;
          ci_Info :=
            <["chaincode" := JString "firefly"]>
            (<["fromBlock" := JString "0"]>
             (<["subscription" := JString activeSub]> ∅)) |};
     Terminated := [] |}.

(** A batch frame, as bytes on the websocket. *)
Definition frame (messages : list JSONObject) : list byte :=
  body (JArray (JObject <$> messages)).

(** What the payload of [pinMessage] decodes to, and the bytes behind its
    hex fields. *)
Definition pinUUIDsText : string :=
  "0xe19af8b390604051812d7597d19adfb9847d3bfd074249efb65d3fed15f5b0a6".
Definition pinBatchHashText : string :=
  "0xd71eb138d74c229a388eb0e1abc03f4c7cbb21d4fc4b839fbf0ec73e4263f6be".
Definition pinContextTexts : list string :=
  ["0x68e4da79f805bca5b912bcda9c63d03e6e867108dabb9b944109aea541ef522a";
   "0x19b82093de5ce92a01e333048e877e2374354bf846dd034864ef6ffbd6438771"].

Definition pinOutput : JSONObject :=
  list_to_map
    [("signer", JString theSigner);
     ("namespace", JString "ns1");
     ("uuids", JString pinUUIDsText);
     ("batchHash", JString pinBatchHashText);
     ("payloadRef", JString "Qmf412jQZiuVUtdgnB36FXFX7xg5V6KEbSJ4dpQuhkLyfD");
     ("contexts", JArray (JString <$> pinContextTexts))].

Definition bytesOf (text : string) : list byte :=
  default [] (hex_DecodeString (strings_TrimPrefix text "0x")).

Definition pinUUIDs : list byte := bytesOf pinUUIDsText.
Definition pinBatchHash : Bytes32 := bytesOf pinBatchHashText.
Definition pinContexts : list Bytes32 := bytesOf <$> pinContextTexts.

(** What the payload of [actionMessage] decodes to. *)
Definition zeroHashText : string :=
  "0x0000000000000000000000000000000000000000000000000000000000000000".

Definition actionOutput : JSONObject :=
  list_to_map
    [("signer", JString theSigner);
     ("namespace", JString "firefly:terminate");
     ("uuids", JString zeroHashText);
     ("batchHash", JString zeroHashText);
     ("payloadRef", JString EmptyString);
     ("contexts", JArray [])].

(** What the payload of [customMessage] decodes to. *)
Definition customOutput : JSONObject :=
  list_to_map [("AssetName", JString "asset1"); ("Owner", JString "alice")].

(** A BatchPin event of the active subscription whose payload is no base64. *)
Definition undecodablePinMessage : JSONObject := message activeSub "BatchPin" badPayload 49.

(** The base64 of the JSON text of the batch pin of [pinMessage] without
    contexts and with one more byte, [ff], at the end of its batch hash:
    33 bytes of hex. *)
Definition longHashPayload : string :=
  "eyJzaWduZXIiOiJ1MHZnd3U5czAwLXg1MDk6OkNOPXVzZXIyLE9VPWNsaWVudDo6Q049ZmFicmljLWNhLXNlcnZlciIsIm5hbWVzcGFjZSI6Im5zMSIsInV1aWRzIjoiMHhlMTlhZjhiMzkwNjA0MDUxODEyZDc1OTdkMTlhZGZiOTg0N2QzYmZkMDc0MjQ5ZWZiNjVkM2ZlZDE1ZjViMGE2IiwiYmF0Y2hIYXNoIjoiMHhkNzFlYjEzOGQ3NGMyMjlhMzg4ZWIwZTFhYmMwM2Y0YzdjYmIyMWQ0ZmM0YjgzOWZiZjBlYzczZTQyNjNmNmJlZmYiLCJwYXlsb2FkUmVmIjoiUW1mNDEyalFaaXVWVXRkZ25CMzZGWEZYN3hnNVY2S0ViU0o0ZHBRdWhrTHlmRCIsImNvbnRleHRzIjpbXX0=".

Definition longHashText : string :=
  "0xd71eb138d74c229a388eb0e1abc03f4c7cbb21d4fc4b839fbf0ec73e4263f6beff".

Definition longHashOutput : JSONObject :=
  list_to_map
    [("signer", JString theSigner);
     ("namespace", JString "ns1");
     ("uuids", JString pinUUIDsText);
     ("batchHash", JString longHashText);
     ("payloadRef", JString "Qmf412jQZiuVUtdgnB36FXFX7xg5V6KEbSJ4dpQuhkLyfD");
     ("contexts", JArray [])].

Definition longHashMessage : JSONObject := message activeSub "BatchPin" longHashPayload 55.

(** The ack of [topic1] as [json.Marshal] writes it, the keys sorted. *)
Definition ackText : string :=
  "{" +:+ quote +:+ "topic" +:+ quote +:+ ":" +:+ quote +:+ "topic1" +:+ quote +:+ "," +:+
  quote +:+ "type" +:+ quote +:+ ":" +:+ quote +:+ "ack" +:+ quote +:+ "}".

(** The termination event that [actionMessage] is parsed into, and one
    from a chaincode that is no longer active. *)
Definition terminationOf (chaincodeId : string) : Event :=
  {| ev_Source := "fabric";
     ev_Name := "BatchPin";
     ev_ProtocolID := "000000000091/000002/000051";
     ev_Output := actionOutput;
     ev_Info :=
       list_to_map
         [("chaincodeId", JString chaincodeId);
          ("blockNumber", JNumber (inject_Z 91));
          ("eventName", JString "BatchPin");
          ("subId", JString activeSub)];
     ev_Timestamp := 0;
     ev_BlockchainTXID := "ce79343000e851a0c742f63a733ce19a5f8b9ce1c719b6cecd14f01bcf81fff2";
     ev_Location := "chaincode=" +:+ chaincodeId;
     ev_Signature := "BatchPin" |}.

(** Contracts whose active deployment is the last one configured. *)
Definition contracts1 : FireFlyContracts :=
  {| Active :=
       {| ci_Index := 1;
          ci_FinalEvent := EmptyString;
          ci_Info :=
            <["chaincode" := JString "firefly"]>
            (<["fromBlock" := JString "oldest"]>
             (<["subscription" := JString activeSub]> ∅)) |};
     Terminated := [] |}.

(** The connector with one listener that takes everything, with one that
    is shutting down, and with a deployment that has no [NetworkVersion]. *)
Definition sampleFabric : Fabric := connector [accepting] clientVersion2.
Definition closingFabric : Fabric := connector [shuttingDown] clientVersion2.
Definition version1Fabric : Fabric := connector [accepting] (clientFailing notFoundText).

(** Receipts of fabconnect. *)
Definition receipt (requestId type : string) : JSONObject :=
  list_to_map
    [("headers",
      JObject (list_to_map [("requestId", JString requestId); ("type", JString type)]));
     ("transactionId", JString "ce79343000e851a0c742f63a733ce19a5f8b9ce1c719b6cecd14f01bcf81fff2")].

(** Three listeners, the second of which is shutting down, and a call to
    fan out to them. *)
Definition threeListeners : callbacks :=
  mkcallbacks [accepting; shuttingDown; accepting].

Definition customCall : Call :=
  CallBlockchainEvent
    {| ews_Event := terminationOf "firefly"; ews_Subscription := otherSub |}.

(** The batch pin behind [pinMessage], as it is handed to [SubmitBatchPin]
    (its event is not looked at). *)
Definition pinBatch : BatchPin :=
  {| bp_Namespace := "ns1";
     bp_TransactionID := take 16 pinUUIDs;
     bp_BatchID := drop 16 pinUUIDs;
     bp_BatchHash := pinBatchHash;
     bp_BatchPayloadRef := "Qmf412jQZiuVUtdgnB36FXFX7xg5V6KEbSJ4dpQuhkLyfD";
     bp_Contexts := pinContexts;
     bp_Event :=
       {| ev_Source := EmptyString;
          ev_Name := EmptyString;
          ev_ProtocolID := EmptyString;
          ev_Output := ∅;
          ev_Info := ∅;
          ev_Timestamp := 0;
          ev_BlockchainTXID := EmptyString;
          ev_Location := EmptyString;
          ev_Signature := EmptyString |} |}.

End Samples.

(** Settles an equation between closed terms by evaluating both sides. *)
Ltac run_code :=
  lazymatch goal with
  | |- @eq ?T ?a ?b => exact (@eq_refl T b <: @eq T a b)
  end.

(** ** What a run leaves in the log *)

(** The world after the deliveries [added] were logged, nothing else
    touched. *)
Definition logged (w : World) (added : CallLog) : World :=
  mkWorld (calls w ++ added) (sent w) (wsClosed w) (closed w).

(** The call [c] delivered to the listeners [i], [i+1], ..., [i+k-1], each
    of them once. *)
Definition deliveries (i k : nat) (c : Call) : CallLog :=
  (fun j => (j, c)) <$> seq i k.

(** [run ls log added err]: starting from the log [log], the deliveries
    [added] were made one after the other to listeners of [ls]; each of them
    answered nil, except that the last one answered [err] when [err] is an
    error. *)
Inductive run (ls : list Callbacks) : CallLog -> CallLog -> error -> Prop :=
| run_done log :
    run ls log [] None
| run_next log i c l added err :
    ls !! i = Some l ->
    answer l log c = None ->
    run ls (log ++ [(i, c)]) added err ->
    run ls log ((i, c) :: added) err
| run_stop log i c l e :
    ls !! i = Some l ->
    answer l log c = Some e ->
    run ls log [(i, c)] (Some e).

(** Some delivery of [added] was answered with the error [e]. *)
Definition callback_failed (ls : list Callbacks) (log added : CallLog)
    (e : GoError) : Prop :=
  exists pre i c post l,
    added = pre ++ (i, c) :: post /\
    ls !! i = Some l /\
    answer l (log ++ pre) c = Some e.

(** How the loop of [handleMessageBatch] goes on after an error value. *)
Definition ctl_of (err : error) : loopCtl :=
  match err with
  | Some e => Return (Some e)
  | None => Continue
  end.

(** The error that a handler came back with; a handler that panicked came
    back with none. *)
Definition error_of (out : outcome error) : error :=
  match out with
  | Returns err => err
  | Panics => None
  end.

(** The record that [TerminateContract] leaves behind for the contract it
    closes, and the contracts it hands to [ConfigureContract]. *)
Definition closedRecord (contracts : FireFlyContracts) (termination : Event)
    : FireFlyContractInfo :=
  {| ci_Index := ci_Index (Active contracts);
     ci_FinalEvent := ev_ProtocolID termination;
     ci_Info := ci_Info (Active contracts) |}.

Definition rolledForward (contracts : FireFlyContracts) (termination : Event)
    : FireFlyContracts :=
  {| Active :=
       {| ci_Index := int_add (ci_Index (Active contracts)) 1;
          ci_FinalEvent := EmptyString;
          ci_Info := ∅ |};
     Terminated := Terminated contracts ++ [closedRecord contracts termination] |}.

(** [contracts.Active.Info] as [ConfigureContract] fills it in. *)
Definition activeInfo (chaincode fromBlock subscriptionID : string) : JSONObject :=
  <["chaincode" := JString chaincode]>
  (<["fromBlock" := JString fromBlock]>
   (<["subscription" := JString subscriptionID]> ∅)).

(** The connector after [ConfigureContract] published a deployment. *)
Definition published (f : Fabric) (chaincode fromBlock : string) (version : Z)
    (subscriptionID : string) : Fabric :=
  mkFabric (f_topic f) (f_defaultChannel f) (f_signer f) (f_callbacks f)
    (f_client f) (f_streams f) (f_streamID f)
    {| fc_chaincode := chaincode;
       fc_fromBlock := fromBlock;
       fc_networkVersion := version;
       fc_subscription := subscriptionID |}
    (f_wsconn f) (f_fabconnectConf f) (f_contractConf f) (f_contractConfSize f).

(** The BatchPin events that [handleBatchPinEvent] gives up on: the
    payload or the uuids do not decode, or [UnmarshalText] returns an error
    for the batch hash or, after the batch hash and the contexts before it
    went through it, for a context. *)
Section Malformed.
Context `{Platform}.

(** [UnmarshalText] decodes the text. *)
Definition decodes (sHash : string) : Prop :=
  exists hash, Bytes32_UnmarshalText sHash = Returns (Some hash).

Inductive malformed (msgJSON : JSONObject) : Prop :=
| bad_payload :
    decodeJSONPayload (GetString msgJSON "payload") = None ->
    malformed msgJSON
| bad_uuids payload :
    decodeJSONPayload (GetString msgJSON "payload") = Some payload ->
    strings_HasPrefix (GetString payload "namespace") FireFlyActionPrefix = false ->
    (forall hexUUIDs,
       hex_DecodeString (strings_TrimPrefix (GetString payload "uuids") "0x") = Some hexUUIDs ->
       length hexUUIDs <> 32%nat) ->
    malformed msgJSON
| bad_batchHash payload :
    decodeJSONPayload (GetString msgJSON "payload") = Some payload ->
    strings_HasPrefix (GetString payload "namespace") FireFlyActionPrefix = false ->
    Bytes32_UnmarshalText (GetString payload "batchHash") = Returns None ->
    malformed msgJSON
| bad_context payload pre sHash post :
    decodeJSONPayload (GetString msgJSON "payload") = Some payload ->
    strings_HasPrefix (GetString payload "namespace") FireFlyActionPrefix = false ->
    Bytes32_UnmarshalText (GetString payload "batchHash") <> Panics ->
    GetStringArray payload "contexts" = pre ++ sHash :: post ->
    Forall decodes pre ->
    Bytes32_UnmarshalText sHash = Returns None ->
    malformed msgJSON.

(** The BatchPin events on which [handleBatchPinEvent] panics: the
    payload and the uuids decode, and [UnmarshalText] panics on the batch
    hash or, after the batch hash and the contexts before it went through
    it, on a context. *)
Inductive crashing (msgJSON : JSONObject) : Prop :=
| crash_batchHash payload hexUUIDs :
    decodeJSONPayload (GetString msgJSON "payload") = Some payload ->
    strings_HasPrefix (GetString payload "namespace") FireFlyActionPrefix = false ->
    hex_DecodeString (strings_TrimPrefix (GetString payload "uuids") "0x") = Some hexUUIDs ->
    length hexUUIDs = 32%nat ->
    Bytes32_UnmarshalText (GetString payload "batchHash") = Panics ->
    crashing msgJSON
| crash_context payload hexUUIDs pre sHash post :
    decodeJSONPayload (GetString msgJSON "payload") = Some payload ->
    strings_HasPrefix (GetString payload "namespace") FireFlyActionPrefix = false ->
    hex_DecodeString (strings_TrimPrefix (GetString payload "uuids") "0x") = Some hexUUIDs ->
    length hexUUIDs = 32%nat ->
    decodes (GetString payload "batchHash") ->
    GetStringArray payload "contexts" = pre ++ sHash :: post ->
    Forall decodes pre ->
    Bytes32_UnmarshalText sHash = Panics ->
    crashing msgJSON.

End Malformed.

(** ** What the properties of the submissions and of the loops are stated with *)


Section Frames.
Context `{Platform}.

(** The frames among [selects] that parse as a JSON array. *)
Fixpoint arrayFrames (selects : list Select) : nat :=
  match selects with
  | [] => 0
  | Receive (Some msgBytes) :: rest =>
      match json_Unmarshal msgBytes with
      | inr (JArray _) => S (arrayFrames rest)
      | _ => arrayFrames rest
      end
  | _ :: rest => arrayFrames rest
  end.

End Frames.

Section Requests.
Context `{Platform}.

(** What [jsonEncodeInput] makes of one value: a string is taken as it
    is, everything else is marshalled. *)
Definition encodeValue (v : JSON) : GoError + string :=
  match v with
  | JString s => inr s
  | _ =>
      match json_Marshal v with
      | inl err => inl err
      | inr encodedValue => inr (string_of_list_byte encodedValue)
      end
  end.

(** The request that [invokeContractMethod] posts for the encoded input
    [args], and what it makes of the reply. *)
Definition transactionRequest (f : Fabric)
    (methodName signingKey requestID : string) (prefixItems : list PrefixItem)
    (args : gmap string string) : gmap string BodyValue :=
  <["headers" := BodyHeaders
      {| h_ID := requestID;
         h_Type := "";
         h_PayloadSchema := Some {| ps_Type := "array"; ps_PrefixItems := prefixItems |};
         h_Channel := f_defaultChannel f;
         h_Chaincode := fc_chaincode (f_fireflyContract f);
         h_Signer := getUserName signingKey |}]>
  (<["func" := BodyString methodName]>
   (<["args" := BodyArgs args]> ∅)).

Definition replyError (r : RestyResult) : error :=
  match rr_err r with
  | Some _ => Some (wrapError (rr_resErr r) (rr_res r) (rr_err r))
  | None =>
      if IsSuccess (rr_res r) then None
      else Some (wrapError (rr_resErr r) (rr_res r) (rr_err r))
  end.

(** The five arguments of [PinBatch]. *)
Definition pinArgs (namespace uuids batchHash payloadRef contexts : string)
    : gmap string string :=
  <["namespace" := namespace]>
  (<["uuids" := uuids]>
   (<["batchHash" := batchHash]>
    (<["payloadRef" := payloadRef]>
     (<["contexts" := contexts]> ∅)))).

End Requests.

(** The contract records in the order of their indices: the terminated
    ones, oldest first, then the active one. *)
Definition indexOrder (a b : FireFlyContractInfo) : Prop :=
  ci_Index a < ci_Index b.

Definition indicesIncreasing (contracts : FireFlyContracts) : Prop :=
  StronglySorted indexOrder (Terminated contracts ++ [Active contracts]).

(** The [k] last decimal digits of [n], as [k] characters. *)
Fixpoint fixedWidth (k : nat) (n : N) : string :=
  match k with
  | O => EmptyString
  | S k' => fixedWidth k' (n / 10) +:+ String (pretty_N_char (n mod 10)) EmptyString
  end.

(** Where an event sits on the chain, and the order of these places:
    by block, then by transaction within the block, then by event within
    the transaction. *)
Definition place_compare (p q : Z * Z * Z) : comparison :=
  match p, q with
  | (b1, t1, e1), (b2, t2, e2) =>
      match b1 ?= b2 with
      | Eq => match t1 ?= t2 with
              | Eq => e1 ?= e2
              | c => c
              end
      | c => c
      end
  end.

Section Places.
Context `{Platform}.

(** The block number, the transaction index and the event index that
    fabconnect gives for an event. *)
Definition place (msgJSON : JSONObject) : Z * Z * Z :=
  (GetInt64 msgJSON "blockNumber",
   GetInt64 msgJSON "transactionIndex",
   GetInt64 msgJSON "eventIndex").

(** The places that fit the widths of the ProtocolID: 12 digits for the
    block, 6 for each index. *)
Definition fits (msgJSON : JSONObject) : Prop :=
  0 <= GetInt64 msgJSON "blockNumber" < 10 ^ 12 /\
  0 <= GetInt64 msgJSON "transactionIndex" < 10 ^ 6 /\
  0 <= GetInt64 msgJSON "eventIndex" < 10 ^ 6.

End Places.

(** ** More samples *)

Module LaterSamples.
Import Samples.

(** The connector after the roll-forward from [firefly] to [firefly2], and
    the contracts it leaves. *)
Definition rolledFabric : Fabric := published sampleFabric "firefly2" "oldest" 2 "sb-firefly2".

Definition rolledContracts : FireFlyContracts :=
  {| Active :=
       {| ci_Index := 1;
          ci_FinalEvent := "";
          ci_Info := activeInfo "firefly2" "oldest" "sb-firefly2" |};
     Terminated :=
       [{| ci_Index := 0;
           ci_FinalEvent := "000000000091/000002/000051";
           ci_Info := ci_Info (Active contracts0) |}] |}.

End LaterSamples.

(** * Properties *)

(** ** The log *)

Lemma logged_nil w : logged w [] = w.
Proof. destruct w. unfold logged. simpl. by rewrite app_nil_r. Qed.

Lemma logged_app w a b : logged (logged w a) b = logged w (a ++ b).
Proof. unfold logged. simpl. by rewrite app_assoc. Qed.

Lemma calls_logged w a : calls (logged w a) = calls w ++ a.
Proof. reflexivity. Qed.

Lemma sent_logged w a : sent (logged w a) = sent w.
Proof. reflexivity. Qed.

Lemma deliveries_S i k c : deliveries i (S k) c = (i, c) :: deliveries (S i) k c.
Proof. reflexivity. Qed.

Lemma length_deliveries i k c : length (deliveries i k c) = k.
Proof. unfold deliveries. by rewrite length_fmap, length_seq. Qed.

Lemma elem_of_deliveries i k c d :
  d ∈ deliveries i k c -> snd d = c /\ (i <= fst d < i + k)%nat.
Proof.
  unfold deliveries. intros Hd.
  apply list_elem_of_fmap in Hd as (j & -> & Hj).
  apply elem_of_seq in Hj. simpl. split; [done | lia].
Qed.

(** Every listener appears at most once in a fan-out. *)
Lemma NoDup_deliveries i k c : NoDup (fst <$> deliveries i k c).
Proof.
  unfold deliveries. rewrite <- list_fmap_compose.
  rewrite (list_fmap_ext _ id); [| done].
  rewrite list_fmap_id. apply NoDup_seq.
Qed.

Lemma deliver_eq i l c w :
  deliver i l c w = (Returns (answer l (calls w) c), logged w [(i, c)]).
Proof. reflexivity. Qed.

Lemma run_app ls log a1 a2 err :
  run ls log a1 None ->
  run ls (log ++ a1) a2 err ->
  run ls log (a1 ++ a2) err.
Proof.
  intros H1. remember None as none eqn:Hn. revert a2 err Hn.
  induction H1 as [log | log i c l added err1 Hl Ha H1 IH | log i c l e Hl Ha];
    intros a2 err Hn H2.
  - by rewrite app_nil_r in H2.
  - simpl. eapply run_next; [done | done |].
    apply IH; [done |]. by rewrite <- app_assoc.
  - discriminate.
Qed.

Lemma run_failed_iff ls log added err :
  run ls log added err ->
  forall e, err = Some e <-> callback_failed ls log added e.
Proof.
  induction 1 as [log | log i c l added err Hl Ha H1 IH | log i c l e0 Hl Ha];
    intros e; split.
  - discriminate.
  - intros (pre & j & d & post & l' & Heq & _). by destruct pre.
  - intros He. apply IH in He as (pre & j & d & post & l' & -> & Hl' & Ha').
    exists ((i, c) :: pre), j, d, post, l'. repeat split; [done |].
    by rewrite <- app_assoc in Ha'.
  - intros (pre & j & d & post & l' & Heq & Hl' & Ha').
    destruct pre as [| p pre]; simpl in Heq; inversion Heq; subst.
    + rewrite app_nil_r in Ha'. congruence.
    + apply IH. exists pre, j, d, post, l'. repeat split; [done |].
      by rewrite <- app_assoc.
  - intros [= ->]. exists [], i, c, [], l. by rewrite app_nil_r.
  - intros (pre & j & d & post & l' & Heq & Hl' & Ha').
    destruct pre as [| p pre]; simpl in Heq; inversion Heq; subst.
    + rewrite app_nil_r in Ha'. congruence.
    + by destruct pre.
Qed.

(** The fan-out reaches the first [k] of the listeners it is given, in
    registration order, each once; it goes through all of them unless one
    answers with an error, which it returns. It does not panic. *)
Lemma fanout_spec ls c : forall rest i w,
  drop i ls = rest ->
  exists k err,
    fanout i rest c w = (Returns err, logged w (deliveries i k c)) /\
    (k <= length rest)%nat /\
    (err = None -> k = length rest) /\
    run ls (calls w) (deliveries i k c) err.
Proof.
  induction rest as [| cb rest IH]; intros i w Hdrop.
  - exists 0%nat, None. simpl. rewrite logged_nil.
    repeat split; [done | constructor].
  - assert (Hi : ls !! i = Some cb).
    { pose proof (lookup_drop ls i 0) as Hl.
      rewrite Hdrop, Nat.add_0_r in Hl. by rewrite <- Hl. }
    assert (Hrest : drop (S i) ls = rest).
    { replace (S i) with (i + 1)%nat by lia.
      by rewrite <- drop_drop, Hdrop. }
    simpl. unfold bind. rewrite deliver_eq.
    destruct (answer cb (calls w) c) as [e |] eqn:Ha.
    + exists 1%nat, (Some e). repeat split; [simpl; lia | done |].
      eapply run_stop; done.
    + destruct (IH (S i) (logged w [(i, c)]) Hrest) as (k & err & Hf & Hk & Hall & Hrun).
      exists (S k), err. cbv beta iota. rewrite Hf, logged_app, deliveries_S.
      repeat split; [simpl; lia | intros He; simpl; f_equal; auto |].
      eapply run_next; done.
Qed.

(** ** The handlers *)

Section HandlerProperties.
Context `{Platform}.

Lemma fanout_all_spec c : forall rest i w,
  fanout_all i rest c w = (Returns tt, logged w (deliveries i (length rest) c)).
Proof.
  induction rest as [| cb rest IH]; intros i w; simpl.
  - unfold ret. by rewrite logged_nil.
  - unfold bind. rewrite deliver_eq. cbv beta iota. rewrite IH, logged_app. done.
Qed.

Lemma fanout_listeners (f : Fabric) c w :
  exists k err,
    fanout 0 (listeners (f_callbacks f)) c w = (Returns err, logged w (deliveries 0 k c)) /\
    (k <= length (listeners (f_callbacks f)))%nat /\
    (err = None -> k = length (listeners (f_callbacks f))) /\
    run (listeners (f_callbacks f)) (calls w) (deliveries 0 k c) err.
Proof. by apply fanout_spec. Qed.

(** A payload that decodes gives an event: the output is the decoded
    payload, the info is the message without its payload. *)
Lemma parseBlockchainEvent_decoded f msgJSON payload :
  decodeJSONPayload (GetString msgJSON "payload") = Some payload ->
  exists event,
    parseBlockchainEvent f msgJSON = (Some event, delete "payload" msgJSON) /\
    ev_Output event = payload /\
    ev_Info event = delete "payload" msgJSON /\
    ev_Source event = "fabric" /\
    ev_Name event = GetString msgJSON "eventName".
Proof.
  intros Hp. unfold parseBlockchainEvent. rewrite Hp. eexists. by repeat split.
Qed.

Lemma parseBlockchainEvent_undecoded f msgJSON :
  decodeJSONPayload (GetString msgJSON "payload") = None ->
  parseBlockchainEvent f msgJSON = (None, msgJSON).
Proof. intros Hp. unfold parseBlockchainEvent. by rewrite Hp. Qed.

Lemma decodeContexts_Forall2 sContexts contexts :
  decodeContexts sContexts = Returns (Some contexts) <->
  Forall2 (fun sHash hash => Bytes32_UnmarshalText sHash = Returns (Some hash))
    sContexts contexts.
Proof.
  revert contexts. induction sContexts as [| s rest IH]; intros contexts; simpl.
  - split.
    + intros [= <-]. constructor.
    + intros Hf. by inversion Hf.
  - split.
    + destruct (Bytes32_UnmarshalText s) as [[h |] |] eqn:Hs; [| done | done].
      destruct (decodeContexts rest) as [[hs |] |] eqn:Hr; [| done | done].
      intros [= <-]. constructor; [done |]. by apply IH.
    + intros Hf. inversion Hf as [| ? h ? hs Hh Hrest]; subst.
      rewrite Hh. apply IH in Hrest. by rewrite Hrest.
Qed.

(** Whatever the message, a handler only adds deliveries to the log, and
    the error it returns is the answer of the last of them; a handler that
    panics has delivered nothing. *)
Lemma handleBatchPinEvent_run f msgJSON w :
  exists added out,
    handleBatchPinEvent f msgJSON w = (out, logged w added) /\
    run (listeners (f_callbacks f)) (calls w) added (error_of out).
Proof.
  assert (Hquiet : exists added out,
             ret (None : error) w = (out, logged w added) /\
             run (listeners (f_callbacks f)) (calls w) added (error_of out)).
  { exists [], (Returns None). unfold ret. rewrite logged_nil.
    split; [done | constructor]. }
  assert (Hpanic : exists added out,
             @panic error w = (out, logged w added) /\
             run (listeners (f_callbacks f)) (calls w) added (error_of out)).
  { exists [], Panics. unfold panic. rewrite logged_nil.
    split; [done | constructor]. }
  unfold handleBatchPinEvent.
  destruct (fst (parseBlockchainEvent f msgJSON)) as [event |]; [| done].
  destruct (strings_HasPrefix _ _).
  { destruct (fanout_listeners f
                (CallBlockchainNetworkAction
                   (slice_from (len FireFlyActionPrefix)
                      (GetString (ev_Output event) "namespace"))
                   event
                   {| vr_Type := VerifierTypeMSPIdentity;
                      vr_Value := GetString (ev_Output event) "signer" |}) w)
      as (k & err & Hf & _ & _ & Hrun).
    eexists _, (Returns err). split; [exact Hf | exact Hrun]. }
  destruct (hex_DecodeString _) as [hexUUIDs |]; [| done].
  destruct (negb _); [done |].
  destruct (Bytes32_UnmarshalText _) as [[batchHash |] |]; [| done | done].
  destruct (decodeContexts _) as [[contexts |] |]; [| done | done].
  match goal with
  | |- context [callbacks_BatchPinComplete _ ?b ?v] =>
      destruct (fanout_listeners f (CallBatchPinComplete b v) w)
        as (k & err & Hf & _ & _ & Hrun)
  end.
  eexists _, (Returns err). split; [exact Hf | exact Hrun].
Qed.

(** [handleContractEvent] does not panic. *)
Lemma handleContractEvent_run f msgJSON w :
  exists added err,
    handleContractEvent f msgJSON w = (Returns err, logged w added) /\
    run (listeners (f_callbacks f)) (calls w) added err.
Proof.
  unfold handleContractEvent.
  destruct (parseBlockchainEvent f msgJSON) as [[event |] msgJSON'].
  - match goal with
    | |- context [callbacks_BlockchainEvent _ ?e] =>
        destruct (fanout_listeners f (CallBlockchainEvent e) w)
          as (k & err & Hf & _ & _ & Hrun)
    end.
    eexists _, err. split; [exact Hf | exact Hrun].
  - exists [], None. unfold ret. rewrite logged_nil. split; [done | constructor].
Qed.

(** A pass through the loop body returns an error only if a handler did. *)
Lemma handleMessage_run f msgI w :
  exists added err out,
    handleMessage f msgI w = (out, logged w added) /\
    run (listeners (f_callbacks f)) (calls w) added err /\
    match out with
    | Returns ctl => ctl = ctl_of err \/ (ctl = Return None /\ err = None)
    | Panics => err = None
    end.
Proof.
  assert (Hstop : exists added err out,
             ret (Return None) w = (out, logged w added) /\
             run (listeners (f_callbacks f)) (calls w) added err /\
             match out with
             | Returns ctl => ctl = ctl_of err \/ (ctl = Return None /\ err = None)
             | Panics => err = None
             end).
  { exists [], None, (Returns (Return None)). unfold ret. rewrite logged_nil.
    repeat split; [constructor | by right]. }
  destruct msgI as [| b | x | s | l | msgJSON]; try exact Hstop.
  unfold handleMessage.
  destruct (_ =? _)%string.
  - destruct (_ =? _)%string.
    + destruct (handleBatchPinEvent_run f msgJSON w) as (added & out & Hh & Hrun).
      unfold bind. rewrite Hh. destruct out as [err |]; simpl in Hrun.
      * exists added, err, (Returns (ctl_of err)).
        repeat split; [by destruct err | done | by left].
      * exists added, None, Panics. by repeat split.
    + exists [], None, (Returns Continue). unfold ret. rewrite logged_nil.
      repeat split; [constructor | by left].
  - destruct (handleContractEvent_run f msgJSON w) as (added & err & Hh & Hrun).
    exists added, err, (Returns (ctl_of err)). unfold bind. rewrite Hh.
    repeat split; [by destruct err | done | by left].
Qed.

Lemma handleMessageBatch_run f : forall messages w,
  exists added out,
    handleMessageBatch f messages w = (out, logged w added) /\
    run (listeners (f_callbacks f)) (calls w) added (error_of out).
Proof.
  induction messages as [| msgI rest IH]; intros w.
  - exists [], (Returns None). simpl. unfold ret. rewrite logged_nil.
    split; [done | constructor].
  - destruct (handleMessage_run f msgI w) as (a1 & err1 & out1 & Hm & Hrun1 & Hctl).
    simpl. unfold bind. rewrite Hm.
    destruct out1 as [ctl |]; [| subst err1; by exists a1, Panics].
    destruct Hctl as [-> | [-> ->]].
    + destruct err1 as [e |]; simpl.
      * by exists a1, (Returns (Some e)).
      * destruct (IH (logged w a1)) as (a2 & out & Hb & Hrun2).
        exists (a1 ++ a2), out. rewrite Hb, logged_app. split; [done |].
        by apply run_app.
    + by exists a1, (Returns None).
Qed.

End HandlerProperties.

(** ** The batch-pin protocol handler *)

Lemma strings_HasPrefix_split s prefix :
  strings_HasPrefix s prefix = true ->
  s = prefix +:+ slice_from (len prefix) s.
Proof.
  unfold strings_HasPrefix, len. revert s.
  induction prefix as [| a prefix IH]; intros s Hp; [done |].
  destruct s as [| b s]; simpl in Hp; [done |].
  destruct (ascii_dec a b) as [-> |]; [| done].
  change (String b s = String b (prefix +:+ slice_from (String.length prefix) s)).
  f_equal. by apply IH.
Qed.

Lemma no_BatchPinComplete_in_deliveries i k c :
  (forall batch key, c <> CallBatchPinComplete batch key) ->
  forall j batch key, (j, CallBatchPinComplete batch key) ∉ deliveries i k c.
Proof.
  intros Hc j batch key Hin. apply elem_of_deliveries in Hin as [Heq _].
  simpl in Heq. by eapply Hc.
Qed.

Section BatchPinProtocol.
Context `{Platform}.

(** C1. A well-formed BatchPin event (its payload decodes, its namespace
    is no operator action, its uuids are the hex of 32 bytes, its batch
    hash and every context decode) makes [handleBatchPinEvent] invoke
    [BatchPinComplete] exactly once: the handler is that one invocation,
    and every listener it reaches gets it once. The TransactionID is
    bytes 0-15 and the BatchID bytes 16-31 of the decoded uuids, the
    BatchHash is the decoded batchHash, and the Contexts are the decoded
    contexts of the event, one for one and in the same order (none for
    an empty array). Nothing panics. This is what the batch loop does with
    such an event of the active subscription. *)
Theorem handleBatchPinEvent_well_formed (f : Fabric)
    (msgJSON payload : JSONObject) (hexUUIDs : list byte)
    (batchHash : Bytes32) (contexts : list Bytes32) (w : World) :
  decodeJSONPayload (GetString msgJSON "payload") = Some payload ->
  strings_HasPrefix (GetString payload "namespace") FireFlyActionPrefix = false ->
  hex_DecodeString (strings_TrimPrefix (GetString payload "uuids") "0x") = Some hexUUIDs ->
  length hexUUIDs = 32%nat ->
  Bytes32_UnmarshalText (GetString payload "batchHash") = Returns (Some batchHash) ->
  Forall2 (fun sHash hash => Bytes32_UnmarshalText sHash = Returns (Some hash))
    (GetStringArray payload "contexts") contexts ->
  exists event k err,
    fst (parseBlockchainEvent f msgJSON) = Some event /\
    let batch :=
      {| bp_Namespace := GetString payload "namespace";
         bp_TransactionID := take 16 hexUUIDs;
         bp_BatchID := drop 16 hexUUIDs;
         bp_BatchHash := batchHash;
         bp_BatchPayloadRef := GetString payload "payloadRef";
         bp_Contexts := contexts;
         bp_Event := event |} in
    let verifier :=
      {| vr_Type := VerifierTypeMSPIdentity;
         vr_Value := GetString payload "signer" |} in
    handleBatchPinEvent f msgJSON w =
      callbacks_BatchPinComplete (f_callbacks f) batch verifier w /\
    handleBatchPinEvent f msgJSON w =
      (Returns err, logged w (deliveries 0 k (CallBatchPinComplete batch verifier))) /\
    (k <= length (listeners (f_callbacks f)))%nat /\
    (err = None -> k = length (listeners (f_callbacks f))) /\
    length (bp_TransactionID batch) = 16%nat /\
    length (bp_BatchID batch) = 16%nat /\
    bp_TransactionID batch ++ bp_BatchID batch = hexUUIDs /\
    length (bp_Contexts batch) = length (GetStringArray payload "contexts") /\
    (GetString msgJSON "subId" = fc_subscription (f_fireflyContract f) ->
     GetString msgJSON "eventName" = broadcastBatchEventName ->
     handleMessage f (JObject msgJSON) w =
       (Returns (ctl_of err),
        logged w (deliveries 0 k (CallBatchPinComplete batch verifier)))).
Proof.
  intros Hp Hns Hhex Hlen Hhash Hctx.
  destruct (parseBlockchainEvent_decoded f msgJSON payload Hp)
    as (event & Hparse & Hout & _).
  pose proof (proj2 (decodeContexts_Forall2 _ _) Hctx) as Hdec.
  set (batch := {| bp_Namespace := GetString payload "namespace";
                   bp_TransactionID := take 16 hexUUIDs;
                   bp_BatchID := drop 16 hexUUIDs;
                   bp_BatchHash := batchHash;
                   bp_BatchPayloadRef := GetString payload "payloadRef";
                   bp_Contexts := contexts;
                   bp_Event := event |}).
  set (verifier := {| vr_Type := VerifierTypeMSPIdentity;
                      vr_Value := GetString payload "signer" |}).
  assert (Hrun : handleBatchPinEvent f msgJSON w =
                 callbacks_BatchPinComplete (f_callbacks f) batch verifier w).
  { unfold handleBatchPinEvent. rewrite Hparse. simpl. rewrite Hout.
    rewrite Hns, Hhex, Hlen. simpl. rewrite Hhash, Hdec.
    unfold batch. do 3 f_equal.
    rewrite take_ge; [done |]. rewrite length_drop. lia. }
  destruct (fanout_listeners f (CallBatchPinComplete batch verifier) w)
    as (k & err & Hf & Hk & Hall & _).
  exists event, k, err. split; [by rewrite Hparse |].
  split; [exact Hrun |]. split; [by rewrite Hrun |].
  split; [exact Hk |]. split; [exact Hall |]. simpl.
  split; [rewrite length_take; lia |].
  split; [rewrite length_drop; lia |].
  split; [apply take_drop |].
  split; [symmetry; by eapply Forall2_length |].
  intros Hsub Hname. unfold handleMessage.
  rewrite Hsub, Hname, !String.eqb_refl. unfold bind. rewrite Hrun.
  unfold callbacks_BatchPinComplete. rewrite Hf.
  by destruct err.
Qed.

(** C3. When [handleBatchPinEvent] decodes an event whose namespace begins
    with [firefly:], it invokes [BlockchainNetworkAction] with the
    namespace stripped of that prefix, with the event and with the signer
    as an MSP identity; nothing it delivers is a [BatchPinComplete]. This
    is what the batch loop does with a BatchPin event of the active
    subscription. *)
Theorem handleBatchPinEvent_network_action (f : Fabric)
    (msgJSON payload : JSONObject) (w : World) :
  decodeJSONPayload (GetString msgJSON "payload") = Some payload ->
  strings_HasPrefix (GetString payload "namespace") FireFlyActionPrefix = true ->
  exists event k err,
    fst (parseBlockchainEvent f msgJSON) = Some event /\
    let action := slice_from (len FireFlyActionPrefix) (GetString payload "namespace") in
    let verifier :=
      {| vr_Type := VerifierTypeMSPIdentity;
         vr_Value := GetString payload "signer" |} in
    let c := CallBlockchainNetworkAction action event verifier in
    GetString payload "namespace" = FireFlyActionPrefix +:+ action /\
    handleBatchPinEvent f msgJSON w =
      callbacks_BlockchainNetworkAction (f_callbacks f) action event verifier w /\
    handleBatchPinEvent f msgJSON w = (Returns err, logged w (deliveries 0 k c)) /\
    (k <= length (listeners (f_callbacks f)))%nat /\
    (err = None -> k = length (listeners (f_callbacks f))) /\
    (forall j batch key, (j, CallBatchPinComplete batch key) ∉ deliveries 0 k c) /\
    (GetString msgJSON "subId" = fc_subscription (f_fireflyContract f) ->
     GetString msgJSON "eventName" = broadcastBatchEventName ->
     handleMessage f (JObject msgJSON) w =
       (Returns (ctl_of err), logged w (deliveries 0 k c))).
Proof.
  intros Hp Hns.
  destruct (parseBlockchainEvent_decoded f msgJSON payload Hp)
    as (event & Hparse & Hout & _).
  set (action := slice_from (len FireFlyActionPrefix) (GetString payload "namespace")).
  set (verifier := {| vr_Type := VerifierTypeMSPIdentity;
                      vr_Value := GetString payload "signer" |}).
  assert (Hrun : handleBatchPinEvent f msgJSON w =
                 callbacks_BlockchainNetworkAction (f_callbacks f) action event verifier w).
  { unfold handleBatchPinEvent. rewrite Hparse. simpl. rewrite Hout. by rewrite Hns. }
  destruct (fanout_listeners f (CallBlockchainNetworkAction action event verifier) w)
    as (k & err & Hf & Hk & Hall & _).
  assert (Hh : handleBatchPinEvent f msgJSON w =
               (Returns err,
                logged w (deliveries 0 k
                            (CallBlockchainNetworkAction action event verifier)))).
  { by rewrite Hrun. }
  exists event, k, err. split; [by rewrite Hparse |].
  split; [by apply strings_HasPrefix_split |].
  split; [exact Hrun |]. split; [exact Hh |].
  split; [exact Hk |]. split; [exact Hall |].
  split; [by apply no_BatchPinComplete_in_deliveries |].
  intros Hsub Hname. unfold handleMessage.
  rewrite Hsub, Hname, !String.eqb_refl. unfold bind. rewrite Hh.
  by destruct err.
Qed.

(** An event of the active subscription with another name is passed over
    before anything of it is decoded. *)
Lemma handleMessage_ignores_other_names (f : Fabric) (msgJSON : JSONObject) (w : World) :
  GetString msgJSON "subId" = fc_subscription (f_fireflyContract f) ->
  GetString msgJSON "eventName" <> broadcastBatchEventName ->
  handleMessage f (JObject msgJSON) w = (Returns Continue, w).
Proof.
  intros Hsub Hname. apply String.eqb_neq in Hname.
  unfold handleMessage. by rewrite Hsub, String.eqb_refl, Hname.
Qed.

(** C4, as amended. A message of a batch whose subId is not the active
    BatchPin subscription and whose payload decodes makes the connector
    invoke [BlockchainEvent] with the event and that subId; a message
    whose payload does not decode is skipped without any callback. In
    neither case is anything delivered a [BatchPinComplete]. *)
Theorem handleMessage_other_subscription (f : Fabric) (msgJSON : JSONObject)
    (w : World) :
  GetString msgJSON "subId" <> fc_subscription (f_fireflyContract f) ->
  match decodeJSONPayload (GetString msgJSON "payload") with
  | Some payload =>
      exists event k err,
        fst (parseBlockchainEvent f msgJSON) = Some event /\
        ev_Output event = payload /\
        let c :=
          CallBlockchainEvent
            {| ews_Event := event;
               ews_Subscription := GetString msgJSON "subId" |} in
        handleMessage f (JObject msgJSON) w =
          (Returns (ctl_of err), logged w (deliveries 0 k c)) /\
        (k <= length (listeners (f_callbacks f)))%nat /\
        (err = None -> k = length (listeners (f_callbacks f))) /\
        (forall j batch key, (j, CallBatchPinComplete batch key) ∉ deliveries 0 k c)
  | None => handleMessage f (JObject msgJSON) w = (Returns Continue, w)
  end.
Proof.
  intros Hsub. apply String.eqb_neq in Hsub.
  destruct (decodeJSONPayload _) as [payload |] eqn:Hp.
  - destruct (parseBlockchainEvent_decoded f msgJSON payload Hp)
      as (event & Hparse & Hout & _).
    set (c := CallBlockchainEvent
                {| ews_Event := event;
                   ews_Subscription := GetString msgJSON "subId" |}).
    destruct (fanout_listeners f c w) as (k & err & Hf & Hk & Hall & _).
    exists event, k, err. split; [by rewrite Hparse |]. split; [exact Hout |].
    split.
    + unfold handleMessage. rewrite Hsub. unfold bind, handleContractEvent.
      rewrite Hparse. unfold callbacks_BlockchainEvent.
      replace (GetString (delete "payload" msgJSON) "subId")
        with (GetString msgJSON "subId")
        by (unfold GetString; by rewrite lookup_delete_ne).
      fold c. rewrite Hf. by destruct err.
    + split; [exact Hk |]. split; [exact Hall |].
      by apply no_BatchPinComplete_in_deliveries.
  - unfold handleMessage. rewrite Hsub. unfold bind, handleContractEvent.
    by rewrite (parseBlockchainEvent_undecoded f msgJSON Hp).
Qed.

(** C9. A receipt with a requestId and a type in its headers makes
    [handleReceipt] invoke [BlockchainOpUpdate] on every listener, with
    the status succeeded when the type is [TransactionSuccess] and failed
    for any other type; a receipt without a requestId or without a type
    leads to no callback. *)
Theorem handleReceipt_status (f : Fabric) (reply : JSONObject) (w : World) :
  let headers := GetObject reply "headers" in
  let requestID := GetString headers "requestId" in
  let replyType := GetString headers "type" in
  let update status :=
    CallBlockchainOpUpdate requestID status (GetString reply "transactionId")
      (GetString reply "errorMessage") reply in
  let n := length (listeners (f_callbacks f)) in
  (requestID <> "" -> replyType = "TransactionSuccess" ->
   handleReceipt f reply w =
     (Returns tt, logged w (deliveries 0 n (update OpStatusSucceeded)))) /\
  (requestID <> "" -> replyType <> "" -> replyType <> "TransactionSuccess" ->
   handleReceipt f reply w =
     (Returns tt, logged w (deliveries 0 n (update OpStatusFailed)))) /\
  (requestID = "" \/ replyType = "" -> handleReceipt f reply w = (Returns tt, w)).
Proof.
  intros headers requestID replyType update n. unfold handleReceipt.
  fold headers. fold requestID. fold replyType.
  split; [| split].
  - intros Hid Hty. apply String.eqb_neq in Hid. rewrite Hid, Hty. simpl.
    apply fanout_all_spec.
  - intros Hid Hty Hfail.
    apply String.eqb_neq in Hid, Hty, Hfail. rewrite Hid, Hty, Hfail. simpl.
    apply fanout_all_spec.
  - intros [Hid | Hty].
    + apply String.eqb_eq in Hid. by rewrite Hid.
    + apply String.eqb_eq in Hty. rewrite Hty. by rewrite orb_true_r.
Qed.

End BatchPinProtocol.

(** ** The batch loop and the event loop *)

Section Loops.
Context `{Platform}.

(** A message that is not a JSON object ends the batch at once, without
    an error: the messages behind it are not looked at. *)
Lemma handleMessageBatch_not_an_object f msgI rest w :
  (forall msgJSON, msgI <> JObject msgJSON) ->
  handleMessageBatch f (msgI :: rest) w = (Returns None, w).
Proof. intros Hno. destruct msgI; try done. by destruct (Hno m). Qed.

(** A message that the loop body passes over without a callback can be
    taken out of the batch: the others are handled as if it was not there. *)
Lemma handleMessageBatch_skip f msgI :
  (forall w, handleMessage f msgI w = (Returns Continue, w)) ->
  forall pre post w,
    handleMessageBatch f (pre ++ msgI :: post) w = handleMessageBatch f (pre ++ post) w.
Proof.
  intros Hskip. induction pre as [| m pre IH]; intros post w; simpl.
  - unfold bind. by rewrite Hskip.
  - unfold bind. destruct (handleMessage f m w) as [[[| err] |] w']; [apply IH | done | done].
Qed.

(** The loop over the contexts ends at the first text that
    [UnmarshalText] does not decode: with [Returns None] when it returns an
    error, with a panic when it panics. *)
Lemma decodeContexts_stops pre sHash post :
  Forall decodes pre ->
  (forall hash, Bytes32_UnmarshalText sHash <> Returns (Some hash)) ->
  decodeContexts (pre ++ sHash :: post) =
    match Bytes32_UnmarshalText sHash with
    | Panics => Panics
    | Returns _ => Returns None
    end.
Proof.
  intros Hpre Hbad. induction Hpre as [| s pre [h Hs] _ IH]; simpl.
  - destruct (Bytes32_UnmarshalText sHash) as [[h |] |]; [by destruct (Hbad h) | done | done].
  - rewrite Hs, IH. by destruct (Bytes32_UnmarshalText sHash) as [[h' |] |].
Qed.

(** Such an event is skipped: no callback, no error. *)
Lemma handleBatchPinEvent_malformed f msgJSON w :
  malformed msgJSON ->
  handleBatchPinEvent f msgJSON w = (Returns None, w).
Proof.
  intros Hbad. unfold handleBatchPinEvent.
  destruct Hbad as [Hp | payload Hp Hns Hhex | payload Hp Hns Hhash
                    | payload pre sHash post Hp Hns Hhash Hctx Hpre Hs];
    [by rewrite (parseBlockchainEvent_undecoded f msgJSON Hp) | | |];
    destruct (parseBlockchainEvent_decoded f msgJSON payload Hp)
      as (event & Hparse & Hout & _);
    rewrite Hparse; simpl; rewrite Hout, Hns.
  - destruct (hex_DecodeString _) as [hexUUIDs |] eqn:Hd; [| done].
    specialize (Hhex hexUUIDs eq_refl). apply Nat.eqb_neq in Hhex.
    by rewrite Hhex.
  - rewrite Hhash.
    destruct (hex_DecodeString _) as [hexUUIDs |]; [| done].
    by destruct (length hexUUIDs =? 32)%nat.
  - rewrite Hctx, (decodeContexts_stops pre sHash post Hpre), Hs by (by rewrite Hs).
    destruct (hex_DecodeString _) as [hexUUIDs |]; [| done].
    destruct (length hexUUIDs =? 32)%nat; [| done]. simpl.
    by destruct (Bytes32_UnmarshalText (GetString payload "batchHash")) as [[h |] |].
Qed.

(** X5. One malformed BatchPin event of the active subscription among
    the messages of a batch does not abort it: the batch is handled as the
    batch without it. *)
Lemma handleMessageBatch_malformed_event f msgJSON pre post w :
  GetString msgJSON "subId" = fc_subscription (f_fireflyContract f) ->
  GetString msgJSON "eventName" = broadcastBatchEventName ->
  malformed msgJSON ->
  handleMessageBatch f (pre ++ JObject msgJSON :: post) w =
  handleMessageBatch f (pre ++ post) w.
Proof.
  intros Hsub Hname Hbad. apply handleMessageBatch_skip. intros w'.
  unfold handleMessage. rewrite Hsub, Hname, !String.eqb_refl.
  unfold bind. by rewrite (handleBatchPinEvent_malformed f msgJSON w' Hbad).
Qed.

(** On an event whose batch hash or context holds more than [UnmarshalText]
    has room for, the handler panics before any callback. *)
Lemma handleBatchPinEvent_crashing f msgJSON w :
  crashing msgJSON ->
  handleBatchPinEvent f msgJSON w = (Panics, w).
Proof.
  intros Hbad. unfold handleBatchPinEvent.
  destruct Hbad as [payload hexUUIDs Hp Hns Hhex Hlen Hhash
                    | payload hexUUIDs pre sHash post Hp Hns Hhex Hlen [h Hhash]
                        Hctx Hpre Hs];
    destruct (parseBlockchainEvent_decoded f msgJSON payload Hp)
      as (event & Hparse & Hout & _);
    rewrite Hparse; simpl; rewrite Hout, Hns, Hhex, Hlen; simpl; rewrite Hhash.
  - done.
  - by rewrite Hctx, (decodeContexts_stops pre sHash post Hpre), Hs by (by rewrite Hs).
Qed.

(** The panic takes the batch with it: the messages behind the event are
    not handled. *)
Lemma handleMessageBatch_crashing f msgJSON post w :
  GetString msgJSON "subId" = fc_subscription (f_fireflyContract f) ->
  GetString msgJSON "eventName" = broadcastBatchEventName ->
  crashing msgJSON ->
  handleMessageBatch f (JObject msgJSON :: post) w = (Panics, w).
Proof.
  intros Hsub Hname Hbad. simpl. unfold bind, handleMessage.
  rewrite Hsub, Hname, !String.eqb_refl.
  unfold bind. by rewrite (handleBatchPinEvent_crashing f msgJSON w Hbad).
Qed.

End Loops.

Section EventLoopProperties.
Context `{Platform}.

(** The ack frame is the JSON text of [{type: ack, topic: f.topic}]. *)
Lemma ack_topic f b :
  json_Marshal
    (JObject (<["type" := JString "ack"]> (<["topic" := JString (f_topic f)]> ∅))) = inr b ->
  ack f = b.
Proof. intros Hb. unfold ack. by rewrite Hb. Qed.

Lemma handleMessageBatch_sent f messages w :
  sent (snd (handleMessageBatch f messages w)) = sent w.
Proof.
  destruct (handleMessageBatch_run f messages w) as (added & out & -> & _). done.
Qed.

(** C2. For a frame that parses as an array, the event loop hands one frame
    to the websocket, the JSON text of [{type: ack, topic: f.topic}] with
    the configured topic, exactly when [handleMessageBatch] returned nil,
    and then goes on with the next frame (unless sending failed); when
    [handleMessageBatch] returned an error, which it does exactly when a
    delivery to a listener was answered with that error, the loop returns
    at once: nothing is sent and no later frame is looked at. Nothing is
    sent either when [handleMessageBatch] does not return but panics: the
    panic unwinds through the loop. *)
Theorem eventLoop_ack_iff_batch_ok (f : Fabric) (msgBytes : list byte)
    (messages : list JSON) (rest : list Select) (w : World) :
  json_Unmarshal msgBytes = inr (JArray messages) ->
  let ackFrame :=
    match json_Marshal
            (JObject (<["type" := JString "ack"]>
                      (<["topic" := JString (f_topic f)]> ∅))) with
    | inr b => b
    | inl _ => []
    end in
  exists added out,
    handleMessageBatch f messages w = (out, logged w added) /\
    (forall e, out = Returns (Some e) <->
               callback_failed (listeners (f_callbacks f)) (calls w) added e) /\
    (sent (snd (eventLoop f [Receive (Some msgBytes)] w)) = sent w ++ [ackFrame] <->
     out = Returns None) /\
    (sent (snd (eventLoop f [Receive (Some msgBytes)] w)) = sent w <->
     out <> Returns None) /\
    eventLoop f (Receive (Some msgBytes) :: rest) w =
      match out with
      | Returns None =>
          let w' :=
            mkWorld (calls w ++ added) (sent w ++ [ackFrame]) (wsClosed w) (closed w) in
          match Send (f_wsconn f) (sent w) ackFrame with
          | None => eventLoop f rest w'
          | Some e => (Returns (Some (ExitError e)), mkWorld (calls w') (sent w') true true)
          end
      | Returns (Some e) =>
          (Returns (Some (ExitError e)), mkWorld (calls w ++ added) (sent w) true true)
      | Panics =>
          (Panics, mkWorld (calls w ++ added) (sent w) true true)
      end.
Proof.
  intros Hparse ackFrame.
  destruct (handleMessageBatch_run f messages w) as (added & out & Hb & Hrun).
  exists added, out. split; [exact Hb |].
  assert (Hack : ack f = ackFrame) by reflexivity.
  assert (Hne : sent w ++ [ackFrame] <> sent w).
  { intros Heq. apply (f_equal length) in Heq.
    rewrite length_app in Heq. simpl in Heq. lia. }
  assert (Hsent : sent (snd (eventLoop f [Receive (Some msgBytes)] w)) =
                  match out with
                  | Returns None => sent w ++ [ackFrame]
                  | _ => sent w
                  end).
  { simpl. rewrite Hparse. unfold bind, eventLoop_unwind. rewrite Hb.
    destruct out as [[e |] |]; [done | | done].
    unfold wsconn_Send. rewrite Hack. simpl. by destruct (Send _ _ _). }
  split.
  { intros e. split.
    - intros ->. simpl in Hrun. by apply (run_failed_iff _ _ _ _ Hrun).
    - intros Hfail. apply (run_failed_iff _ _ _ _ Hrun) in Hfail.
      destruct out as [err |]; simpl in Hfail; [by subst err | done]. }
  split.
  { rewrite Hsent. destruct out as [[e |] |].
    - split; [intros Heq; symmetry in Heq; by destruct Hne | done].
    - by split.
    - split; [intros Heq; symmetry in Heq; by destruct Hne | done]. }
  split.
  { rewrite Hsent. destruct out as [[e |] |].
    - by split.
    - split; [intros Heq; by destruct Hne | intros Hno; by destruct Hno].
    - by split. }
  simpl. rewrite Hparse. unfold bind, eventLoop_unwind. rewrite Hb.
  destruct out as [[e |] |]; [done | | done].
  unfold wsconn_Send. rewrite Hack. simpl. by destruct (Send _ _ _).
Qed.

(** X7. A frame whose first message is a BatchPin event of the active
    subscription with an over-long batch hash or context takes the event
    loop down: the panic unwinds through it, its deferred calls run,
    nothing is sent and no listener is invoked. *)
Lemma eventLoop_crashing f msgBytes msgJSON post rest w :
  json_Unmarshal msgBytes = inr (JArray (JObject msgJSON :: post)) ->
  GetString msgJSON "subId" = fc_subscription (f_fireflyContract f) ->
  GetString msgJSON "eventName" = broadcastBatchEventName ->
  crashing msgJSON ->
  eventLoop f (Receive (Some msgBytes) :: rest) w =
    (Panics, mkWorld (calls w) (sent w) true true).
Proof.
  intros Hparse Hsub Hname Hbad. cbn [eventLoop]. rewrite Hparse.
  unfold bind, eventLoop_unwind.
  by rewrite (handleMessageBatch_crashing f msgJSON post w Hsub Hname Hbad).
Qed.

End EventLoopProperties.

(** ** The contract lifecycle *)

Section LifecycleProperties.
Context `{Platform}.

(** Below [MaxInt] the increment of an [int] is exact; at [MaxInt] it wraps
    around. *)
Lemma int_add_exact i : MinInt <= i < MaxInt -> int_add i 1 = i + 1.
Proof.
  unfold int_add, int_wrap, MinInt, MaxInt. intros Hi.
  rewrite Z.mod_small; lia.
Qed.

Lemma int_add_wraps : int_add MaxInt 1 = MinInt.
Proof. reflexivity. Qed.

(** When [ConfigureContract] returns an error it has changed neither the
    connector nor the contracts. *)
Lemma ConfigureContract_error f contracts err f' contracts' :
  ConfigureContract f contracts = Returns (Some err, f', contracts') ->
  f' = f /\ contracts' = contracts.
Proof.
  unfold ConfigureContract.
  destruct (resolveFireFlyContract _ _) as [e | [cc fb]]; [by intros [= _ <- <-] |].
  destruct (ensureFireFlySubscription _ _ _ _ _) as [e | sub]; [by intros [= _ <- <-] |].
  destruct (getNetworkVersion _ _) as [[version [e |]] |]; [| done | done].
  by intros [= _ <- <-].
Qed.

(** The three ways in which it fails. *)
Lemma ConfigureContract_fails f contracts :
  (forall e,
     resolveFireFlyContract f (ci_Index (Active contracts)) = inl e ->
     ConfigureContract f contracts = Returns (Some e, f, contracts)) /\
  (forall cc fb e,
     resolveFireFlyContract f (ci_Index (Active contracts)) = inr (cc, fb) ->
     ensureFireFlySubscription (f_streams f)
       {| Channel := f_defaultChannel f; Chaincode := cc |} fb (f_streamID f)
       batchPinEvent = inl e ->
     ConfigureContract f contracts = Returns (Some e, f, contracts)) /\
  (forall cc fb sub version e,
     resolveFireFlyContract f (ci_Index (Active contracts)) = inr (cc, fb) ->
     ensureFireFlySubscription (f_streams f)
       {| Channel := f_defaultChannel f; Chaincode := cc |} fb (f_streamID f)
       batchPinEvent = inr sub ->
     getNetworkVersion f cc = Returns (version, Some e) ->
     ConfigureContract f contracts = Returns (Some e, f, contracts)).
Proof.
  unfold ConfigureContract. repeat split.
  - by intros e ->.
  - by intros cc fb e -> ->.
  - by intros cc fb sub version e -> -> ->.
Qed.

(** What it publishes when it succeeds. *)
Lemma ConfigureContract_success f contracts cc fb sub version :
  resolveFireFlyContract f (ci_Index (Active contracts)) = inr (cc, fb) ->
  ensureFireFlySubscription (f_streams f)
    {| Channel := f_defaultChannel f; Chaincode := cc |} fb (f_streamID f)
    batchPinEvent = inr sub ->
  getNetworkVersion f cc = Returns (version, None) ->
  ConfigureContract f contracts =
    Returns (None, published f cc fb version (sub_ID sub),
             {| Active :=
                  {| ci_Index := ci_Index (Active contracts);
                     ci_FinalEvent := ci_FinalEvent (Active contracts);
                     ci_Info := activeInfo cc fb (sub_ID sub) |};
                Terminated := Terminated contracts |}).
Proof. unfold ConfigureContract. by intros -> -> ->. Qed.

(** [ConfigureContract] never touches the index or the terminated list. *)
Lemma ConfigureContract_frame f contracts err f' contracts' :
  ConfigureContract f contracts = Returns (err, f', contracts') ->
  ci_Index (Active contracts') = ci_Index (Active contracts) /\
  ci_FinalEvent (Active contracts') = ci_FinalEvent (Active contracts) /\
  Terminated contracts' = Terminated contracts.
Proof.
  unfold ConfigureContract.
  destruct (resolveFireFlyContract _ _) as [e | [cc fb]]; [by intros [= _ _ <-] |].
  destruct (ensureFireFlySubscription _ _ _ _ _) as [e | sub]; [by intros [= _ _ <-] |].
  destruct (getNetworkVersion _ _) as [[version [e |]] |]; [| | done].
  - by intros [= _ _ <-].
  - by intros [= _ _ <-].
Qed.

Lemma TerminateContract_match f contracts termination :
  GetString (ev_Info termination) "chaincodeId" = fc_chaincode (f_fireflyContract f) ->
  TerminateContract f contracts termination =
  ConfigureContract f (rolledForward contracts termination).
Proof.
  intros Hm. unfold TerminateContract. by rewrite Hm, String.eqb_refl.
Qed.

(** However the follow-on configuration ends, a matching termination has
    rolled the contracts forward when [TerminateContract] returns. *)
Lemma TerminateContract_always_rolls f contracts termination err f' contracts' :
  GetString (ev_Info termination) "chaincodeId" = fc_chaincode (f_fireflyContract f) ->
  TerminateContract f contracts termination = Returns (err, f', contracts') ->
  ci_Index (Active contracts') = int_add (ci_Index (Active contracts)) 1 /\
  Terminated contracts' = Terminated contracts ++ [closedRecord contracts termination].
Proof.
  intros Hm. rewrite (TerminateContract_match _ _ _ Hm). intros Hc.
  apply ConfigureContract_frame in Hc as (Hi & _ & Ht). by rewrite Hi, Ht.
Qed.

(** C6. A termination event whose chaincodeId is the active chaincode makes
    [TerminateContract] increment the active index by exactly 1 and append
    exactly one record to the terminated contracts, the closed one with the
    ProtocolID of the termination event as its FinalEvent, however the call
    returns; the Info of the new active record is filled in through
    [ConfigureContract] from the deployment configured at the new index:
    with that deployment resolved, its subscription ensured and its version
    read, the call returns nil and the Info holds its chaincode, its
    fromBlock and its subscription. *)
Theorem TerminateContract_rolls_forward (f : Fabric) (contracts : FireFlyContracts)
    (termination : Event) :
  GetString (ev_Info termination) "chaincodeId" = fc_chaincode (f_fireflyContract f) ->
  MinInt <= ci_Index (Active contracts) < MaxInt ->
  let closedOne :=
    {| ci_Index := ci_Index (Active contracts);
       ci_FinalEvent := ev_ProtocolID termination;
       ci_Info := ci_Info (Active contracts) |} in
  (forall err f' contracts',
     TerminateContract f contracts termination = Returns (err, f', contracts') ->
     ci_Index (Active contracts') = ci_Index (Active contracts) + 1 /\
     Terminated contracts' = Terminated contracts ++ [closedOne]) /\
  (forall cc fb sub version,
     resolveFireFlyContract f (ci_Index (Active contracts) + 1) = inr (cc, fb) ->
     ensureFireFlySubscription (f_streams f)
       {| Channel := f_defaultChannel f; Chaincode := cc |} fb (f_streamID f)
       batchPinEvent = inr sub ->
     getNetworkVersion f cc = Returns (version, None) ->
     TerminateContract f contracts termination =
       Returns (None, published f cc fb version (sub_ID sub),
                {| Active :=
                     {| ci_Index := ci_Index (Active contracts) + 1;
                        ci_FinalEvent := "";
                        ci_Info := activeInfo cc fb (sub_ID sub) |};
                   Terminated := Terminated contracts ++ [closedOne] |})).
Proof.
  intros Hm Hrange closedOne. split.
  - intros err f' contracts' Hret.
    destruct (TerminateContract_always_rolls _ _ _ _ _ _ Hm Hret) as [Hi Ht].
    by rewrite Hi, Ht, (int_add_exact _ Hrange).
  - intros cc fb sub version Hres Hsub Hver.
    rewrite (TerminateContract_match _ _ _ Hm).
    rewrite (ConfigureContract_success f (rolledForward contracts termination)
               cc fb sub version).
    + simpl. by rewrite (int_add_exact _ Hrange).
    + simpl. by rewrite (int_add_exact _ Hrange).
    + exact Hsub.
    + exact Hver.
Qed.

(** C7. A termination event whose chaincodeId is not the active chaincode
    makes [TerminateContract] return nil and leave the contracts, active
    and terminated, and the connector with its guarded state as they
    were. *)
Theorem TerminateContract_ignores_other_contract (f : Fabric)
    (contracts : FireFlyContracts) (termination : Event) :
  GetString (ev_Info termination) "chaincodeId" <> fc_chaincode (f_fireflyContract f) ->
  TerminateContract f contracts termination = Returns (None, f, contracts).
Proof.
  intros Hne. apply String.eqb_neq in Hne.
  unfold TerminateContract. by rewrite Hne.
Qed.

(** C10. When the termination event matches and the follow-on
    [ConfigureContract] fails, [TerminateContract] returns that error, and
    the contracts it was given are left rolled forward: the closed record,
    stamped with the ProtocolID of the termination event, is appended to
    the terminated contracts, and the active record is the bare record of
    the next index. The connector's own state is not touched. *)
Theorem TerminateContract_not_atomic (f : Fabric) (contracts : FireFlyContracts)
    (termination : Event) (err : GoError) (f1 : Fabric) (c1 : FireFlyContracts) :
  GetString (ev_Info termination) "chaincodeId" = fc_chaincode (f_fireflyContract f) ->
  ConfigureContract f (rolledForward contracts termination) = Returns (Some err, f1, c1) ->
  TerminateContract f contracts termination =
    Returns (Some err, f,
             {| Active :=
                  {| ci_Index := int_add (ci_Index (Active contracts)) 1;
                     ci_FinalEvent := "";
                     ci_Info := ∅ |};
                Terminated :=
                  Terminated contracts ++
                  [{| ci_Index := ci_Index (Active contracts);
                      ci_FinalEvent := ev_ProtocolID termination;
                      ci_Info := ci_Info (Active contracts) |}] |}) /\
  rolledForward contracts termination <> contracts.
Proof.
  intros Hm Hc. rewrite (TerminateContract_match _ _ _ Hm), Hc.
  apply ConfigureContract_error in Hc as [-> ->]. split; [done |].
  intros Heq. apply (f_equal (fun c => length (Terminated c))) in Heq.
  simpl in Heq. rewrite length_app in Heq. simpl in Heq. lia.
Qed.

End LifecycleProperties.

(** ** The network version *)

Section NetworkVersionProperties.
Context `{Platform}.

(** [queryContractMethod] returns no error only together with a response
    of a 2xx status. *)
Lemma queryContractMethod_ok f channel cc method signingKey requestID items input options res :
  queryContractMethod f channel cc method signingKey requestID items input options
    = (res, None) ->
  exists r, res = Some r /\ IsSuccess r = true.
Proof.
  unfold queryContractMethod.
  destruct (buildFabconnectRequestBody _ _ _ _ _ _ _ _ _) as [e | body]; [done |].
  destruct (rr_err _); [done |].
  destruct (IsSuccess _) eqn:Hs; simpl; [| done].
  intros [= <-]. eauto.
Qed.

(** [getNetworkVersion] panics in one way only: the query succeeded and
    its result is no number. *)
Lemma getNetworkVersion_panics f cc :
  getNetworkVersion f cc = Panics ->
  exists res output,
    queryContractMethod f (f_defaultChannel f) cc networkVersionMethodName
      (f_signer f) "" [] ∅ ∅ = (Some res, None) /\
    json_Unmarshal_fabQueryNamedOutput (Body res) = inr output /\
    forall x, qo_Result output <> JNumber x.
Proof.
  unfold getNetworkVersion.
  destruct (queryContractMethod _ _ _ _ _ _ _ _ _) as [res [e |]] eqn:Hq.
  - destruct res; by destruct (strings_Contains _ _).
  - destruct (queryContractMethod_ok _ _ _ _ _ _ _ _ _ _ Hq) as (r & -> & Hs).
    rewrite Hs. simpl.
    destruct (json_Unmarshal_fabQueryNamedOutput _) as [e | output] eqn:Hu; [done |].
    destruct (qo_Result output) eqn:Hr; try done; intros _;
      exists r, output; repeat split; try done; by rewrite Hr.
Qed.

(** C8. When the network-version query of [ConfigureContract] fails with
    an error whose text contains [Function NetworkVersion not found],
    [getNetworkVersion] returns version 1 and no error, and the deployment
    is published with that version; when the query fails with any other
    error, that error is returned by [ConfigureContract], and neither the
    connector's state nor the contracts are changed. *)
Theorem getNetworkVersion_not_found (f : Fabric) (contracts : FireFlyContracts)
    (cc fb : string) (sub : subscription) (res : option Response) (e : GoError) :
  resolveFireFlyContract f (ci_Index (Active contracts)) = inr (cc, fb) ->
  ensureFireFlySubscription (f_streams f)
    {| Channel := f_defaultChannel f; Chaincode := cc |} fb (f_streamID f)
    batchPinEvent = inr sub ->
  queryContractMethod f (f_defaultChannel f) cc networkVersionMethodName
    (f_signer f) "" [] ∅ ∅ = (res, Some e) ->
  if strings_Contains (Error e) "Function NetworkVersion not found" then
    getNetworkVersion f cc = Returns (1, None) /\
    ConfigureContract f contracts =
      Returns (None, published f cc fb 1 (sub_ID sub),
               {| Active :=
                    {| ci_Index := ci_Index (Active contracts);
                       ci_FinalEvent := ci_FinalEvent (Active contracts);
                       ci_Info := activeInfo cc fb (sub_ID sub) |};
                  Terminated := Terminated contracts |})
  else
    getNetworkVersion f cc = Returns (0, Some e) /\
    ConfigureContract f contracts = Returns (Some e, f, contracts).
Proof.
  intros Hres Hsub Hq.
  assert (Hv : getNetworkVersion f cc =
               if strings_Contains (Error e) "Function NetworkVersion not found"
               then Returns (1, None) else Returns (0, Some e)).
  { unfold getNetworkVersion. rewrite Hq. by destruct res. }
  destruct (strings_Contains _ _).
  - split; [exact Hv |]. by apply ConfigureContract_success.
  - split; [exact Hv |].
    by apply (proj2 (proj2 (ConfigureContract_fails f contracts)) cc fb sub 0 e).
Qed.

(** A query that comes back with a status outside 2xx, or with a transport
    error, is such a failure: its error is the wrapped reply. *)
Lemma queryContractMethod_failure f channel cc method signingKey requestID items input options body :
  buildFabconnectRequestBody f channel cc method signingKey requestID items input options
    = inr body ->
  let r := Post (f_client f) "/query" body in
  rr_err r <> None \/ IsSuccess (rr_res r) = false ->
  queryContractMethod f channel cc method signingKey requestID items input options
    = (Some (rr_res r), Some (wrapError (rr_resErr r) (rr_res r) (rr_err r))).
Proof.
  intros Hb r Hfail. unfold queryContractMethod. rewrite Hb. fold r.
  destruct (rr_err r) as [e |]; [done |].
  destruct Hfail as [Hfail | Hfail]; [done |]. by rewrite Hfail.
Qed.

End NetworkVersionProperties.

(** * More of the connector *)

(** ** The fan-out, listener by listener *)

Lemma fst_deliveries i k c : fst <$> deliveries i k c = seq i k.
Proof.
  unfold deliveries. rewrite <- list_fmap_compose.
  rewrite (list_fmap_ext _ id); [| done]. by rewrite list_fmap_id.
Qed.

Lemma fanout_first_error_from c e failing after : forall before i w,
  (forall j l, before !! j = Some l ->
               answer l (calls w ++ deliveries i j c) c = None) ->
  answer failing (calls w ++ deliveries i (length before) c) c = Some e ->
  fanout i (before ++ failing :: after) c w =
    (Returns (Some e), logged w (deliveries i (S (length before)) c)).
Proof.
  induction before as [| b before IH]; intros i w Hbefore Hfail; simpl.
  - unfold bind. rewrite deliver_eq. simpl in Hfail.
    rewrite app_nil_r in Hfail. by rewrite Hfail.
  - unfold bind. rewrite deliver_eq.
    pose proof (Hbefore 0%nat b eq_refl) as Hb. simpl in Hb.
    rewrite app_nil_r in Hb. rewrite Hb. cbv beta iota.
    rewrite (IH (S i) (logged w [(i, c)])).
    + by rewrite logged_app.
    + intros j l Hl. rewrite calls_logged, <- app_assoc. simpl.
      apply (Hbefore (S j) l Hl).
    + rewrite calls_logged, <- app_assoc. exact Hfail.
Qed.

(** X1. The loop of [callbacks.BatchPinComplete],
    [callbacks.BlockchainNetworkAction] and [callbacks.BlockchainEvent]
    stops at the first listener that answers with an error: the listeners
    registered before it have each been invoked once, in registration
    order, the error is returned, and no listener registered behind it is
    invoked. *)
Theorem fanout_stops_at_first_error (cb : callbacks)
    (before after : list Callbacks) (failing : Callbacks) (c : Call)
    (e : GoError) (w : World) :
  listeners cb = before ++ failing :: after ->
  (forall j l, before !! j = Some l ->
               answer l (calls w ++ deliveries 0 j c) c = None) ->
  answer failing (calls w ++ deliveries 0 (length before) c) c = Some e ->
  fanout 0 (listeners cb) c w =
    (Returns (Some e), logged w (deliveries 0 (S (length before)) c)) /\
  forall j c', (j, c') ∈ deliveries 0 (S (length before)) c ->
               (j <= length before)%nat.
Proof.
  intros -> Hbefore Hfail. split.
  - by apply fanout_first_error_from.
  - intros j c' Hin. apply elem_of_deliveries in Hin as [_ Hj]. simpl in Hj. lia.
Qed.

Lemma fanout_app c : forall ls1 ls2 i w,
  fanout i (ls1 ++ ls2) c w =
    match fanout i ls1 c w with
    | (Returns None, w1) => fanout (i + length ls1) ls2 c w1
    | r => r
    end.
Proof.
  induction ls1 as [| l ls1 IH]; intros ls2 i w; simpl.
  - unfold ret. by rewrite Nat.add_0_r.
  - unfold bind. rewrite deliver_eq. cbv beta iota.
    destruct (answer l (calls w) c) as [e |]; [done |].
    rewrite IH. by replace (S i + length ls1)%nat with (i + S (length ls1))%nat by lia.
Qed.

(** X2. A listener added with [RegisterListener] is invoked after all the
    listeners registered before it, which are invoked as they were; it is
    reached only when none of them answered with an error. *)
Theorem RegisterListener_invoked_last (f : Fabric) (listener : Callbacks)
    (c : Call) (w : World) :
  fanout 0 (listeners (f_callbacks (RegisterListener f listener))) c w =
    match fanout 0 (listeners (f_callbacks f)) c w with
    | (Returns None, w1) =>
        (Returns (answer listener (calls w1) c),
         logged w1 [(length (listeners (f_callbacks f)), c)])
    | r => r
    end.
Proof.
  simpl. rewrite fanout_app.
  destruct (fanout 0 (listeners (f_callbacks f)) c w) as [[[e |] |] w1]; [done | | done].
  simpl. unfold bind. rewrite deliver_eq. cbv beta iota.
  by destruct (answer listener (calls w1) c).
Qed.

Section MoreHandlerProperties.
Context `{Platform}.

(** X3. One message of a batch leads to at most one callback: whatever
    the message, everything [handleMessage] delivers is one and the same
    call, made once to each of the listeners [0 .. k-1] in registration
    order, with [k] at most the number of listeners, and nothing else of
    the world is touched. A [BlockchainOpUpdate] is never among them. *)
Theorem handleMessage_one_call (f : Fabric) (msgI : JSON) (w : World) :
  exists added out,
    handleMessage f msgI w = (out, logged w added) /\
    (forall d d', d ∈ added -> d' ∈ added -> snd d = snd d') /\
    fst <$> added = seq 0 (length added) /\
    (length added <= length (listeners (f_callbacks f)))%nat /\
    (forall j nsOpID txState txID message output,
       (j, CallBlockchainOpUpdate nsOpID txState txID message output) ∉ added).
Proof.
  assert (Hquiet : forall out : outcome loopCtl, exists added out',
             (out, w) = (out', logged w added) /\
             (forall d d', d ∈ added -> d' ∈ added -> snd d = snd d') /\
             fst <$> added = seq 0 (length added) /\
             (length added <= length (listeners (f_callbacks f)))%nat /\
             (forall j nsOpID txState txID message output,
                (j, CallBlockchainOpUpdate nsOpID txState txID message output) ∉ added)).
  { intros out. exists [], out. rewrite logged_nil.
    repeat split; [by intros d d' Hd; apply elem_of_nil in Hd | simpl; lia |].
    intros * Hin. by apply elem_of_nil in Hin. }
  assert (Hfan : forall c,
             (forall nsOpID txState txID message output,
                c <> CallBlockchainOpUpdate nsOpID txState txID message output) ->
             exists added out,
               (let* err := fanout 0 (listeners (f_callbacks f)) c in
                match err with
                | Some e => ret (Return (Some e))
                | None => ret Continue
                end) w = (out, logged w added) /\
               (forall d d', d ∈ added -> d' ∈ added -> snd d = snd d') /\
               fst <$> added = seq 0 (length added) /\
               (length added <= length (listeners (f_callbacks f)))%nat /\
               (forall j nsOpID txState txID message output,
                  (j, CallBlockchainOpUpdate nsOpID txState txID message output) ∉ added)).
  { intros c Hc.
    destruct (fanout_listeners f c w) as (k & err & Hf & Hk & _ & _).
    exists (deliveries 0 k c), (Returns (ctl_of err)). unfold bind. rewrite Hf.
    split; [by destruct err |].
    split.
    { intros d d' Hd Hd'. apply elem_of_deliveries in Hd as [-> _].
      by apply elem_of_deliveries in Hd' as [-> _]. }
    split; [by rewrite fst_deliveries, length_deliveries |].
    split; [by rewrite length_deliveries |].
    intros * Hin. apply elem_of_deliveries in Hin as [Heq _]. simpl in Heq.
    by eapply Hc. }
  destruct msgI as [| b | x | s | l | msgJSON]; try apply Hquiet.
  unfold handleMessage.
  destruct (_ =? _)%string.
  - destruct (_ =? _)%string; [| apply Hquiet].
    unfold handleBatchPinEvent.
    destruct (fst (parseBlockchainEvent f msgJSON)) as [event |];
      [| apply (Hquiet (Returns Continue))].
    destruct (strings_HasPrefix _ _); [by apply Hfan |].
    destruct (hex_DecodeString _) as [hexUUIDs |]; [| apply (Hquiet (Returns Continue))].
    destruct (negb _); [apply (Hquiet (Returns Continue)) |].
    destruct (Bytes32_UnmarshalText _) as [[batchHash |] |];
      [| apply (Hquiet (Returns Continue)) | apply (Hquiet Panics)].
    destruct (decodeContexts _) as [[contexts |] |];
      [| apply (Hquiet (Returns Continue)) | apply (Hquiet Panics)].
    by apply Hfan.
  - unfold handleContractEvent.
    destruct (parseBlockchainEvent f msgJSON) as [[event |] msgJSON'];
      [by apply Hfan | apply (Hquiet (Returns Continue))].
Qed.



End MoreHandlerProperties.

Section MoreEventLoopProperties.
Context `{Platform}.

Lemma handleReceipt_logged f reply w :
  exists added, handleReceipt f reply w = (Returns tt, logged w added).
Proof.
  unfold handleReceipt. destruct (_ || _).
  - exists []. unfold ret. by rewrite logged_nil.
  - eexists. apply fanout_all_spec.
Qed.

(** X6. Whatever arrives, the only frames the event loop hands to the
    websocket are acks, the JSON text of [{type: ack, topic: f.topic}], at
    most one for each frame that parsed as an array: receipts, frames that
    do not parse and frames of any other JSON type are never answered.
    The loop only adds to the log of deliveries. When it returns or a
    panic unwinds through it, the [closed] channel is closed and the
    websocket too; as long as it is waiting for the next frame, neither is
    touched. *)
Theorem eventLoop_effects (f : Fabric) (selects : list Select) (w : World) :
  let ackFrame :=
    match json_Marshal
            (JObject (<["type" := JString "ack"]>
                      (<["topic" := JString (f_topic f)]> ∅))) with
    | inr b => b
    | inl _ => []
    end in
  exists added n,
    calls (snd (eventLoop f selects w)) = calls w ++ added /\
    sent (snd (eventLoop f selects w)) = sent w ++ replicate n ackFrame /\
    (n <= arrayFrames selects)%nat /\
    match fst (eventLoop f selects w) with
    | Returns None =>
        closed (snd (eventLoop f selects w)) = closed w /\
        wsClosed (snd (eventLoop f selects w)) = wsClosed w
    | _ =>
        closed (snd (eventLoop f selects w)) = true /\
        wsClosed (snd (eventLoop f selects w)) = true
    end.
Proof.
  intros ackFrame. change ackFrame with (ack f). clear ackFrame. revert w.
  assert (Hexit : forall why w sel,
            exists added n,
              calls (snd (eventLoop_return why w)) = calls w ++ added /\
              sent (snd (eventLoop_return why w)) = sent w ++ replicate n (ack f) /\
              (n <= arrayFrames sel)%nat /\
              match fst (eventLoop_return why w) with
              | Returns None =>
                  closed (snd (eventLoop_return why w)) = closed w /\
                  wsClosed (snd (eventLoop_return why w)) = wsClosed w
              | _ =>
                  closed (snd (eventLoop_return why w)) = true /\
                  wsClosed (snd (eventLoop_return why w)) = true
              end).
  { intros why w sel. exists [], 0%nat. simpl. rewrite !app_nil_r.
    repeat split; lia. }
  induction selects as [| s selects IH]; intros w.
  - exists [], 0%nat. simpl. rewrite !app_nil_r. repeat split; lia.
  - destruct s as [| [msgBytes |]]; [apply Hexit | | apply Hexit].
    cbn [eventLoop arrayFrames].
    destruct (json_Unmarshal msgBytes) as [e | v]; [apply IH |].
    destruct v as [| b | x | str | messages | reply]; try apply IH.
    + unfold bind, eventLoop_unwind.
      destruct (handleMessageBatch_run f messages w) as (a1 & out & Hb & _).
      rewrite Hb. destruct out as [[e |] |].
      * exists a1, 0%nat. simpl. rewrite app_nil_r. repeat split; lia.
      * unfold wsconn_Send. simpl.
        destruct (Send (f_wsconn f) (sent w) (ack f)) as [e |].
        -- exists a1, 1%nat. simpl. repeat split; lia.
        -- destruct (IH (mkWorld (calls w ++ a1) (sent w ++ [ack f])
                            (wsClosed w) (closed w)))
             as (a2 & n & Hc & Hs & Hn & Hflags).
           exists (a1 ++ a2), (S n). rewrite Hc, Hs. simpl.
           rewrite <- !app_assoc. repeat split; [lia |].
           exact Hflags.
      * exists a1, 0%nat. simpl. rewrite app_nil_r. repeat split; lia.
    + unfold bind.
      destruct (handleReceipt_logged f reply w) as (a1 & Hr). rewrite Hr.
      destruct (IH (logged w a1)) as (a2 & n & Hc & Hs & Hn & Hflags).
      exists (a1 ++ a2), n. rewrite Hc, Hs. simpl.
      rewrite <- !app_assoc. repeat split; [lia |].
      exact Hflags.
Qed.

End MoreEventLoopProperties.

(** ** More of the contract lifecycle *)

Section MoreLifecycleProperties.
Context `{Platform}.

(** What [resolveFireFlyContract] resolves: never an empty chaincode, and
    never an index at or beyond the number of configured deployments. *)
Lemma resolveFireFlyContract_resolved f contractIndex cc fb :
  resolveFireFlyContract f contractIndex = inr (cc, fb) ->
  cc <> "" /\
  (0 < f_contractConfSize f \/ 0 < contractIndex ->
   contractIndex < f_contractConfSize f /\
   cc = f_contractConf f contractIndex FireFlyContractChaincode /\
   fb = f_contractConf f contractIndex FireFlyContractFromBlock) /\
  (f_contractConfSize f <= 0 -> contractIndex <= 0 ->
   cc = f_fabconnectConf f FabconnectConfigChaincodeDeprecated /\
   fb = SubOptsFirstEventOldest).
Proof.
  unfold resolveFireFlyContract.
  destruct (0 <? f_contractConfSize f) eqn:Hs; simpl.
  - destruct (f_contractConfSize f <=? contractIndex) eqn:Hi; [done |].
    destruct (_ =? _)%string eqn:Hcc; [done |].
    intros [= <- <-]. apply String.eqb_neq in Hcc. repeat split; try done; lia.
  - destruct (0 <? contractIndex) eqn:Hp.
    + destruct (f_contractConfSize f <=? contractIndex) eqn:Hi; [done |].
      destruct (_ =? _)%string eqn:Hcc; [done |].
      intros [= <- <-]. apply String.eqb_neq in Hcc. repeat split; try done; lia.
    + destruct (_ =? _)%string eqn:Hcc; [done |]. simpl.
      intros [= <- <-]. apply String.eqb_neq in Hcc. repeat split; try done; lia.
Qed.

(** X8. When [ConfigureContract] returns nil, the deployment it has
    published in the connector and the Info it has written into the active
    contract record are the same deployment: same chaincode, fromBlock and
    subscription, the chaincode is not empty, and with deployments
    configured as an array the active index lies within them. Of the
    connector nothing but the published deployment has changed, and of the
    contracts nothing but the Info of the active record. *)
Theorem ConfigureContract_published (f f' : Fabric)
    (contracts contracts' : FireFlyContracts) :
  ConfigureContract f contracts = Returns (None, f', contracts') ->
  let fc := f_fireflyContract f' in
  fc_chaincode fc <> "" /\
  ci_Info (Active contracts') =
    activeInfo (fc_chaincode fc) (fc_fromBlock fc) (fc_subscription fc) /\
  f' = published f (fc_chaincode fc) (fc_fromBlock fc) (fc_networkVersion fc)
         (fc_subscription fc) /\
  contracts' =
    {| Active :=
         {| ci_Index := ci_Index (Active contracts);
            ci_FinalEvent := ci_FinalEvent (Active contracts);
            ci_Info := ci_Info (Active contracts') |};
       Terminated := Terminated contracts |} /\
  (0 < f_contractConfSize f \/ 0 < ci_Index (Active contracts) ->
   ci_Index (Active contracts) < f_contractConfSize f).
Proof.
  unfold ConfigureContract.
  destruct (resolveFireFlyContract _ _) as [e | [cc fb]] eqn:Hres; [done |].
  destruct (ensureFireFlySubscription _ _ _ _ _) as [e | sub]; [done |].
  destruct (getNetworkVersion _ _) as [[version [e |]] |]; [done | | done].
  intros [= <- <-]. simpl.
  apply resolveFireFlyContract_resolved in Hres as (Hcc & Harr & _).
  repeat split; try done. intros Hnew. by apply Harr.
Qed.


(** X10. After a failed roll-forward the same termination event is acted
    on again: the connector still names the terminated chaincode, so a
    second [TerminateContract] with the contracts the first one left
    behind closes the bare record of the index that could not be
    configured, stamped with the same event, and goes on to the index
    after it. *)
Theorem TerminateContract_again_after_failure (f f1 : Fabric)
    (contracts c1 : FireFlyContracts) (termination : Event) (err : GoError) :
  GetString (ev_Info termination) "chaincodeId" = fc_chaincode (f_fireflyContract f) ->
  TerminateContract f contracts termination = Returns (Some err, f1, c1) ->
  f1 = f /\
  TerminateContract f1 c1 termination =
    ConfigureContract f
      {| Active :=
           {| ci_Index := int_add (int_add (ci_Index (Active contracts)) 1) 1;
              ci_FinalEvent := "";
              ci_Info := ∅ |};
         Terminated :=
           Terminated contracts ++
           [{| ci_Index := ci_Index (Active contracts);
               ci_FinalEvent := ev_ProtocolID termination;
               ci_Info := ci_Info (Active contracts) |};
            {| ci_Index := int_add (ci_Index (Active contracts)) 1;
               ci_FinalEvent := ev_ProtocolID termination;
               ci_Info := ∅ |}] |}.
Proof.
  intros Hm. rewrite (TerminateContract_match _ _ _ Hm). intros Hc.
  apply ConfigureContract_error in Hc as [-> ->]. split; [done |].
  rewrite (TerminateContract_match _ _ _ Hm).
  unfold rolledForward, closedRecord. simpl. by rewrite <- app_assoc.
Qed.

Lemma indicesIncreasing_rolledForward contracts termination :
  indicesIncreasing contracts ->
  MinInt <= ci_Index (Active contracts) < MaxInt ->
  indicesIncreasing (rolledForward contracts termination).
Proof.
  unfold indicesIncreasing, rolledForward. simpl. intros Hinc Hrange.
  rewrite (int_add_exact _ Hrange).
  apply StronglySorted_app in Hinc as (Hlt & Hsorted & _).
  apply StronglySorted_app. split; [| split].
  - intros x1 x2 Hx1 Hx2. apply list_elem_of_singleton in Hx2 as ->.
    unfold indexOrder. simpl.
    apply elem_of_app in Hx1 as [Hx1 | Hx1].
    + pose proof (Hlt x1 (Active contracts) Hx1 (list_elem_of_here _ _)) as Hx.
      unfold indexOrder in Hx. lia.
    + apply list_elem_of_singleton in Hx1 as ->. simpl. lia.
  - apply StronglySorted_app. split; [| split; [done | repeat constructor]].
    intros x1 x2 Hx1 Hx2. apply list_elem_of_singleton in Hx2 as ->.
    apply (Hlt x1 (Active contracts) Hx1 (list_elem_of_here _ _)).
  - repeat constructor.
Qed.

Lemma indicesIncreasing_frame contracts contracts' :
  ci_Index (Active contracts') = ci_Index (Active contracts) ->
  Terminated contracts' = Terminated contracts ->
  indicesIncreasing contracts -> indicesIncreasing contracts'.
Proof.
  unfold indicesIncreasing. intros Hi -> Hinc.
  apply StronglySorted_app in Hinc as (Hlt & Hsorted & _).
  apply StronglySorted_app. split; [| split; [done | repeat constructor]].
  intros x1 x2 Hx1 Hx2. apply list_elem_of_singleton in Hx2 as ->.
  pose proof (Hlt x1 (Active contracts) Hx1 (list_elem_of_here _ _)) as Hx.
  unfold indexOrder in *. lia.
Qed.

(** X11. The contract records stay in the order of their indices: when the
    terminated contracts followed by the active one have strictly
    increasing indices, they still have after [ConfigureContract] and
    after [TerminateContract], however these return. (The index is an
    [int]: at [MaxInt] the increment wraps around.) *)
Theorem contracts_indices_increasing (f : Fabric) (contracts : FireFlyContracts)
    (termination : Event) :
  indicesIncreasing contracts ->
  MinInt <= ci_Index (Active contracts) < MaxInt ->
  (forall err f' contracts',
     ConfigureContract f contracts = Returns (err, f', contracts') ->
     indicesIncreasing contracts') /\
  (forall err f' contracts',
     TerminateContract f contracts termination = Returns (err, f', contracts') ->
     indicesIncreasing contracts').
Proof.
  intros Hinc Hrange. split.
  - intros err f' contracts' Hc.
    apply ConfigureContract_frame in Hc as (Hi & _ & Ht).
    by apply (indicesIncreasing_frame contracts).
  - intros err f' contracts'. unfold TerminateContract. destruct (negb _).
    + by intros [= _ _ <-].
    + intros Hc. apply ConfigureContract_frame in Hc as (Hi & _ & Ht).
      apply (indicesIncreasing_frame (rolledForward contracts termination)); [done | done |].
      by apply indicesIncreasing_rolledForward.
Qed.

End MoreLifecycleProperties.

(** ** Hex *)

Lemma hex_byte_round_trip (v : byte) :
  exists hi lo,
    fromHexChar (hexdigit (N.shiftr (Byte.to_N v) 4)) = Some hi /\
    fromHexChar (hexdigit (N.land (Byte.to_N v) 15)) = Some lo /\
    byte_of_ascii (ascii_of_N (16 * hi + lo)) = v.
Proof.
  exists (N.shiftr (Byte.to_N v) 4), (N.land (Byte.to_N v) 15).
  destruct v; repeat split; reflexivity.
Qed.

Lemma hex_round_trip (src : list byte) :
  hex_DecodeString (hex_EncodeToString src) = Some src.
Proof.
  induction src as [| v src IH]; [done |].
  destruct (hex_byte_round_trip v) as (hi & lo & Hhi & Hlo & Hv).
  cbn [hex_EncodeToString hex_DecodeString].
  by rewrite Hhi, Hlo, IH, Hv.
Qed.

Lemma strings_TrimPrefix_0x (s : string) :
  strings_TrimPrefix ("0x" +:+ s) "0x" = s.
Proof.
  change ("0x" +:+ s) with (String "0" (String "x" s)).
  by destruct s.
Qed.

Lemma length_copy16 (src : list byte) : length (copy16 src) = 16%nat.
Proof.
  unfold copy16. rewrite length_take, length_app, length_replicate. lia.
Qed.

Lemma copy16_id (src : list byte) : length src = 16%nat -> copy16 src = src.
Proof.
  intros Hl. unfold copy16. rewrite take_app_length'; done.
Qed.

Lemma hex_DecodeString_hexFormatB32 (b : Bytes32) :
  hex_DecodeString (strings_TrimPrefix (hexFormatB32 (Some b)) "0x") = Some b.
Proof.
  unfold hexFormatB32. rewrite strings_TrimPrefix_0x. apply hex_round_trip.
Qed.

(** X12. [hexFormatB32] and the hex decoding of [handleBatchPinEvent] are
    inverse to each other: the text written for a hash, stripped of its
    [0x], decodes to the bytes of the hash, and the text written for the
    nil hash decodes to 32 zero bytes. *)
Theorem hexFormatB32_round_trip (b : Bytes32) :
  hex_DecodeString (strings_TrimPrefix (hexFormatB32 (Some b)) "0x") = Some b /\
  hex_DecodeString (strings_TrimPrefix (hexFormatB32 None) "0x") = Some (replicate 32 x00) /\
  hexFormatB32 None = hexFormatB32 (Some (replicate 32 x00)).
Proof.
  split; [apply hex_DecodeString_hexFormatB32 | split; reflexivity].
Qed.

(** ** Request bodies *)

Section RequestProperties.
Context `{Platform}.

Lemma jsonEncodeInput_loop_step field v rest output :
  jsonEncodeInput_loop ((field, v) :: rest) output =
    match encodeValue v with
    | inl err => inl err
    | inr s => jsonEncodeInput_loop rest (<[field := s]> output)
    end.
Proof. destruct v; simpl; try done; by destruct (json_Marshal _). Qed.

Lemma jsonEncodeInput_loop_inr : forall entries output out,
  NoDup entries.*1 ->
  jsonEncodeInput_loop entries output = inr out ->
  (forall field v, (field, v) ∈ entries ->
     exists s, encodeValue v = inr s /\ out !! field = Some s) /\
  (forall field, field ∉ entries.*1 -> out !! field = output !! field).
Proof.
  induction entries as [| [k0 v0] rest IH]; intros output out Hnd Hl.
  - simpl in Hl. injection Hl as <-. split; [| done].
    intros field v Hin. by apply elem_of_nil in Hin.
  - rewrite jsonEncodeInput_loop_step in Hl.
    destruct (encodeValue v0) as [e | s0] eqn:He; [done |].
    rewrite fmap_cons in Hnd. apply NoDup_cons in Hnd as [Hk0 Hnd].
    destruct (IH _ _ Hnd Hl) as [H1 H2]. split.
    + intros field v Hin. apply elem_of_cons in Hin as [[= -> ->] | Hin].
      * exists s0. split; [done |]. rewrite H2; [| done]. apply lookup_insert_eq.
      * by apply H1.
    + intros field Hf. rewrite fmap_cons in Hf.
      apply not_elem_of_cons in Hf as [Hne Hf].
      rewrite H2; [| done]. by apply lookup_insert_ne.
Qed.

Lemma jsonEncodeInput_loop_inl : forall entries output err,
  jsonEncodeInput_loop entries output = inl err ->
  exists field v, (field, v) ∈ entries /\ encodeValue v = inl err.
Proof.
  induction entries as [| [k0 v0] rest IH]; intros output err Hl; [done |].
  rewrite jsonEncodeInput_loop_step in Hl.
  destruct (encodeValue v0) as [e | s0] eqn:He.
  - injection Hl as ->. exists k0, v0. split; [left | done].
  - destruct (IH _ _ Hl) as (field & v & Hin & Hv).
    exists field, v. split; [by right | done].
Qed.

Lemma jsonEncodeInput_inr params out :
  jsonEncodeInput params = inr out ->
  forall field,
    match params !! field with
    | Some v => exists s, encodeValue v = inr s /\ out !! field = Some s
    | None => out !! field = None
    end.
Proof.
  unfold jsonEncodeInput. intros Hl field.
  destruct (jsonEncodeInput_loop_inr _ _ _ (NoDup_fst_map_to_list params) Hl)
    as [H1 H2].
  destruct (params !! field) as [v |] eqn:Hp.
  - apply H1. by apply elem_of_map_to_list.
  - rewrite H2; [done |]. intros Hin.
    apply list_elem_of_fmap in Hin as ([k v] & Heq & Hin).
    simpl in Heq. subst k.
    apply elem_of_map_to_list in Hin. congruence.
Qed.

Lemma jsonEncodeInput_inl params err :
  jsonEncodeInput params = inl err ->
  exists field v, params !! field = Some v /\ encodeValue v = inl err.
Proof.
  unfold jsonEncodeInput. intros Hl.
  destruct (jsonEncodeInput_loop_inl _ _ _ Hl) as (field & v & Hin & Hv).
  exists field, v. split; [by apply elem_of_map_to_list | done].
Qed.

(** When every value encodes, the output is the input with every value
    encoded. *)
Lemma jsonEncodeInput_all_encoded params (g : JSON -> string) :
  (forall field v, params !! field = Some v -> encodeValue v = inr (g v)) ->
  jsonEncodeInput params = inr (g <$> params).
Proof.
  intros Hall. destruct (jsonEncodeInput params) as [err | out] eqn:Hj.
  - apply jsonEncodeInput_inl in Hj as (field & v & Hp & Hv).
    rewrite (Hall _ _ Hp) in Hv. discriminate Hv.
  - f_equal. apply map_eq. intros field.
    pose proof (jsonEncodeInput_inr _ _ Hj field) as Hf.
    rewrite lookup_fmap. destruct (params !! field) as [v |] eqn:Hp; [| done].
    destruct Hf as (s & Hs & ->). rewrite (Hall _ _ Hp) in Hs. simpl. congruence.
Qed.

Lemma jsonEncodeInput_fmap_JString (m : gmap string string) :
  jsonEncodeInput (JString <$> m) = inr m.
Proof.
  rewrite (jsonEncodeInput_all_encoded _
             (fun v => match v with JString s => s | _ => "" end)).
  - f_equal. rewrite <- map_fmap_compose. rewrite <- (map_fmap_id m) at 2.
    by apply map_fmap_ext.
  - intros field v Hv. apply lookup_fmap_Some in Hv as (s & <- & _). done.
Qed.

(** X13. [jsonEncodeInput] encodes a map field by field, whatever the
    order in which Go ranges over it: when it returns no error the output
    has exactly the fields of the input, a string as it is and any other
    value as its JSON text; the error it returns otherwise is the
    marshalling error of one of the values. *)
Theorem jsonEncodeInput_spec (params : JSONObject) :
  match jsonEncodeInput params with
  | inr output =>
      forall field,
        match params !! field with
        | Some (JString s) => output !! field = Some s
        | Some v =>
            exists encodedValue,
              json_Marshal v = inr encodedValue /\
              output !! field = Some (string_of_list_byte encodedValue)
        | None => output !! field = None
        end
  | inl err => exists field v, params !! field = Some v /\ json_Marshal v = inl err
  end.
Proof.
  destruct (jsonEncodeInput params) as [err | output] eqn:Hj.
  - apply jsonEncodeInput_inl in Hj as (field & v & Hp & Hv).
    exists field, v. split; [done |].
    destruct v; simpl in Hv; try discriminate Hv;
      by destruct (json_Marshal _); [injection Hv as -> | discriminate Hv].
  - intros field. pose proof (jsonEncodeInput_inr _ _ Hj field) as Hf.
    destruct (params !! field) as [v |]; [| done].
    destruct Hf as (s & Hs & ->).
    destruct v; simpl in Hs; try (by injection Hs as ->);
      destruct (json_Marshal _) as [e | encodedValue]; try discriminate Hs;
      injection Hs as <-; by exists encodedValue.
Qed.

Lemma addOptions_inr : forall options body body',
  NoDup options.*1 ->
  addOptions options body = inr body' ->
  (forall k v, (k, v) ∈ options ->
     body !! k = None /\ body' !! k = Some (BodyOption v)) /\
  (forall k, k ∉ options.*1 -> body' !! k = body !! k).
Proof.
  induction options as [| [k0 v0] rest IH]; intros body body' Hnd Ha.
  - simpl in Ha. injection Ha as <-. split; [| done].
    intros k v Hin. by apply elem_of_nil in Hin.
  - simpl in Ha. destruct (body !! k0) eqn:Hb; [done |].
    rewrite fmap_cons in Hnd. apply NoDup_cons in Hnd as [Hk0 Hnd].
    destruct (IH _ _ Hnd Ha) as [H1 H2]. split.
    + intros k v Hin. apply elem_of_cons in Hin as [[= -> ->] | Hin].
      * split; [done |]. rewrite H2; [| done]. apply lookup_insert_eq.
      * destruct (H1 _ _ Hin) as [Hnone Hsome]. split; [| done].
        apply lookup_insert_None in Hnone as [Hnone _]. done.
    + intros k Hk. rewrite fmap_cons in Hk.
      apply not_elem_of_cons in Hk as [Hne Hk].
      rewrite H2; [| done]. by apply lookup_insert_ne.
Qed.

Lemma addOptions_inl : forall options body err,
  NoDup options.*1 ->
  addOptions options body = inl err ->
  exists k v, (k, v) ∈ options /\ is_Some (body !! k) /\
              err = i18n_NewError MsgOverrideExistingFieldCustomOption [k].
Proof.
  induction options as [| [k0 v0] rest IH]; intros body err Hnd Ha; [done |].
  simpl in Ha. rewrite fmap_cons in Hnd. apply NoDup_cons in Hnd as [Hk0 Hnd].
  destruct (body !! k0) eqn:Hb.
  - injection Ha as <-. exists k0, v0. split; [left | split; [by rewrite Hb | done]].
  - destruct (IH _ _ Hnd Ha) as (k & v & Hin & Hsome & ->).
    exists k, v. split; [by right |]. split; [| done].
    rewrite lookup_insert_ne in Hsome; [done |].
    intros <-. apply Hk0. apply list_elem_of_fmap. by exists (k0, v).
Qed.

(** X14. A custom option can add a field to the request body, never
    replace one: when [buildFabconnectRequestBody] returns a body, its
    [headers], [func] and [args] are the ones built from the arguments
    (the args being the encoded input), no option has one of these three
    names, and every other field of the body is the option of that name;
    when an option has one of these names no body is built, and the error
    names such an option. *)
Theorem buildFabconnectRequestBody_options (f : Fabric)
    (channel chaincode methodName signingKey requestID : string)
    (prefixItems : list PrefixItem) (input options : JSONObject) :
  let headers :=
    {| h_ID := requestID;
       h_Type := "";
       h_PayloadSchema := Some {| ps_Type := "array"; ps_PrefixItems := prefixItems |};
       h_Channel := channel;
       h_Chaincode := chaincode;
       h_Signer := getUserName signingKey |} in
  let reserved k := k = "headers" \/ k = "func" \/ k = "args" in
  match buildFabconnectRequestBody f channel chaincode methodName signingKey
          requestID prefixItems input options with
  | inr body =>
      exists args,
        jsonEncodeInput input = inr args /\
        body !! "headers" = Some (BodyHeaders headers) /\
        body !! "func" = Some (BodyString methodName) /\
        body !! "args" = Some (BodyArgs args) /\
        (forall k, reserved k -> options !! k = None) /\
        (forall k, ~ reserved k -> body !! k = BodyOption <$> options !! k)
  | inl err =>
      (exists e, jsonEncodeInput input = inl e /\
                 err = i18n_WrapError (Some e) MsgJSONObjectParseFailed ["params"]) \/
      (exists k, reserved k /\ is_Some (options !! k) /\
                 err = i18n_NewError MsgOverrideExistingFieldCustomOption [k])
  end.
Proof.
  intros headers reserved. unfold buildFabconnectRequestBody.
  destruct (jsonEncodeInput input) as [e | args]; [left; by exists e |].
  fold headers.
  set (base := <["headers" := BodyHeaders headers]>
               (<["func" := BodyString methodName]>
                (<["args" := BodyArgs args]> (∅ : gmap string BodyValue)))).
  assert (Hbase : forall k, is_Some (base !! k) <-> reserved k).
  { intros k. unfold base, reserved.
    destruct (decide (k = "headers")) as [-> | Hh];
      [rewrite lookup_insert_eq; split; [by left | by eexists] |].
    rewrite lookup_insert_ne by done.
    destruct (decide (k = "func")) as [-> | Hf];
      [rewrite lookup_insert_eq; split; [right; by left | by eexists] |].
    rewrite lookup_insert_ne by done.
    destruct (decide (k = "args")) as [-> | Ha];
      [rewrite lookup_insert_eq; split; [right; by right | by eexists] |].
    rewrite lookup_insert_ne by done. rewrite lookup_empty.
    split; [by intros [x Hx] | by intros [? | [? | ?]]]. }
  destruct (addOptions (map_to_list options) base) as [err | body] eqn:Ha.
  - right.
    apply addOptions_inl in Ha as (k & v & Hin & Hsome & ->);
      [| apply NoDup_fst_map_to_list].
    exists k. split; [by apply Hbase |]. split; [| done].
    apply elem_of_map_to_list in Hin. by rewrite Hin.
  - apply addOptions_inr in Ha as [H1 H2]; [| apply NoDup_fst_map_to_list].
    assert (Hfree : forall k, reserved k -> options !! k = None).
    { intros k Hk. destruct (options !! k) as [v |] eqn:Ho; [| done].
      apply elem_of_map_to_list in Ho. destruct (H1 _ _ Ho) as [Hnone _].
      apply Hbase in Hk. rewrite Hnone in Hk. by destruct Hk. }
    assert (Hkeep : forall k, reserved k -> body !! k = base !! k).
    { intros k Hk. apply H2. intros Hin.
      apply list_elem_of_fmap in Hin as ([k' v] & Heq & Hin).
      simpl in Heq. subst k'.
      apply elem_of_map_to_list in Hin. rewrite (Hfree _ Hk) in Hin. done. }
    exists args. split; [done |].
    split; [rewrite Hkeep; [done | by left] |].
    split; [rewrite Hkeep; [done | right; by left] |].
    split; [rewrite Hkeep; [done | right; by right] |].
    split; [exact Hfree |].
    intros k Hk. destruct (options !! k) as [v |] eqn:Ho; simpl.
    + apply elem_of_map_to_list in Ho. by destruct (H1 _ _ Ho).
    + rewrite H2.
      * destruct (base !! k) eqn:Hb; [| done].
        destruct Hk. apply Hbase. by rewrite Hb.
      * intros Hin. apply list_elem_of_fmap in Hin as ([k' v] & Heq & Hin).
        simpl in Heq. subst k'.
        apply elem_of_map_to_list in Hin. congruence.
Qed.

(** Without options the body is the three fields. *)
Lemma buildFabconnectRequestBody_encoded f channel chaincode methodName
    signingKey requestID prefixItems (args : gmap string string) :
  buildFabconnectRequestBody f channel chaincode methodName signingKey
    requestID prefixItems (JString <$> args) ∅ =
  inr (<["headers" := BodyHeaders
           {| h_ID := requestID;
              h_Type := "";
              h_PayloadSchema :=
                Some {| ps_Type := "array"; ps_PrefixItems := prefixItems |};
              h_Channel := channel;
              h_Chaincode := chaincode;
              h_Signer := getUserName signingKey |}]>
       (<["func" := BodyString methodName]>
        (<["args" := BodyArgs args]> ∅))).
Proof.
  unfold buildFabconnectRequestBody.
  by rewrite jsonEncodeInput_fmap_JString, map_to_list_empty.
Qed.

End RequestProperties.

(** ** Submitting *)

Section SubmitProperties.
Context `{Platform}.


Lemma encodedInput_pin (namespace uuids batchHash payloadRef : string) (contexts : JSON) :
  encodedInput
    (<["namespace" := JString namespace]>
     (<["uuids" := JString uuids]>
      (<["batchHash" := JString batchHash]>
       (<["payloadRef" := JString payloadRef]>
        (<["contexts" := contexts]> (∅ : JSONObject)))))) =
  match encodeValue contexts with
  | inr s => JString <$> pinArgs namespace uuids batchHash payloadRef s
  | inl _ => (∅ : JSONObject)
  end.
Proof.
  unfold encodedInput.
  set (pinInput := <["namespace" := JString namespace]> _).
  destruct (encodeValue contexts) as [e | s] eqn:Hc.
  - destruct (jsonEncodeInput pinInput) as [e' | out] eqn:Hj; [done |].
    pose proof (jsonEncodeInput_inr _ _ Hj "contexts") as Hf.
    unfold pinInput in Hf.
    do 4 (rewrite lookup_insert_ne in Hf; [| discriminate]).
    rewrite lookup_insert_eq in Hf.
    destruct Hf as (s & Hs & _). congruence.
  - rewrite (jsonEncodeInput_all_encoded pinInput
               (fun v => match encodeValue v with inr s => s | inl _ => "" end)).
    + unfold pinInput, pinArgs. rewrite !fmap_insert, fmap_empty.
      cbv beta. rewrite Hc. reflexivity.
    + intros field v Hv. unfold pinInput in Hv.
      do 4 (apply lookup_insert_Some in Hv as [[_ <-] | [_ Hv]]; [reflexivity |]).
      apply lookup_insert_Some in Hv as [[_ <-] | [_ Hv]];
        [by rewrite Hc | by rewrite lookup_empty in Hv].
Qed.

Lemma invokeContractMethod_encoded f methodName signingKey requestID prefixItems
    (args : gmap string string) :
  invokeContractMethod f (f_defaultChannel f) (fc_chaincode (f_fireflyContract f))
    methodName signingKey requestID prefixItems (JString <$> args) ∅ =
  replyError (Post (f_client f) "/transactions"
                (transactionRequest f methodName signingKey requestID prefixItems args)).
Proof.
  unfold invokeContractMethod. rewrite buildFabconnectRequestBody_encoded.
  unfold replyError, transactionRequest.
  destruct (rr_err _); [done |]. by destruct (IsSuccess _).
Qed.

(** X15. What [SubmitBatchPin] sends: one [PinBatch] transaction request
    for the active chaincode on the default channel, carrying the
    operation ID as its request ID, whose five arguments are strings: the
    namespace and the payload reference as they are, the two UUIDs as the
    hex of their 32 bytes behind [0x], the batch hash as its hex, and the
    contexts as the JSON text of the array of their hex texts. It returns
    nil exactly when the request came back without a transport error and
    with a 2xx status. (Should the contexts not marshal, the request goes
    out without arguments.) *)
Theorem SubmitBatchPin_request (f : Fabric) (nsOpID signingKey : string)
    (batch : BatchPin) :
  let hashes := (fun v => hexFormatB32 (Some v)) <$> bp_Contexts batch in
  let uuids := copy16 (bp_TransactionID batch) ++ copy16 (bp_BatchID batch) in
  let args :=
    match json_Marshal (JArray (JString <$> hashes)) with
    | inr contexts =>
        pinArgs (bp_Namespace batch) (hexFormatB32 (Some uuids))
          (hexFormatB32 (Some (bp_BatchHash batch))) (bp_BatchPayloadRef batch)
          (string_of_list_byte contexts)
    | inl _ => ∅
    end in
  let r :=
    Post (f_client f) "/transactions"
      (transactionRequest f batchPinMethodName signingKey nsOpID batchPinPrefixItems args) in
  SubmitBatchPin f nsOpID signingKey batch = replyError r /\
  (SubmitBatchPin f nsOpID signingKey batch = None <->
   rr_err r = None /\ IsSuccess (rr_res r) = true).
Proof.
  intros hashes uuids args r.
  assert (Hs : SubmitBatchPin f nsOpID signingKey batch = replyError r).
  { unfold SubmitBatchPin. fold hashes. fold uuids.
    rewrite encodedInput_pin. unfold r, args, encodeValue.
    destruct (json_Marshal (JArray (JString <$> hashes))) as [e | contexts].
    - rewrite <- (fmap_empty JString). apply invokeContractMethod_encoded.
    - apply invokeContractMethod_encoded. }
  split; [exact Hs |]. rewrite Hs. clear Hs. clearbody r. unfold replyError.
  destruct (rr_err r) as [e |].
  - split; [discriminate | intros [Hd _]; discriminate Hd].
  - destruct (IsSuccess (rr_res r)).
    + split; [intros _; by split | reflexivity].
    + split; [discriminate | intros [_ Hd]; discriminate Hd].
Qed.



(** X17. A pin comes back as it was submitted: when the payload of a
    BatchPin event carries the namespace, the uuids text and the payload
    reference that [SubmitBatchPin] writes for a batch, and a batch hash
    and contexts that decode to those of the batch, [handleBatchPinEvent]
    reports a [BatchPinComplete] whose namespace, transaction ID, batch
    ID, hash, payload reference and contexts are those of the batch that
    was submitted. *)
Theorem SubmitBatchPin_round_trip (f : Fabric) (batch : BatchPin)
    (msgJSON payload : JSONObject) (w : World) :
  length (bp_TransactionID batch) = 16%nat ->
  length (bp_BatchID batch) = 16%nat ->
  strings_HasPrefix (bp_Namespace batch) FireFlyActionPrefix = false ->
  decodeJSONPayload (GetString msgJSON "payload") = Some payload ->
  GetString payload "namespace" = bp_Namespace batch ->
  GetString payload "uuids" =
    hexFormatB32 (Some (copy16 (bp_TransactionID batch) ++ copy16 (bp_BatchID batch))) ->
  GetString payload "payloadRef" = bp_BatchPayloadRef batch ->
  Bytes32_UnmarshalText (GetString payload "batchHash") = Returns (Some (bp_BatchHash batch)) ->
  Forall2 (fun sHash hash => Bytes32_UnmarshalText sHash = Returns (Some hash))
    (GetStringArray payload "contexts") (bp_Contexts batch) ->
  exists event,
    fst (parseBlockchainEvent f msgJSON) = Some event /\
    handleBatchPinEvent f msgJSON w =
      callbacks_BatchPinComplete (f_callbacks f)
        {| bp_Namespace := bp_Namespace batch;
           bp_TransactionID := bp_TransactionID batch;
           bp_BatchID := bp_BatchID batch;
           bp_BatchHash := bp_BatchHash batch;
           bp_BatchPayloadRef := bp_BatchPayloadRef batch;
           bp_Contexts := bp_Contexts batch;
           bp_Event := event |}
        {| vr_Type := VerifierTypeMSPIdentity;
           vr_Value := GetString payload "signer" |} w.
Proof.
  intros Htx Hbid Hns Hp Hpns Huuids Href Hhash Hctx.
  destruct (parseBlockchainEvent_decoded f msgJSON payload Hp)
    as (event & Hparse & Hout & _).
  exists event. split; [by rewrite Hparse |].
  unfold handleBatchPinEvent. rewrite Hparse. simpl. rewrite Hout.
  rewrite Hpns, Hns, Huuids, hex_DecodeString_hexFormatB32.
  rewrite !copy16_id by done.
  rewrite length_app, Htx, Hbid. simpl.
  rewrite Hhash, (proj2 (decodeContexts_Forall2 _ _) Hctx), Href.
  do 3 f_equal.
  - rewrite take_app_length'; done.
  - rewrite drop_app_length' by done. apply take_ge. lia.
Qed.


End SubmitProperties.

(** ** The ProtocolID *)

Lemma length_pretty_N_go (x : N) : forall s,
  String.length (pretty_N_go x s) =
  (String.length (pretty_N_go x "") + String.length s)%nat.
Proof.
  induction (N.lt_wf_0 x) as [x _ IH]. intros s.
  destruct (decide (x = 0)%N) as [-> | Hx].
  - by rewrite !pretty_N_go_0.
  - assert (0 < x)%N as Hpos by lia.
    rewrite (pretty_N_go_step x s Hpos), (pretty_N_go_step x "" Hpos).
    assert (x / 10 < x)%N as Hlt by (apply N.div_lt; lia).
    rewrite (IH _ Hlt (String _ s)), (IH _ Hlt (String _ "")). simpl. lia.
Qed.

Lemma zeros_snoc (k : nat) : zeros k +:+ "0" = zeros (S k).
Proof.
  induction k as [| k IH]; [done |].
  change (zeros (S k) +:+ "0") with (String "0" (zeros k +:+ "0")).
  by rewrite IH.
Qed.

Lemma fixedWidth_0 (k : nat) : fixedWidth k 0 = zeros k.
Proof.
  induction k as [| k IH]; [done |].
  cbn [fixedWidth]. change (0 / 10)%N with 0%N. rewrite IH.
  change (pretty_N_char (0 mod 10)) with "0"%char. apply zeros_snoc.
Qed.

Lemma append_assoc (a b c : string) : (a +:+ b) +:+ c = a +:+ (b +:+ c).
Proof.
  induction a as [| x a IH]; [done |].
  change (String x ((a +:+ b) +:+ c) = String x (a +:+ (b +:+ c))). by rewrite IH.
Qed.

Lemma length_append (a b : string) :
  String.length (a +:+ b) = (String.length a + String.length b)%nat.
Proof.
  induction a as [| x a IH]; [done |].
  change (S (String.length (a +:+ b)) = S (String.length a + String.length b)).
  by rewrite IH.
Qed.

Lemma length_fixedWidth (k : nat) : forall n, String.length (fixedWidth k n) = k.
Proof.
  induction k as [| k IH]; intros n; [done |].
  cbn [fixedWidth]. rewrite length_append, IH. simpl. lia.
Qed.

(** Padding the digits of [x] with zeros to the width [k] gives its [k]
    last digits when [x] has no more than [k]. *)
Lemma zeros_pretty_N_go (k : nat) : forall x s,
  (x < 10 ^ N.of_nat k)%N ->
  zeros (k - String.length (pretty_N_go x "")) +:+ pretty_N_go x s =
  fixedWidth k x +:+ s.
Proof.
  induction k as [| k IH]; intros x s Hx.
  - assert (x = 0)%N as -> by (simpl in Hx; lia). by rewrite !pretty_N_go_0.
  - destruct (decide (x = 0)%N) as [-> | Hne].
    + rewrite !pretty_N_go_0, fixedWidth_0. done.
    + assert (0 < x)%N as Hpos by lia.
      assert (x / 10 < 10 ^ N.of_nat k)%N as Hdiv.
      { apply N.Div0.div_lt_upper_bound.
        rewrite Nat2N.inj_succ, N.pow_succ_r' in Hx. lia. }
      rewrite (pretty_N_go_step x s Hpos), (pretty_N_go_step x "" Hpos).
      rewrite length_pretty_N_go. cbn [fixedWidth String.length].
      replace (S k - (String.length (pretty_N_go (x / 10) "") + 1))%nat
        with (k - String.length (pretty_N_go (x / 10) ""))%nat by lia.
      rewrite (IH _ _ Hdiv), append_assoc. done.
Qed.

Lemma fmt_d_prec_fixedWidth (k : nat) (z : Z) :
  0 <= z < 10 ^ Z.of_nat k ->
  fmt_d_prec k z = fixedWidth k (Z.to_N z).
Proof.
  intros [Hlo Hhi]. unfold fmt_d_prec.
  destruct z as [| p | p]; [| | lia].
  - simpl. rewrite Nat.sub_0_r, fixedWidth_0.
    clear. induction k as [| k IH]; [done |].
    change (String "0" (zeros k +:+ "") = String "0" (zeros k)). by rewrite IH.
  - change (Z.pos p <? 0) with false. cbv beta iota.
    change (Z.abs_N (Z.pos p)) with (N.pos p).
    change (Z.to_N (Z.pos p)) with (N.pos p).
    assert (pretty (N.pos p) = pretty_N_go (N.pos p) "") as -> by done.
    assert (N.pos p < 10 ^ N.of_nat k)%N as Hn.
    { apply N2Z.inj_lt. rewrite N2Z.inj_pow, nat_N_Z. simpl. lia. }
    rewrite (zeros_pretty_N_go k (N.pos p) "" Hn).
    clear. generalize (fixedWidth k (N.pos p)). intros s.
    induction s as [| x s IH]; [done |].
    change (String x (s +:+ "") = String x s). by rewrite IH.
Qed.

(** *** Comparing strings of equal length *)

Lemma compare_refl (s : string) : String.compare s s = Eq.
Proof.
  induction s as [| c s IH]; [done |].
  simpl. unfold Ascii.compare. by rewrite N.compare_refl.
Qed.

Lemma compare_append (a1 a2 r1 r2 : string) :
  String.length a1 = String.length a2 ->
  String.compare (a1 +:+ r1) (a2 +:+ r2) =
    match String.compare a1 a2 with
    | Eq => String.compare r1 r2
    | c => c
    end.
Proof.
  revert a2. induction a1 as [| c1 a1 IH]; intros [| c2 a2] Hlen; try done.
  change (match Ascii.compare c1 c2 with
          | Eq => String.compare (a1 +:+ r1) (a2 +:+ r2)
          | c => c
          end =
          match (match Ascii.compare c1 c2 with
                 | Eq => String.compare a1 a2
                 | c => c
                 end) with
          | Eq => String.compare r1 r2
          | c => c
          end).
  destruct (Ascii.compare c1 c2); [| done | done].
  apply IH. by injection Hlen.
Qed.

Lemma N_of_ascii_pretty_N_char (a : N) :
  (a < 10)%N -> N_of_ascii (pretty_N_char a) = (48 + a)%N.
Proof.
  intros Ha.
  assert (a = 0 \/ a = 1 \/ a = 2 \/ a = 3 \/ a = 4 \/ a = 5 \/ a = 6 \/ a = 7
          \/ a = 8 \/ a = 9)%N as Hcases by lia.
  repeat (destruct Hcases as [-> | Hcases]; [reflexivity |]). by subst a.
Qed.

Lemma compare_div_mod (x y : N) :
  (x ?= y)%N =
    match (x / 10 ?= y / 10)%N with
    | Eq => (x mod 10 ?= y mod 10)%N
    | c => c
    end.
Proof.
  pose proof (N.Div0.div_mod x 10) as Hx. pose proof (N.Div0.div_mod y 10) as Hy.
  pose proof (N.mod_upper_bound x 10 ltac:(lia)) as Hrx.
  pose proof (N.mod_upper_bound y 10 ltac:(lia)) as Hry.
  revert Hx Hy Hrx Hry.
  generalize (x / 10)%N (y / 10)%N (x mod 10)%N (y mod 10)%N.
  intros qx qy rx ry Hx Hy Hrx Hry.
  destruct (N.compare_spec qx qy) as [Hq | Hq | Hq].
  - destruct (N.compare_spec rx ry) as [Hr | Hr | Hr].
    + apply N.compare_eq_iff. lia.
    + apply N.compare_lt_iff. lia.
    + apply N.compare_gt_iff. lia.
  - apply N.compare_lt_iff. lia.
  - apply N.compare_gt_iff. lia.
Qed.

Lemma N_compare_add_l (p a b : N) : (p + a ?= p + b)%N = (a ?= b)%N.
Proof.
  destruct (N.compare_spec a b) as [Hc | Hc | Hc].
  - apply N.compare_eq_iff. lia.
  - apply N.compare_lt_iff. lia.
  - apply N.compare_gt_iff. lia.
Qed.

Lemma compare_fixedWidth (k : nat) : forall x y,
  (x < 10 ^ N.of_nat k)%N -> (y < 10 ^ N.of_nat k)%N ->
  String.compare (fixedWidth k x) (fixedWidth k y) = (x ?= y)%N.
Proof.
  induction k as [| k IH]; intros x y Hx Hy.
  - assert (x = 0)%N as -> by (simpl in Hx; lia).
    assert (y = 0)%N as -> by (simpl in Hy; lia). done.
  - rewrite Nat2N.inj_succ, N.pow_succ_r' in Hx, Hy.
    cbn [fixedWidth].
    rewrite compare_append by (by rewrite !length_fixedWidth).
    rewrite IH by (apply N.Div0.div_lt_upper_bound; lia).
    rewrite (compare_div_mod x y).
    destruct (x / 10 ?= y / 10)%N; [| done | done].
    simpl. unfold Ascii.compare.
    rewrite !N_of_ascii_pretty_N_char by (apply N.mod_upper_bound; lia).
    rewrite N_compare_add_l.
    by destruct (x mod 10 ?= y mod 10)%N.
Qed.

(** Two numbers that fit the width are ordered as their texts are. *)
Lemma compare_fmt_d_prec (k : nat) (x y : Z) :
  0 <= x < 10 ^ Z.of_nat k -> 0 <= y < 10 ^ Z.of_nat k ->
  String.length (fmt_d_prec k x) = k /\
  String.compare (fmt_d_prec k x) (fmt_d_prec k y) = (x ?= y).
Proof.
  intros Hx Hy. rewrite !fmt_d_prec_fixedWidth by done.
  split; [apply length_fixedWidth |].
  rewrite compare_fixedWidth.
  - apply Z2N.inj_compare; lia.
  - apply N2Z.inj_lt. rewrite N2Z.inj_pow, nat_N_Z, Z2N.id; lia.
  - apply N2Z.inj_lt. rewrite N2Z.inj_pow, nat_N_Z, Z2N.id; lia.
Qed.

Section ProtocolIDProperties.
Context `{Platform}.

Lemma parseBlockchainEvent_ProtocolID f msgJSON event msgJSON' :
  parseBlockchainEvent f msgJSON = (Some event, msgJSON') ->
  ev_ProtocolID event =
    fmt_d_prec 12 (GetInt64 msgJSON "blockNumber") +:+ "/" +:+
    fmt_d_prec 6 (GetInt64 msgJSON "transactionIndex") +:+ "/" +:+
    fmt_d_prec 6 (GetInt64 msgJSON "eventIndex").
Proof.
  unfold parseBlockchainEvent.
  destruct (decodeJSONPayload _); [| done]. by intros [= <- _].
Qed.

(** X19. The ProtocolID that [parseBlockchainEvent] gives an event sorts
    as the event sits on the chain, and names its place uniquely: for two
    events whose block numbers have at most 12 digits and whose transaction
    and event indexes have at most 6, the byte-wise order of the
    ProtocolIDs is the order of (block, transaction, event), and the
    ProtocolIDs are equal only for the same place. *)
Theorem ProtocolID_sortable (f : Fabric) (msg1 msg2 : JSONObject)
    (event1 event2 : Event) (rest1 rest2 : JSONObject) :
  parseBlockchainEvent f msg1 = (Some event1, rest1) ->
  parseBlockchainEvent f msg2 = (Some event2, rest2) ->
  fits msg1 -> fits msg2 ->
  String.compare (ev_ProtocolID event1) (ev_ProtocolID event2) =
    place_compare (place msg1) (place msg2) /\
  (ev_ProtocolID event1 = ev_ProtocolID event2 <-> place msg1 = place msg2).
Proof.
  intros Hp1 Hp2 (Hb1 & Ht1 & He1) (Hb2 & Ht2 & He2).
  apply parseBlockchainEvent_ProtocolID in Hp1, Hp2.
  destruct (compare_fmt_d_prec 12 _ _ Hb1 Hb2) as [Hlb Hcb].
  destruct (compare_fmt_d_prec 12 _ _ Hb2 Hb1) as [Hlb' _].
  destruct (compare_fmt_d_prec 6 _ _ Ht1 Ht2) as [Hlt Hct].
  destruct (compare_fmt_d_prec 6 _ _ Ht2 Ht1) as [Hlt' _].
  destruct (compare_fmt_d_prec 6 _ _ He1 He2) as [_ Hce].
  assert (Hcmp : String.compare (ev_ProtocolID event1) (ev_ProtocolID event2) =
                 place_compare (place msg1) (place msg2)).
  { rewrite Hp1, Hp2. unfold place, place_compare.
    rewrite compare_append by congruence. rewrite Hcb.
    destruct (_ ?= _); [| done | done].
    rewrite (compare_append "/" "/") by done.
    change (String.compare "/" "/") with Eq. cbv beta iota.
    rewrite compare_append by congruence. rewrite Hct.
    destruct (_ ?= _); [| done | done].
    rewrite (compare_append "/" "/") by done.
    change (String.compare "/" "/") with Eq. cbv beta iota.
    exact Hce. }
  split; [exact Hcmp |]. split.
  - intros Heq. rewrite Heq, compare_refl in Hcmp. symmetry in Hcmp.
    unfold place, place_compare in *.
    destruct (Z.compare_spec (GetInt64 msg1 "blockNumber") (GetInt64 msg2 "blockNumber"))
      as [-> | |]; [| done | done].
    destruct (Z.compare_spec (GetInt64 msg1 "transactionIndex")
                (GetInt64 msg2 "transactionIndex")) as [-> | |]; [| done | done].
    apply Z.compare_eq in Hcmp. by rewrite Hcmp.
  - unfold place. intros [= Hb Ht He]. rewrite Hp1, Hp2. by rewrite Hb, Ht, He.
Qed.

End ProtocolIDProperties.

(** * The properties on the sample frames *)

Section OnSamples.
Import Samples.
#[local] Existing Instance Reference.platform.

(** C1 on [pinMessage]: one [BatchPinComplete] for the one listener, with
    the two UUIDs, the hash and the two contexts of the event. *)
Lemma handleBatchPinEvent_well_formed_witness :
  decodeJSONPayload (GetString pinMessage "payload") = Some pinOutput /\
  strings_HasPrefix (GetString pinOutput "namespace") FireFlyActionPrefix = false /\
  hex_DecodeString (strings_TrimPrefix (GetString pinOutput "uuids") "0x") = Some pinUUIDs /\
  length pinUUIDs = 32%nat /\
  Bytes32_UnmarshalText (GetString pinOutput "batchHash") = Returns (Some pinBatchHash) /\
  Forall2 (fun sHash hash => Bytes32_UnmarshalText sHash = Returns (Some hash))
    (GetStringArray pinOutput "contexts") pinContexts /\
  exists event k err,
    handleBatchPinEvent sampleFabric pinMessage world0 =
      (Returns err,
       logged world0
         (deliveries 0 k
            (CallBatchPinComplete
               {| bp_Namespace := "ns1";
                  bp_TransactionID := take 16 pinUUIDs;
                  bp_BatchID := drop 16 pinUUIDs;
                  bp_BatchHash := pinBatchHash;
                  bp_BatchPayloadRef := "Qmf412jQZiuVUtdgnB36FXFX7xg5V6KEbSJ4dpQuhkLyfD";
                  bp_Contexts := pinContexts;
                  bp_Event := event |}
               {| vr_Type := VerifierTypeMSPIdentity; vr_Value := theSigner |}))) /\
    (err = None -> k = 1%nat).
Proof.
  assert (H1 : decodeJSONPayload (GetString pinMessage "payload") = Some pinOutput)
    by run_code.
  assert (H2 : strings_HasPrefix (GetString pinOutput "namespace") FireFlyActionPrefix = false)
    by run_code.
  assert (H3 : hex_DecodeString (strings_TrimPrefix (GetString pinOutput "uuids") "0x")
               = Some pinUUIDs) by run_code.
  assert (H4 : length pinUUIDs = 32%nat) by run_code.
  assert (H5 : Bytes32_UnmarshalText (GetString pinOutput "batchHash")
               = Returns (Some pinBatchHash)) by run_code.
  assert (H6 : Forall2 (fun sHash hash => Bytes32_UnmarshalText sHash = Returns (Some hash))
                 (GetStringArray pinOutput "contexts") pinContexts).
  { change (GetStringArray pinOutput "contexts") with pinContextTexts.
    unfold pinContexts, pinContextTexts.
    repeat constructor; run_code. }
  repeat (split; [assumption |]).
  destruct (handleBatchPinEvent_well_formed sampleFabric pinMessage pinOutput pinUUIDs
              pinBatchHash pinContexts world0 H1 H2 H3 H4 H5 H6)
    as (event & k & err & _ & _ & Hlog & _ & Hall & _).
  exists event, k, err. split; [exact Hlog | exact Hall].
Defined.

(** The run itself: the listener is invoked once, and with the UUIDs of the
    test of the Ethereum connector. *)
Example handleMessageBatch_pinMessage :
  fst (handleMessageBatch sampleFabric [JObject pinMessage] world0) = Returns None /\
  (fun d => (fst d,
             match snd d with
             | CallBatchPinComplete batch _ =>
                 Some (bp_Namespace batch, bp_TransactionID batch, bp_BatchID batch,
                       length (bp_Contexts batch), ev_ProtocolID (bp_Event batch))
             | _ => None
             end))
    <$> calls (snd (handleMessageBatch sampleFabric [JObject pinMessage] world0)) =
  [(0%nat,
    Some ("ns1",
          bytesOf "e19af8b390604051812d7597d19adfb9",
          bytesOf "847d3bfd074249efb65d3fed15f5b0a6",
          2%nat,
          "000000000091/000002/000050"))].
Proof. split; run_code. Qed.

(** C2 on a frame with [pinMessage]: the batch is handled without an
    error, and the one frame sent is the text [ackText], which is the JSON
    text of the ack of [topic1]. *)
Lemma eventLoop_ack_iff_batch_ok_witness :
  json_Unmarshal (frame [pinMessage]) = inr (JArray [JObject pinMessage]) /\
  json_Marshal (JObject (<["type" := JString "ack"]> (<["topic" := JString "topic1"]> ∅)))
    = inr (list_byte_of_string ackText) /\
  json_Unmarshal (list_byte_of_string ackText)
    = inr (JObject (<["type" := JString "ack"]> (<["topic" := JString "topic1"]> ∅))) /\
  fst (handleMessageBatch sampleFabric [JObject pinMessage] world0) = Returns None /\
  sent (snd (eventLoop sampleFabric [Receive (Some (frame [pinMessage]))] world0))
    = [list_byte_of_string ackText].
Proof.
  assert (H1 : json_Unmarshal (frame [pinMessage]) = inr (JArray [JObject pinMessage]))
    by run_code.
  assert (H2 : json_Marshal
                 (JObject (<["type" := JString "ack"]> (<["topic" := JString "topic1"]> ∅)))
               = inr (list_byte_of_string ackText)) by run_code.
  assert (H3 : json_Unmarshal (list_byte_of_string ackText)
               = inr (JObject (<["type" := JString "ack"]>
                               (<["topic" := JString "topic1"]> ∅)))) by run_code.
  assert (H4 : fst (handleMessageBatch sampleFabric [JObject pinMessage] world0)
               = Returns None) by run_code.
  repeat (split; [assumption |]).
  destruct (eventLoop_ack_iff_batch_ok sampleFabric (frame [pinMessage])
              [JObject pinMessage] [] world0 H1)
    as (added & out & Hb & _ & Hsent & _).
  rewrite Hb in H4. simpl in H4.
  change (f_topic sampleFabric) with "topic1" in Hsent.
  rewrite H2 in Hsent. exact (proj2 Hsent H4).
Defined.

(** The two ends of C2, run: a batch that is taken is acked and the loop
    waits for the next frame; a listener that is shutting down ends the loop
    with its error, nothing is sent, and the frame behind is not looked at. *)
Example eventLoop_acks :
  (fun r => (fst r, string_of_list_byte <$> sent (snd r), length (calls (snd r)), closed (snd r)))
    (eventLoop sampleFabric [Receive (Some (frame [pinMessage]))] world0) =
  (Returns None, [ackText], 1%nat, false).
Proof. run_code. Qed.

Example eventLoop_exits_unacked :
  (fun r => (fst r, sent (snd r), length (calls (snd r)), closed (snd r)))
    (eventLoop closingFabric
       [Receive (Some (frame [pinMessage])); Receive (Some (frame [customMessage]))] world0) =
  (Returns (Some (ExitError shutdown)), [], 1%nat, true).
Proof. run_code. Qed.

(** A BatchPin event whose batch hash is the hex of 33 bytes: decoding it
    panics, the event behind it in the batch is not handled, and the event
    loop goes down without an ack, its deferred calls run. *)
Example eventLoop_long_hash :
  decodeJSONPayload (GetString longHashMessage "payload") = Some longHashOutput /\
  Bytes32_UnmarshalText (GetString longHashOutput "batchHash") = Panics /\
  handleMessageBatch sampleFabric [JObject longHashMessage; JObject pinMessage] world0 =
    (Panics, world0) /\
  eventLoop sampleFabric
    [Receive (Some (frame [longHashMessage; pinMessage]));
     Receive (Some (frame [pinMessage]))] world0 =
    (Panics, mkWorld [] [] true true).
Proof. repeat split; run_code. Qed.

(** C3 on [actionMessage]: one [BlockchainNetworkAction] with the action
    [terminate]. *)
Lemma handleBatchPinEvent_network_action_witness :
  decodeJSONPayload (GetString actionMessage "payload") = Some actionOutput /\
  strings_HasPrefix (GetString actionOutput "namespace") FireFlyActionPrefix = true /\
  exists event k err,
    handleBatchPinEvent sampleFabric actionMessage world0 =
      (Returns err,
       logged world0
         (deliveries 0 k
            (CallBlockchainNetworkAction "terminate" event
               {| vr_Type := VerifierTypeMSPIdentity; vr_Value := theSigner |}))) /\
    (err = None -> k = 1%nat).
Proof.
  assert (H1 : decodeJSONPayload (GetString actionMessage "payload") = Some actionOutput)
    by run_code.
  assert (H2 : strings_HasPrefix (GetString actionOutput "namespace") FireFlyActionPrefix = true)
    by run_code.
  repeat (split; [assumption |]).
  destruct (handleBatchPinEvent_network_action sampleFabric actionMessage actionOutput
              world0 H1 H2)
    as (event & k & err & _ & _ & _ & Hlog & _ & Hall & _).
  exists event, k, err. split; [exact Hlog | exact Hall].
Defined.

(** C4 on [customMessage]: one [BlockchainEvent] that carries the subId of
    the message. *)
Lemma handleMessage_other_subscription_witness :
  GetString customMessage "subId" <> fc_subscription (f_fireflyContract sampleFabric) /\
  exists event k err,
    handleMessage sampleFabric (JObject customMessage) world0 =
      (Returns (ctl_of err),
       logged world0
         (deliveries 0 k
            (CallBlockchainEvent
               {| ews_Event := event; ews_Subscription := otherSub |}))) /\
    (err = None -> k = 1%nat).
Proof.
  assert (H1 : GetString customMessage "subId"
               <> fc_subscription (f_fireflyContract sampleFabric)).
  { intros Heq. vm_compute in Heq. discriminate Heq. }
  split; [exact H1 |].
  pose proof (handleMessage_other_subscription sampleFabric customMessage world0 H1)
    as Hthm.
  assert (Hp : decodeJSONPayload (GetString customMessage "payload") = Some customOutput)
    by run_code.
  rewrite Hp in Hthm.
  destruct Hthm as (event & k & err & _ & _ & Hlog & _ & Hall & _).
  exists event, k, err. split; [exact Hlog | exact Hall].
Defined.

(** C4 as it was claimed fails on [undecodableCustomMessage], an event of a
    custom contract whose payload is a plain text: its subId is not the
    active subscription, a listener is registered, and the batch with this
    message ends without an error and without any callback. *)
Lemma undecodable_custom_event_is_dropped :
  (GetString undecodableCustomMessage "subId"
     =? fc_subscription (f_fireflyContract sampleFabric))%string = false /\
  base64_DecodeString (GetString undecodableCustomMessage "payload")
    = Some (list_byte_of_string "plain text") /\
  length (listeners (f_callbacks sampleFabric)) = 1%nat /\
  handleMessageBatch sampleFabric [JObject undecodableCustomMessage] world0 =
    (Returns None, world0).
Proof. repeat split; run_code. Qed.

(** C5 fails on a batch of a number and [pinMessage]: the batch ends at
    the number, without an error and without the callback for the
    well-formed event behind it, which alone, or behind a BatchPin event
    with an undecodable payload, is delivered. *)
Theorem handleMessageBatch_non_object_drops_rest :
  handleMessageBatch sampleFabric [JNumber (inject_Z 10); JObject pinMessage] world0 =
    (Returns None, world0) /\
  length (calls (snd (handleMessageBatch sampleFabric [JObject pinMessage] world0))) = 1%nat /\
  handleMessageBatch sampleFabric
    [JObject undecodablePinMessage; JObject pinMessage] world0 =
  handleMessageBatch sampleFabric [JObject pinMessage] world0.
Proof. repeat split; run_code. Qed.

(** C9, run: a receipt of type [TransactionSuccess] is reported as
    succeeded, one of another type as failed, one without a requestId not
    at all. *)
Example handleReceipt_samples :
  (fun r : JSONObject =>
     (fun d => match snd d with
               | CallBlockchainOpUpdate nsOpID txState _ _ _ => Some (nsOpID, txState)
               | _ => None
               end) <$> calls (snd (handleReceipt sampleFabric r world0)))
    <$> [receipt "ns1:op1" "TransactionSuccess";
         receipt "ns1:op2" "TransactionFailure";
         receipt "" "TransactionSuccess"] =
  [[Some ("ns1:op1", OpStatusSucceeded)]; [Some ("ns1:op2", OpStatusFailed)]; []].
Proof. run_code. Qed.

(** C6 on the first of the two configured deployments: the connector moves
    on to [firefly2]. *)
Lemma TerminateContract_rolls_forward_witness :
  GetString (ev_Info (terminationOf "firefly")) "chaincodeId"
    = fc_chaincode (f_fireflyContract sampleFabric) /\
  MinInt <= ci_Index (Active contracts0) < MaxInt /\
  resolveFireFlyContract sampleFabric (ci_Index (Active contracts0) + 1)
    = inr ("firefly2", "oldest") /\
  ensureFireFlySubscription (f_streams sampleFabric)
    {| Channel := f_defaultChannel sampleFabric; Chaincode := "firefly2" |} "oldest"
    (f_streamID sampleFabric) batchPinEvent = inr (mksubscription "sb-firefly2") /\
  getNetworkVersion sampleFabric "firefly2" = Returns (2, None) /\
  TerminateContract sampleFabric contracts0 (terminationOf "firefly") =
    Returns (None, published sampleFabric "firefly2" "oldest" 2 "sb-firefly2",
             {| Active :=
                  {| ci_Index := 1;
                     ci_FinalEvent := "";
                     ci_Info := activeInfo "firefly2" "oldest" "sb-firefly2" |};
                Terminated :=
                  [{| ci_Index := 0;
                      ci_FinalEvent := "000000000091/000002/000051";
                      ci_Info := ci_Info (Active contracts0) |}] |}).
Proof.
  assert (H1 : GetString (ev_Info (terminationOf "firefly")) "chaincodeId"
               = fc_chaincode (f_fireflyContract sampleFabric)) by run_code.
  assert (H2 : MinInt <= ci_Index (Active contracts0) < MaxInt).
  { unfold MinInt, MaxInt. simpl. lia. }
  assert (H3 : resolveFireFlyContract sampleFabric (ci_Index (Active contracts0) + 1)
               = inr ("firefly2", "oldest")) by run_code.
  assert (H4 : ensureFireFlySubscription (f_streams sampleFabric)
                 {| Channel := f_defaultChannel sampleFabric; Chaincode := "firefly2" |}
                 "oldest" (f_streamID sampleFabric) batchPinEvent
               = inr (mksubscription "sb-firefly2")) by run_code.
  assert (H5 : getNetworkVersion sampleFabric "firefly2" = Returns (2, None)) by run_code.
  repeat (split; [assumption |]).
  exact (proj2 (TerminateContract_rolls_forward sampleFabric contracts0
                  (terminationOf "firefly") H1 H2)
           "firefly2" "oldest" (mksubscription "sb-firefly2") 2 H3 H4 H5).
Defined.

(** C7 on a termination event of a chaincode that is not the active one. *)
Lemma TerminateContract_ignores_other_contract_witness :
  GetString (ev_Info (terminationOf "firefly0")) "chaincodeId"
    <> fc_chaincode (f_fireflyContract sampleFabric) /\
  TerminateContract sampleFabric contracts0 (terminationOf "firefly0") =
    Returns (None, sampleFabric, contracts0).
Proof.
  assert (H1 : GetString (ev_Info (terminationOf "firefly0")) "chaincodeId"
               <> fc_chaincode (f_fireflyContract sampleFabric)).
  { intros Heq. vm_compute in Heq. discriminate Heq. }
  split; [exact H1 |].
  exact (TerminateContract_ignores_other_contract sampleFabric contracts0
           (terminationOf "firefly0") H1).
Defined.

(** C8 on a deployment whose chaincode has no [NetworkVersion]: the query
    fails with the text of fabconnect, and version 1 is published. *)
Lemma getNetworkVersion_not_found_witness :
  resolveFireFlyContract version1Fabric (ci_Index (Active contracts0)) = inr ("firefly", "0") /\
  ensureFireFlySubscription (f_streams version1Fabric)
    {| Channel := f_defaultChannel version1Fabric; Chaincode := "firefly" |} "0"
    (f_streamID version1Fabric) batchPinEvent = inr (mksubscription "sb-firefly") /\
  queryContractMethod version1Fabric (f_defaultChannel version1Fabric) "firefly"
    networkVersionMethodName (f_signer version1Fabric) "" [] ∅ ∅ =
    (Some (mkResponse 500 (body (JObject {["error" := JString notFoundText]}))),
     Some (mkGoError ("Error from fabconnect: " +:+ notFoundText))) /\
  getNetworkVersion version1Fabric "firefly" = Returns (1, None) /\
  ConfigureContract version1Fabric contracts0 =
    Returns (None, published version1Fabric "firefly" "0" 1 "sb-firefly",
             {| Active :=
                  {| ci_Index := 0;
                     ci_FinalEvent := "";
                     ci_Info := activeInfo "firefly" "0" "sb-firefly" |};
                Terminated := [] |}).
Proof.
  assert (H1 : resolveFireFlyContract version1Fabric (ci_Index (Active contracts0))
               = inr ("firefly", "0")) by run_code.
  assert (H2 : ensureFireFlySubscription (f_streams version1Fabric)
                 {| Channel := f_defaultChannel version1Fabric; Chaincode := "firefly" |}
                 "0" (f_streamID version1Fabric) batchPinEvent
               = inr (mksubscription "sb-firefly")) by run_code.
  assert (H3 : queryContractMethod version1Fabric (f_defaultChannel version1Fabric)
                 "firefly" networkVersionMethodName (f_signer version1Fabric) "" [] ∅ ∅ =
               (Some (mkResponse 500 (body (JObject {["error" := JString notFoundText]}))),
                Some (mkGoError ("Error from fabconnect: " +:+ notFoundText)))) by run_code.
  repeat (split; [assumption |]).
  exact (getNetworkVersion_not_found version1Fabric contracts0 "firefly" "0"
           (mksubscription "sb-firefly") _ _ H1 H2 H3).
Defined.

(** The other end of C8: a query that fails with another text is an error
    of [ConfigureContract], and nothing is published. *)
Example ConfigureContract_query_error :
  ConfigureContract (connector [accepting] (clientFailing "connection refused")) contracts0 =
    Returns (Some (mkGoError "Error from fabconnect: connection refused"),
             connector [accepting] (clientFailing "connection refused"), contracts0).
Proof. run_code. Qed.

(** C10 on the last configured deployment: there is none at index 2, the
    error is returned and the contracts are left rolled forward. *)
Lemma TerminateContract_not_atomic_witness :
  GetString (ev_Info (terminationOf "firefly")) "chaincodeId"
    = fc_chaincode (f_fireflyContract sampleFabric) /\
  ConfigureContract sampleFabric (rolledForward contracts1 (terminationOf "firefly")) =
    Returns (Some (i18n_NewError MsgInvalidFireFlyContractIndex
                     ["blockchain.fabric.fireflyContract[2]"]),
             sampleFabric, rolledForward contracts1 (terminationOf "firefly")) /\
  TerminateContract sampleFabric contracts1 (terminationOf "firefly") =
    Returns (Some (i18n_NewError MsgInvalidFireFlyContractIndex
                     ["blockchain.fabric.fireflyContract[2]"]),
             sampleFabric,
             {| Active := {| ci_Index := 2; ci_FinalEvent := ""; ci_Info := ∅ |};
                Terminated :=
                  [{| ci_Index := 1;
                      ci_FinalEvent := "000000000091/000002/000051";
                      ci_Info := ci_Info (Active contracts1) |}] |}).
Proof.
  assert (H1 : GetString (ev_Info (terminationOf "firefly")) "chaincodeId"
               = fc_chaincode (f_fireflyContract sampleFabric)) by run_code.
  assert (H2 : ConfigureContract sampleFabric
                 (rolledForward contracts1 (terminationOf "firefly")) =
               Returns (Some (i18n_NewError MsgInvalidFireFlyContractIndex
                                ["blockchain.fabric.fireflyContract[2]"]),
                        sampleFabric, rolledForward contracts1 (terminationOf "firefly")))
    by run_code.
  repeat (split; [assumption |]).
  exact (proj1 (TerminateContract_not_atomic sampleFabric contracts1
                  (terminationOf "firefly") _ _ _ H1 H2)).
Defined.

End OnSamples.

(** * More of the connector on the sample frames *)

Section MoreOnSamples.
Import Samples LaterSamples.
#[local] Existing Instance Reference.platform.

(** X1 on three listeners of which the second is shutting down: the first
    two are invoked, the third is not. *)
Lemma fanout_stops_at_first_error_witness :
  listeners threeListeners = [accepting] ++ shuttingDown :: [accepting] /\
  fanout 0 (listeners threeListeners) customCall world0 =
    (Returns (Some shutdown), logged world0 (deliveries 0 2 customCall)).
Proof.
  split; [reflexivity |].
  refine (proj1 (fanout_stops_at_first_error threeListeners [accepting] [accepting]
                   shuttingDown customCall shutdown world0 eq_refl _ eq_refl)).
  intros j l Hl. destruct j as [| j]; simpl in Hl.
  - injection Hl as <-. reflexivity.
  - by rewrite lookup_nil in Hl.
Defined.


(** X5 on a BatchPin event whose payload is no base64, in front of
    [pinMessage]. *)
Lemma handleMessageBatch_malformed_event_witness :
  GetString undecodablePinMessage "subId" = fc_subscription (f_fireflyContract sampleFabric) /\
  GetString undecodablePinMessage "eventName" = broadcastBatchEventName /\
  decodeJSONPayload (GetString undecodablePinMessage "payload") = None /\
  handleMessageBatch sampleFabric
    ([] ++ JObject undecodablePinMessage :: [JObject pinMessage]) world0 =
  handleMessageBatch sampleFabric ([] ++ [JObject pinMessage]) world0.
Proof.
  assert (H1 : GetString undecodablePinMessage "subId"
               = fc_subscription (f_fireflyContract sampleFabric)) by run_code.
  assert (H2 : GetString undecodablePinMessage "eventName" = broadcastBatchEventName)
    by run_code.
  assert (H3 : decodeJSONPayload (GetString undecodablePinMessage "payload") = None)
    by run_code.
  repeat (split; [assumption |]).
  exact (handleMessageBatch_malformed_event sampleFabric undecodablePinMessage []
           [JObject pinMessage] world0 H1 H2 (bad_payload _ H3)).
Defined.

(** X7 on a frame whose first event has a batch hash of 33 bytes. *)
Lemma eventLoop_crashing_witness :
  json_Unmarshal (frame [longHashMessage; pinMessage])
    = inr (JArray [JObject longHashMessage; JObject pinMessage]) /\
  Bytes32_UnmarshalText (GetString longHashOutput "batchHash") = Panics /\
  eventLoop sampleFabric
    [Receive (Some (frame [longHashMessage; pinMessage]));
     Receive (Some (frame [pinMessage]))] world0 =
    (Panics, mkWorld (calls world0) (sent world0) true true).
Proof.
  assert (H1 : json_Unmarshal (frame [longHashMessage; pinMessage])
               = inr (JArray [JObject longHashMessage; JObject pinMessage])) by run_code.
  assert (H2 : Bytes32_UnmarshalText (GetString longHashOutput "batchHash") = Panics)
    by run_code.
  assert (H3 : GetString longHashMessage "subId"
               = fc_subscription (f_fireflyContract sampleFabric)) by run_code.
  assert (H4 : GetString longHashMessage "eventName" = broadcastBatchEventName)
    by run_code.
  assert (H5 : decodeJSONPayload (GetString longHashMessage "payload") = Some longHashOutput)
    by run_code.
  assert (H6 : strings_HasPrefix (GetString longHashOutput "namespace") FireFlyActionPrefix
               = false) by run_code.
  assert (H7 : hex_DecodeString (strings_TrimPrefix (GetString longHashOutput "uuids") "0x")
               = Some pinUUIDs) by run_code.
  assert (H8 : length pinUUIDs = 32%nat) by run_code.
  repeat (split; [assumption |]).
  exact (eventLoop_crashing sampleFabric _ longHashMessage [JObject pinMessage]
           [Receive (Some (frame [pinMessage]))] world0 H1 H3 H4
           (crash_batchHash _ longHashOutput pinUUIDs H5 H6 H7 H8 H2)).
Defined.

(** X8 on the first configured deployment. *)
Lemma ConfigureContract_published_witness :
  ConfigureContract sampleFabric contracts0 =
    Returns (None, published sampleFabric "firefly" "0" 2 "sb-firefly",
             {| Active :=
                  {| ci_Index := 0;
                     ci_FinalEvent := "";
                     ci_Info := activeInfo "firefly" "0" "sb-firefly" |};
                Terminated := [] |}) /\
  fc_chaincode (f_fireflyContract (published sampleFabric "firefly" "0" 2 "sb-firefly")) <> "".
Proof.
  assert (H1 : ConfigureContract sampleFabric contracts0 =
               Returns (None, published sampleFabric "firefly" "0" 2 "sb-firefly",
                        {| Active :=
                             {| ci_Index := 0;
                                ci_FinalEvent := "";
                                ci_Info := activeInfo "firefly" "0" "sb-firefly" |};
                           Terminated := [] |})) by run_code.
  split; [exact H1 |].
  exact (proj1 (ConfigureContract_published _ _ _ _ H1)).
Defined.


(** X10 on the last configured deployment: the second call closes the
    record of index 2, for which nothing is configured, and looks for the
    deployment of index 3. *)
Lemma TerminateContract_again_after_failure_witness :
  GetString (ev_Info (terminationOf "firefly")) "chaincodeId"
    = fc_chaincode (f_fireflyContract sampleFabric) /\
  TerminateContract sampleFabric contracts1 (terminationOf "firefly") =
    Returns (Some (i18n_NewError MsgInvalidFireFlyContractIndex
                     ["blockchain.fabric.fireflyContract[2]"]),
             sampleFabric, rolledForward contracts1 (terminationOf "firefly")) /\
  TerminateContract sampleFabric (rolledForward contracts1 (terminationOf "firefly"))
    (terminationOf "firefly") =
    ConfigureContract sampleFabric
      {| Active :=
           {| ci_Index := int_add (int_add (ci_Index (Active contracts1)) 1) 1;
              ci_FinalEvent := "";
              ci_Info := ∅ |};
         Terminated :=
           Terminated contracts1 ++
           [{| ci_Index := ci_Index (Active contracts1);
               ci_FinalEvent := ev_ProtocolID (terminationOf "firefly");
               ci_Info := ci_Info (Active contracts1) |};
            {| ci_Index := int_add (ci_Index (Active contracts1)) 1;
               ci_FinalEvent := ev_ProtocolID (terminationOf "firefly");
               ci_Info := ∅ |}] |}.
Proof.
  assert (H1 : GetString (ev_Info (terminationOf "firefly")) "chaincodeId"
               = fc_chaincode (f_fireflyContract sampleFabric)) by run_code.
  assert (H2 : TerminateContract sampleFabric contracts1 (terminationOf "firefly") =
               Returns (Some (i18n_NewError MsgInvalidFireFlyContractIndex
                                ["blockchain.fabric.fireflyContract[2]"]),
                        sampleFabric, rolledForward contracts1 (terminationOf "firefly")))
    by run_code.
  repeat (split; [assumption |]).
  exact (proj2 (TerminateContract_again_after_failure sampleFabric _ contracts1 _
                  (terminationOf "firefly") _ H1 H2)).
Defined.

(** X11 on the roll-forward from [firefly] to [firefly2]. *)
Lemma contracts_indices_increasing_witness :
  indicesIncreasing contracts0 /\
  MinInt <= ci_Index (Active contracts0) < MaxInt /\
  TerminateContract sampleFabric contracts0 (terminationOf "firefly") =
    Returns (None, rolledFabric, rolledContracts) /\
  indicesIncreasing rolledContracts.
Proof.
  assert (H1 : indicesIncreasing contracts0) by (repeat constructor).
  assert (H2 : MinInt <= ci_Index (Active contracts0) < MaxInt).
  { unfold MinInt, MaxInt. simpl. lia. }
  assert (H3 : TerminateContract sampleFabric contracts0 (terminationOf "firefly") =
               Returns (None, rolledFabric, rolledContracts)) by run_code.
  repeat (split; [assumption |]).
  exact (proj2 (contracts_indices_increasing sampleFabric contracts0
                  (terminationOf "firefly") H1 H2) _ _ _ H3).
Defined.

(** X17 on [pinBatch] and [pinMessage], the event that carries it. *)
Lemma SubmitBatchPin_round_trip_witness :
  length (bp_TransactionID pinBatch) = 16%nat /\
  length (bp_BatchID pinBatch) = 16%nat /\
  GetString pinOutput "uuids" =
    hexFormatB32 (Some (copy16 (bp_TransactionID pinBatch) ++ copy16 (bp_BatchID pinBatch))) /\
  exists event,
    handleBatchPinEvent sampleFabric pinMessage world0 =
      callbacks_BatchPinComplete (f_callbacks sampleFabric)
        {| bp_Namespace := bp_Namespace pinBatch;
           bp_TransactionID := bp_TransactionID pinBatch;
           bp_BatchID := bp_BatchID pinBatch;
           bp_BatchHash := bp_BatchHash pinBatch;
           bp_BatchPayloadRef := bp_BatchPayloadRef pinBatch;
           bp_Contexts := bp_Contexts pinBatch;
           bp_Event := event |}
        {| vr_Type := VerifierTypeMSPIdentity; vr_Value := theSigner |} world0.
Proof.
  assert (H1 : length (bp_TransactionID pinBatch) = 16%nat) by run_code.
  assert (H2 : length (bp_BatchID pinBatch) = 16%nat) by run_code.
  assert (H3 : strings_HasPrefix (bp_Namespace pinBatch) FireFlyActionPrefix = false)
    by run_code.
  assert (H4 : decodeJSONPayload (GetString pinMessage "payload") = Some pinOutput)
    by run_code.
  assert (H5 : GetString pinOutput "namespace" = bp_Namespace pinBatch) by run_code.
  assert (H6 : GetString pinOutput "uuids" =
               hexFormatB32 (Some (copy16 (bp_TransactionID pinBatch)
                                   ++ copy16 (bp_BatchID pinBatch)))) by run_code.
  assert (H7 : GetString pinOutput "payloadRef" = bp_BatchPayloadRef pinBatch) by run_code.
  assert (H8 : Bytes32_UnmarshalText (GetString pinOutput "batchHash")
               = Returns (Some (bp_BatchHash pinBatch))) by run_code.
  assert (H9 : Forall2 (fun sHash hash => Bytes32_UnmarshalText sHash = Returns (Some hash))
                 (GetStringArray pinOutput "contexts") (bp_Contexts pinBatch)).
  { change (GetStringArray pinOutput "contexts") with pinContextTexts.
    change (bp_Contexts pinBatch) with pinContexts.
    unfold pinContexts, pinContextTexts.
    repeat constructor; run_code. }
  repeat (split; [assumption |]).
  destruct (SubmitBatchPin_round_trip sampleFabric pinBatch pinMessage pinOutput world0
              H1 H2 H3 H4 H5 H6 H7 H8 H9) as (event & _ & Hrun).
  exists event. exact Hrun.
Defined.


(** X19 on [pinMessage] and [actionMessage], events 50 and 51 of the same
    transaction. *)
Lemma ProtocolID_sortable_witness :
  fits pinMessage /\
  fits actionMessage /\
  place_compare (place pinMessage) (place actionMessage) = Lt /\
  exists event1 event2,
    fst (parseBlockchainEvent sampleFabric pinMessage) = Some event1 /\
    fst (parseBlockchainEvent sampleFabric actionMessage) = Some event2 /\
    String.compare (ev_ProtocolID event1) (ev_ProtocolID event2) = Lt.
Proof.
  assert (H1 : fits pinMessage).
  { repeat split; vm_compute; discriminate. }
  assert (H2 : fits actionMessage).
  { repeat split; vm_compute; discriminate. }
  assert (H3 : place_compare (place pinMessage) (place actionMessage) = Lt) by run_code.
  repeat (split; [assumption |]).
  assert (Hp1 : decodeJSONPayload (GetString pinMessage "payload") = Some pinOutput)
    by run_code.
  assert (Hp2 : decodeJSONPayload (GetString actionMessage "payload") = Some actionOutput)
    by run_code.
  destruct (parseBlockchainEvent_decoded sampleFabric pinMessage pinOutput Hp1)
    as (event1 & He1 & _).
  destruct (parseBlockchainEvent_decoded sampleFabric actionMessage actionOutput Hp2)
    as (event2 & He2 & _).
  exists event1, event2.
  split; [by rewrite He1 |]. split; [by rewrite He2 |].
  rewrite <- H3.
  exact (proj1 (ProtocolID_sortable sampleFabric pinMessage actionMessage event1 event2
                  _ _ He1 He2 H1 H2)).
Defined.

(** Beyond the widths the order is lost: block [10^12] sorts before the
    block in front of it. *)
Example ProtocolID_beyond_width :
  String.compare (fmt_d_prec 12 (10 ^ 12)) (fmt_d_prec 12 (10 ^ 12 - 1)) = Lt /\
  fmt_d_prec 12 (10 ^ 12) = "1000000000000" /\
  fmt_d_prec 12 (10 ^ 12 - 1) = "999999999999".
Proof. repeat split; run_code. Qed.

End MoreOnSamples.
